(** * Parameter sweeps around a model-merging tool

    A shallow embedding of the three orchestration scripts
    [merge_scan_linear.py], [merge_scan_ties.py] and [model_soup.py]:
    the generation of the swept parameter values on binary64 floats, the
    in-place recipe updates on a store of shared Python objects, and the
    sweep loops as computations over a world of external outcomes. *)

From Stdlib Require Import ZArith List Bool Lia Ascii String.
From Stdlib Require Import Floats.
From stdpp Require Import gmap strings list pretty sorting.

Set Warnings "-inexact-float,-register-all".

(** ** Python floats

    A Python [float] is a binary64 value: the kernel's primitive [float].
    Arithmetic and comparisons are the IEEE ones ([+], [-], [/], [<=?],
    [<?], [=?] of [float_scope]); [x >= y] is [y <=? x]. *)

Module PyFloat.

(** Division of integers rounded to the nearest integer, ties to even. *)
Definition Zrhe (num den : Z) : Z :=
  let q := (num / den)%Z in
  let r := (num mod den)%Z in
  match (2 * r ?= den)%Z with
  | Lt => q
  | Gt => (q + 1)%Z
  | Eq => if Z.even q then q else (q + 1)%Z
  end.

(** [m * 2^e * 10^nd] rounded to the nearest integer, ties to even:
    the digits that the correctly rounded decimal conversion with [nd]
    places after the point produces for the exact value [m * 2^e]. *)
Definition scaled_digits (m : positive) (e : Z) (nd : nat) : Z :=
  let k := (10 ^ Z.of_nat nd)%Z in
  if (0 <=? e)%Z then (Z.pos m * 2 ^ e * k)%Z
  else Zrhe (Z.pos m * k) (2 ^ (- e)).

(** The binary64 value nearest to [n / 10^nd] (ties to even), with the
    sign [s]: the correctly rounded string-to-float conversion of the
    decimal [n] followed by the exponent [-nd]. *)
Definition of_decimal (s : bool) (n : Z) (nd : nat) : float :=
  match n with
  | Z.pos p =>
      SF2Prim (SFdiv prec emax (S754_finite s p 0)
                     (S754_finite false (Z.to_pos (10 ^ Z.of_nat nd)) 0))
  | _ => if s then (-0)%float else 0%float
  end.

(** The builtin [round(x, nd)] on a float, for [nd >= 0] far below the
    limit at which CPython returns [x] itself: a non-finite [x] or a
    zero rounds to itself; a finite one is converted to the correctly
    rounded decimal with [nd] places and read back. *)
Definition round (x : float) (nd : nat) : float :=
  match Prim2SF x with
  | S754_finite s m e => of_decimal s (scaled_digits m e nd) nd
  | _ => x
  end.

(** The integer [ceil] of a finite float, [None] on NaN and infinities. *)
Definition ceil (x : float) : option Z :=
  match Prim2SF x with
  | S754_zero _ => Some 0%Z
  | S754_finite s m e =>
      let a := if (0 <=? e)%Z then (Z.pos m * 2 ^ e)%Z
               else if s then (Z.pos m / 2 ^ (- e))%Z
                    else (- ((- Z.pos m) / 2 ^ (- e)))%Z in
      Some (if s then (- a)%Z else a)
  | _ => None
  end.

(** Conversion of an integer to the nearest float ([float(n)] in Python,
    [(double)n] in C), exact below [2^53]. *)
Definition of_Z (n : Z) : float :=
  match n with
  | Z0 => 0%float
  | Z.pos p => SF2Prim (binary_normalize prec emax (Z.pos p) 0 false)
  | Z.neg p => SF2Prim (binary_normalize prec emax (Z.neg p) 0 false)
  end.

(** *** [repr] of a float

    The shortest decimal that reads back as the float, the nearest to it
    among the shortest, printed as CPython prints it: with a point when
    the decimal exponent is between -4 and 16, with an exponent of at
    least two digits otherwise. *)

(** The decimal digits of a natural number. *)
Definition decimal_digits (n : Z) : string := pretty (Z.to_N n).

(** [10^k <= num / den], for positive [num] and [den]. *)
Definition pow10_le (k num den : Z) : bool :=
  if (0 <=? k)%Z then (10 ^ k * den <=? num)%Z else (den <=? num * 10 ^ (- k))%Z.

(** The decimal exponent [k] of [num / den]: [10^k <= num/den < 10^(k+1)]. *)
Definition decimal_exponent (num den : Z) : Z :=
  let k := (((Z.log2 num - Z.log2 den) * 30103) / 100000 - 1)%Z in
  let k := if pow10_le (k + 1) num den then (k + 1)%Z else k in
  let k := if pow10_le (k + 1) num den then (k + 1)%Z else k in
  if pow10_le (k + 1) num den then (k + 1)%Z else k.

(** The float nearest to [d * 10^q], for a positive [d]. *)
Definition of_scientific (d q : Z) : spec_float :=
  if (0 <=? q)%Z then binary_normalize prec emax (d * 10 ^ q) 0 false
  else SFdiv prec emax (S754_finite false (Z.to_pos d) 0)
             (S754_finite false (Z.to_pos (10 ^ (- q))) 0).

Definition reads_back (m : positive) (e : Z) (d q : Z) : bool :=
  match SFcompare (of_scientific d q) (S754_finite false m e) with
  | Some Eq => true
  | _ => false
  end.

(** The digits [d] and the exponent [q] of a decimal [d * 10^q] of [p]
    digits that reads back as [m * 2^e], if there is one: the nearest
    such decimal first, then its neighbour on the other side. *)
Definition decimal_of_length (m : positive) (e : Z) (p : Z) : option (Z * Z) :=
  let num := (Z.pos m * 2 ^ Z.max e 0)%Z in
  let den := (2 ^ Z.max (- e) 0)%Z in
  let q := (decimal_exponent num den - p + 1)%Z in
  let n := (num * 10 ^ Z.max (- q) 0)%Z in
  let d := (den * 10 ^ Z.max q 0)%Z in
  let lo := (n / d)%Z in
  let near := Zrhe n d in
  let far := if (near =? lo)%Z then (lo + 1)%Z else lo in
  let norm := fun c => if (c =? 10 ^ p)%Z then (10 ^ (p - 1), q + 1)%Z else (c, q) in
  let ok := fun c => (10 ^ (p - 1) <=? c)%Z && reads_back m e (fst (norm c)) (snd (norm c)) in
  if ok near then Some (norm near)
  else if ok far then Some (norm far)
  else None.

Fixpoint shortest_decimal (m : positive) (e : Z) (p : Z) (fuel : nat) : Z * Z :=
  match fuel with
  | O => (Z.pos m, 0%Z)
  | S fuel' =>
      match decimal_of_length m e p with
      | Some dq => dq
      | None => shortest_decimal m e (p + 1) fuel'
      end
  end.

Definition zeros (n : Z) : string := String.concat "" (replicate (Z.to_nat n) "0").

(** The digits [ds] with the decimal point after the first [decpt] of
    them, as [repr] prints them. *)
Definition format_digits (ds : string) (decpt : Z) : string :=
  let n := Z.of_nat (String.length ds) in
  if ((decpt <=? -4) || (16 <? decpt))%Z then
    let ex := (decpt - 1)%Z in
    let mant := match ds with
                | String c EmptyString => String c EmptyString
                | String c rest => String c ("." +:+ rest)
                | EmptyString => EmptyString
                end in
    let a := Z.abs ex in
    mant +:+ "e" +:+ (if (ex <? 0)%Z then "-" else "+")
         +:+ (if (a <? 10)%Z then "0" else "") +:+ decimal_digits a
  else if (decpt <=? 0)%Z then "0." +:+ zeros (- decpt) +:+ ds
  else if (decpt <? n)%Z then
    String.substring 0 (Z.to_nat decpt) ds +:+ "." +:+
    String.substring (Z.to_nat decpt) (Z.to_nat (n - decpt)) ds
  else ds +:+ zeros (decpt - n) +:+ ".0".

Definition repr (x : float) : string :=
  match Prim2SF x with
  | S754_nan => "nan"
  | S754_infinity s => if s then "-inf" else "inf"
  | S754_zero s => if s then "-0.0" else "0.0"
  | S754_finite s m e =>
      let '(d, q) := shortest_decimal m e 1 17 in
      let ds := decimal_digits d in
      (if s then "-" else "") +:+ format_digits ds (q + Z.of_nat (String.length ds))
  end.

End PyFloat.

(** ** Python objects

    A recipe loaded by [yaml.safe_load] is a graph of dictionaries and
    lists. Each dictionary and list is an object of the store, and a
    value that is a dictionary or a list is a reference to it: two
    references to one object see each other's updates. *)

Module Py.

Definition loc := nat.

Inductive key :=
| KStr (s : string)
| KInt (i : nat).

Inductive value :=
| VNone
| VBool (b : bool)
| VInt (z : Z)
| VFloat (f : float)
| VStr (s : string)
| VRef (l : loc).

(** A dictionary keeps its items in insertion order. *)
Inductive obj :=
| ODict (items : list (key * value))
| OList (items : list value).

Inductive exn :=
| KeyError
| IndexError
| TypeError
| AttributeError
| ZeroDivisionError
| ValueError
| OverflowError
| OSError
| CalledProcessError.

Inductive res (A : Type) :=
| Ok (a : A)
| Raise (e : exn).
Arguments Ok {A} a.
Arguments Raise {A} e.

Definition key_eqb (a b : key) : bool :=
  match a, b with
  | KStr s, KStr t => String.eqb s t
  | KInt i, KInt j => Nat.eqb i j
  | _, _ => false
  end.

Fixpoint dict_get (k : key) (items : list (key * value)) : option value :=
  match items with
  | [] => None
  | (k', v) :: rest => if key_eqb k k' then Some v else dict_get k rest
  end.

(** Assignment to a key: an existing key keeps its position, a new key
    goes to the end. *)
Fixpoint dict_set (k : key) (v : value) (items : list (key * value))
    : list (key * value) :=
  match items with
  | [] => [(k, v)]
  | (k', v') :: rest =>
      if key_eqb k k' then (k', v) :: rest else (k', v') :: dict_set k v rest
  end.

(** What a run does to the outside, in order: lines printed, recipe
    files written ([save_yaml], with the value that was dumped),
    directories created and removed, external commands run
    ([subprocess.run]) and pauses. *)
Inductive event :=
| EPrint (line : string)
| EMakedirs (path : string)
| ESave (path : string) (content : value)
| ERmtree (path : string)
| ERun (cmd : list string)
| ESleep (seconds : nat).

(** The state threaded through a computation: the object store and the
    events so far. *)
Record world := World { heap : gmap loc obj; trace : list event }.

Definition M (A : Type) : Type := world -> res A * world.

Definition ret {A} (a : A) : M A := fun w => (Ok a, w).
Definition raise {A} (e : exn) : M A := fun w => (Raise e, w).
Definition bind {A B} (c : M A) (k : A -> M B) : M B :=
  fun w => match c w with
           | (Ok a, w') => k a w'
           | (Raise e, w') => (Raise e, w')
           end.

(** [try: c except Exception as e: h e]; every exception of the model
    is an [Exception]. *)
Definition try_except {A} (c : M A) (h : exn -> M A) : M A :=
  fun w => match c w with
           | (Ok a, w') => (Ok a, w')
           | (Raise e, w') => h e w'
           end.

Definition emit (ev : event) : M unit :=
  fun w => (Ok tt, World (heap w) (trace w ++ [ev])).

(** [target[k]]. *)
Definition getitem (target : value) (k : key) : M value :=
  fun w =>
    match target with
    | VRef l =>
        match heap w !! l with
        | Some (ODict items) =>
            match dict_get k items with
            | Some v => (Ok v, w)
            | None => (Raise KeyError, w)
            end
        | Some (OList items) =>
            match k with
            | KInt i =>
                match items !! i with
                | Some v => (Ok v, w)
                | None => (Raise IndexError, w)
                end
            | KStr _ => (Raise TypeError, w)
            end
        | None => (Raise TypeError, w)
        end
    | VStr s =>
        match k with
        | KInt i =>
            match String.get i s with
            | Some c => (Ok (VStr (String c EmptyString)), w)
            | None => (Raise IndexError, w)
            end
        | KStr _ => (Raise TypeError, w)
        end
    | _ => (Raise TypeError, w)
    end.

(** [target[k] = v], in place. *)
Definition setitem (target : value) (k : key) (v : value) : M unit :=
  fun w =>
    match target with
    | VRef l =>
        match heap w !! l with
        | Some (ODict items) =>
            (Ok tt, World (<[l := ODict (dict_set k v items)]> (heap w)) (trace w))
        | Some (OList items) =>
            match k with
            | KInt i =>
                if decide (i < length items)
                then (Ok tt, World (<[l := OList (<[i := v]> items)]> (heap w)) (trace w))
                else (Raise IndexError, w)
            | KStr _ => (Raise TypeError, w)
            end
        | None => (Raise TypeError, w)
        end
    | _ => (Raise TypeError, w)
    end.

(** [target.copy()]: a new dictionary (or list) with the same items;
    the items themselves are not copied. *)
Definition copy (target : value) : M value :=
  fun w =>
    match target with
    | VRef l =>
        match heap w !! l with
        | Some o =>
            let l' := fresh (dom (heap w)) in
            (Ok (VRef l'), World (<[l' := o]> (heap w)) (trace w))
        | None => (Raise AttributeError, w)
        end
    | _ => (Raise AttributeError, w)
    end.

(** [for x in xs: body(i, x)] with [i] the number of the iteration,
    counted from [start]. *)
Fixpoint for_each {A} (start : nat) (xs : list A) (body : nat -> A -> M unit)
    : M unit :=
  match xs with
  | [] => ret tt
  | x :: rest => bind (body start x) (fun _ => for_each (S start) rest body)
  end.

(** What the outside answers during one iteration of a sweep: whether
    the output directory is there, and whether removing it, the merge
    tool and the upload tool succeed. *)
Record outcome := Outcome {
  dir_exists : bool;
  rmtree_ok : bool;
  merge_ok : bool;
  push_ok : bool
}.

(** [if os.path.exists(path): shutil.rmtree(path)]. *)
Definition clean_dir (o : outcome) (path : string) : M unit :=
  if dir_exists o
  then bind (emit (ERmtree path))
            (fun _ => if rmtree_ok o then ret tt else raise OSError)
  else ret tt.

(** [print("Executing: ..."); subprocess.run(cmd, check=True)]. *)
Definition run_checked (ok : bool) (cmd : list string) : M unit :=
  bind (emit (EPrint ("Executing: " +:+ String.concat " " cmd)))
       (fun _ => bind (emit (ERun cmd))
                      (fun _ => if ok then ret tt else raise CalledProcessError)).

(** The class name of an exception, a stand-in for [str(e)] where an
    example needs one. *)
Definition exn_name (e : exn) : string :=
  match e with
  | KeyError => "KeyError"
  | IndexError => "IndexError"
  | TypeError => "TypeError"
  | AttributeError => "AttributeError"
  | ZeroDivisionError => "ZeroDivisionError"
  | ValueError => "ValueError"
  | OverflowError => "OverflowError"
  | OSError => "OSError"
  | CalledProcessError => "CalledProcessError"
  end.

(** Pieces of the printed lines and paths. *)
Definition nl : string := String (Ascii.ascii_of_nat 10) EmptyString.
Definition rule : string := String.concat "" (replicate 60 "=").

(** [f"{x}"] of an optional string argument: [None] prints as "None". *)
Definition none_str (s : option string) : string :=
  match s with Some s => s | None => "None" end.

End Py.

Declare Scope py_scope.
Delimit Scope py_scope with py.
Notation "x <- c ;; k" := (Py.bind c (fun x => k))
  (at level 100, c at next level, right associativity) : py_scope.
Notation "c ;;; k" := (Py.bind c (fun _ => k))
  (at level 100, right associativity) : py_scope.

(** ** [merge_scan_linear.py] *)

Module MergeScanLinear.
Import Py.
Local Open Scope py_scope.

(** *** The weight sequence *)

(** The condition of the [while] loop, a conditional expression: the
    ascending test when [weight_start <= weight_end], the descending one
    otherwise. *)
Definition guard (weight_start weight_end current : float) : bool :=
  if (weight_start <=? weight_end)%float
  then (current <=? weight_end + 1e-6)%float
  else (weight_end - 1e-6 <=? current)%float.

(** The value of [current] for the next iteration. *)
Definition advance (weight_start weight_end step_size current : float) : float :=
  PyFloat.round
    (if (weight_start <? weight_end)%float
     then (current + step_size)%float
     else (current - step_size)%float) 3.

(** The loop that fills [weights]; [None] when [fuel] iterations did not
    reach the end of the loop. *)
Fixpoint weights_loop (fuel : nat) (weight_start weight_end step_size : float)
    (current : float) (weights : list float) : option (list float) :=
  match fuel with
  | O => None
  | S fuel' =>
      if guard weight_start weight_end current then
        let weights' := weights ++ [PyFloat.round current 3] in
        if (weight_start =? weight_end)%float then Some weights'
        else weights_loop fuel' weight_start weight_end step_size
               (advance weight_start weight_end step_size current) weights'
      else Some weights
  end.

Definition gen_weights (fuel : nat) (weight_start weight_end step_size : float)
    : option (list float) :=
  weights_loop fuel weight_start weight_end step_size weight_start [].

(** [weight_2 = round(1.0 - weight_1, 3)]. *)
Definition second_weight (weight_1 : float) : float :=
  PyFloat.round (1 - weight_1)%float 3.


(** *** The recipe update and the external tools *)

Definition YAML_DIR : string := "scratch/tmp_yamls/linear".

Definition update_weights (yaml_content : value) (weight_1 weight_2 : float)
    : M value :=
  models <- getitem yaml_content (KStr "models") ;;
  model <- getitem models (KInt 0) ;;
  parameters <- getitem model (KStr "parameters") ;;
  setitem parameters (KStr "weight") (VFloat weight_1) ;;;
  models <- getitem yaml_content (KStr "models") ;;
  model <- getitem models (KInt 1) ;;
  parameters <- getitem model (KStr "parameters") ;;
  setitem parameters (KStr "weight") (VFloat weight_2) ;;;
  ret yaml_content.

Definition save_yaml (content : value) (file_path : string) : M unit :=
  emit (ESave file_path content).

(** The command lines of [run_merge] and [run_push_to_hub]. *)
Definition merge_cmd (yaml_path output_dir : string) : list string :=
  ["mergekit-yaml"; yaml_path; output_dir; "--cuda"; "--trust-remote-code"].

Definition push_cmd (output_dir : string) : list string :=
  ["python"; "push_to_hub_linear.py"; "--path"; output_dir].

Definition run_merge (ok : bool) (yaml_path output_dir : string) : M unit :=
  run_checked ok (merge_cmd yaml_path output_dir).

Definition run_push_to_hub (ok : bool) (output_dir : string) : M unit :=
  run_checked ok (push_cmd output_dir).

(** *** The sweep *)

Record args := Args {
  weight_start : float;
  weight_end : float;
  step_size : float;
  output_dir : option string
}.

Section Main.

(** [str] of a float and of an exception, as the f-strings use them. *)
Variable float_str : float -> string.
Variable exn_str : exn -> string.

Definition current_output_dir (output_dir : option string)
    (weight_1 weight_2 : float) : string :=
  none_str output_dir +:+ "_" +:+ float_str weight_1 +:+ "_" +:+ float_str weight_2.

Definition temp_yaml_path (weight_1 weight_2 : float) : string :=
  YAML_DIR +:+ "/weights_" +:+ float_str weight_1 +:+ "_" +:+ float_str weight_2
    +:+ ".yml".

Definition weights_str (weight_1 weight_2 : float) : string :=
  float_str weight_1 +:+ " and " +:+ float_str weight_2.

(** The body of [for weight_1 in weights], under the outcome [o] of
    the outside for this iteration. *)
Definition process_weight (o : outcome) (original_yaml : value)
    (output_dir : option string) (weight_1 : float) : M unit :=
  let weight_2 := second_weight weight_1 in
  emit (EPrint (nl +:+ rule)) ;;;
  emit (EPrint ("PROCESSING WEIGHTS: " +:+ weights_str weight_1 weight_2)) ;;;
  emit (EPrint (rule +:+ nl)) ;;;
  let out := current_output_dir output_dir weight_1 weight_2 in
  copied <- copy original_yaml ;;
  modified_yaml <- update_weights copied weight_1 weight_2 ;;
  let path := temp_yaml_path weight_1 weight_2 in
  save_yaml modified_yaml path ;;;
  clean_dir o out ;;;
  try_except
    (run_merge (merge_ok o) path out ;;;
     run_push_to_hub (push_ok o) out ;;;
     emit (EPrint ("Successfully processed weights " +:+ weights_str weight_1 weight_2)))
    (fun e =>
       emit (EPrint ("Error processing weights " +:+ weights_str weight_1 weight_2
                     +:+ ": " +:+ exn_str e))) ;;;
  emit (ESleep 2).

(** The loop over the weights; [env i] is the outcome of the outside
    for iteration [i]. *)
Definition sweep (env : nat -> outcome) (original_yaml : value)
    (output_dir : option string) (weights : list float) : M unit :=
  for_each 0 weights
    (fun i weight_1 => process_weight (env i) original_yaml output_dir weight_1).

(** [main] after the recipe is loaded into [original_yaml]; [None]
    when the weight loop does not end within [fuel] iterations. *)
Definition main (fuel : nat) (a : args) (env : nat -> outcome)
    (original_yaml : value) : option (M unit) :=
  match gen_weights fuel (weight_start a) (weight_end a) (step_size a) with
  | None => None
  | Some weights =>
      Some (emit (EMakedirs YAML_DIR) ;;;
            sweep env original_yaml (output_dir a) weights)
  end.

End Main.

End MergeScanLinear.

(** ** [numpy.arange] on Python floats

    The range constructor as NumPy computes it for float arguments: the
    length is the ceiling of [(stop - start) / step], a true division of
    Python floats; the first two elements are [start] and [start + step],
    and element [i >= 2] is [start + i * delta] with
    [delta = (start + step) - start]. *)

Module Numpy.
Import Py.

Definition intp_max : Z := (2 ^ 63 - 1)%Z.
Definition intp_min : Z := (- 2 ^ 63)%Z.

(** The number of elements, or the exception of the length
    computation. A quotient that is zero while [stop - start] is not
    (underflow, infinite step) stands for one element when it is [+0]
    and none when it is [-0]. *)
Definition arange_length (start stop step : float) : res Z :=
  let next := (stop - start)%float in
  if (step =? 0)%float then Raise ZeroDivisionError
  else
    let value := (next / step)%float in
    match PyFloat.ceil value with
    | None => if is_nan value then Raise ValueError else Raise OverflowError
    | Some n =>
        if negb ((intp_min <=? n)%Z && (n <=? intp_max)%Z) then Raise OverflowError
        else if (value =? 0)%float && negb (next =? 0)%float
             then Ok (if get_sign value then 0%Z else 1%Z)
             else Ok n
    end.

Definition arange_item (start step : float) (i : nat) : float :=
  match i with
  | O => start
  | S O => (start + step)%float
  | _ => (start + PyFloat.of_Z (Z.of_nat i) * ((start + step) - start))%float
  end.

Definition arange (start stop step : float) : res (list float) :=
  match arange_length start stop step with
  | Raise e => Raise e
  | Ok n => Ok (map (arange_item start step) (seq 0 (Z.to_nat n)))
  end.

End Numpy.

(** ** [merge_scan_ties.py] *)

Module MergeScanTies.
Import Py.
Local Open Scope py_scope.

Definition update_lambda (yaml_content : value) (new_lambda : float) : M value :=
  parameters <- getitem yaml_content (KStr "parameters") ;;
  setitem parameters (KStr "lambda") (VFloat new_lambda) ;;;
  ret yaml_content.

Definition update_densities (yaml_content : value) (density_1 density_2 : float)
    : M value :=
  models <- getitem yaml_content (KStr "models") ;;
  model <- getitem models (KInt 0) ;;
  parameters <- getitem model (KStr "parameters") ;;
  setitem parameters (KStr "density") (VFloat density_1) ;;;
  models <- getitem yaml_content (KStr "models") ;;
  model <- getitem models (KInt 1) ;;
  parameters <- getitem model (KStr "parameters") ;;
  setitem parameters (KStr "density") (VFloat density_2) ;;;
  ret yaml_content.

Definition save_yaml (content : value) (file_path : string) : M unit :=
  emit (ESave file_path content).

(** The command lines of [run_merge] and [run_push_to_hub]. *)
Definition merge_cmd (yaml_path output_dir : string) : list string :=
  ["mergekit-yaml"; yaml_path; output_dir; "--cuda"].

Definition push_cmd (output_dir : string) : list string :=
  ["python"; "push_to_hub_ties.py"; "--path"; output_dir].

Definition run_merge (ok : bool) (yaml_path output_dir : string) : M unit :=
  run_checked ok (merge_cmd yaml_path output_dir).

Definition run_push_to_hub (ok : bool) (output_dir : string) : M unit :=
  run_checked ok (push_cmd output_dir).

Record args := Args {
  lambda_start : float;
  lambda_end : option float;
  lambda_step : float;
  density_start : option float;
  density_end : option float;
  density_step : float;
  output_dir : string
}.

(** *** The density pairs *)

(** The values of one density axis, each as the loop rounds it:
    [round(float(d), 2) for d in np.arange(start, end + step/2, step)]. *)
Definition density_axis (start end_ step : float) : res (list float) :=
  match Numpy.arange start (end_ + step / 2)%float step with
  | Raise e => Raise e
  | Ok ds => Ok (map (fun d => PyFloat.round d 2) ds)
  end.

(** The two nested loops over [np.arange(start, end, step)]. *)
Definition density_grid (start end_ step : float) : res (list (float * float)) :=
  match Numpy.arange start (end_ + step / 2)%float step with
  | Raise e => Raise e
  | Ok ds =>
      Ok (flat_map
            (fun d1 => map (fun d2 => (PyFloat.round d1 2, PyFloat.round d2 2)) ds)
            ds)
  end.

(** [density_pairs]: the pair [(None, None)] alone when a bound is
    missing. *)
Definition density_pairs (a : args) : res (list (option (float * float))) :=
  match density_start a, density_end a with
  | Some start, Some end_ =>
      match density_grid start end_ (density_step a) with
      | Raise e => Raise e
      | Ok pairs => Ok (map Some pairs)
      end
  | _, _ => Ok [None]
  end.

Section Main.

(** [str] of a float and of an exception, and [round(x, 2)] on a
    NumPy float64 scalar, whose algorithm is NumPy's own. *)
Variable float_str : float -> string.
Variable exn_str : exn -> string.
Variable np_round2 : float -> float.

(** *** The lambda values *)

Definition lambda_values (a : args) : res (list float) :=
  match lambda_end a with
  | None => Ok [lambda_start a]
  | Some end_ =>
      match Numpy.arange (lambda_start a) (end_ + lambda_step a / 2)%float
                         (lambda_step a) with
      | Raise e => Raise e
      | Ok xs => Ok (map np_round2 xs)
      end
  end.

(** *** The sweep *)

Definition lambda_str (lmda : float) : string := "lambda_" +:+ float_str lmda.

Definition density_str (density_pair : option (float * float)) : string :=
  match density_pair with
  | None => ""
  | Some (density_1, density_2) =>
      "_density_" +:+ float_str density_1 +:+ "_" +:+ float_str density_2
  end.

(** [str(density_pair)] of a pair of floats. *)
Definition pair_str (density_1 density_2 : float) : string :=
  "(" +:+ float_str density_1 +:+ ", " +:+ float_str density_2 +:+ ")".

Definition temp_yaml_path (lmda : float) (density_pair : option (float * float))
    : string :=
  "scratch/temp_yamls_ties/v00.00_v01.00_" +:+ lambda_str lmda
    +:+ density_str density_pair +:+ ".yml".

(** The body of the inner loop, under the outcome [o] of the outside
    for this iteration. *)
Definition process (o : outcome) (original_yaml : value) (output_dir : string)
    (lmda : float) (density_pair : option (float * float)) : M unit :=
  emit (EPrint (nl +:+ rule)) ;;;
  emit (EPrint ("PROCESSING LAMBDA: " +:+ float_str lmda +:+
                match density_pair with
                | Some (density_1, density_2) =>
                    " WITH DENSITIES: " +:+ pair_str density_1 density_2
                | None => ""
                end)) ;;;
  emit (EPrint (rule +:+ nl)) ;;;
  copied <- copy original_yaml ;;
  modified_yaml <- update_lambda copied lmda ;;
  modified_yaml <- match density_pair with
                   | Some (density_1, density_2) =>
                       update_densities modified_yaml density_1 density_2
                   | None => ret modified_yaml
                   end ;;
  let path := temp_yaml_path lmda density_pair in
  save_yaml modified_yaml path ;;;
  clean_dir o output_dir ;;;
  try_except
    (run_merge (merge_ok o) path output_dir ;;;
     run_push_to_hub (push_ok o) output_dir ;;;
     emit (EPrint ("Successfully processed " +:+ lambda_str lmda
                   +:+ density_str density_pair)))
    (fun e =>
       emit (EPrint ("Error processing " +:+ lambda_str lmda
                     +:+ density_str density_pair +:+ ": " +:+ exn_str e))) ;;;
  emit (ESleep 2).

(** The combinations in the order of the two nested loops. *)
Definition combinations (lambdas : list float)
    (pairs : list (option (float * float)))
    : list (float * option (float * float)) :=
  flat_map (fun lmda => map (fun density_pair => (lmda, density_pair)) pairs) lambdas.

(** The nested loops; [env i] is the outcome of the outside for the
    [i]-th iteration of the inner body. *)
Definition sweep (env : nat -> outcome) (original_yaml : value)
    (output_dir : string) (lambdas : list float)
    (pairs : list (option (float * float))) : M unit :=
  for_each 0 (combinations lambdas pairs)
    (fun i c => process (env i) original_yaml output_dir (fst c) (snd c)).

(** [main] after the recipe is loaded into [original_yaml]. *)
Definition main (a : args) (env : nat -> outcome) (original_yaml : value)
    : M unit :=
  emit (EMakedirs "scratch/temp_yamls_ties") ;;;
  match lambda_values a with
  | Raise e => raise e
  | Ok lambdas =>
      match density_pairs a with
      | Raise e => raise e
      | Ok pairs => sweep env original_yaml (output_dir a) lambdas pairs
      end
  end.

End Main.

End MergeScanTies.

(** ** [model_soup.py] *)

Module ModelSoup.
Import Py.
Local Open Scope py_scope.

(** *** The step number of a revision name *)

Definition is_digit (c : ascii) : bool :=
  let n := Ascii.nat_of_ascii c in (48 <=? n)%nat && (n <=? 57)%nat.

(** [int] of a string of decimal digits. *)
Definition int_of_digits (ds : list ascii) : N :=
  fold_left (fun acc c => (acc * 10 + (Ascii.N_of_ascii c - 48))%N) ds 0%N.

(** The longest run of digits at the start of a list of characters,
    and what follows it. *)
Fixpoint span_digits (cs : list ascii) : list ascii * list ascii :=
  match cs with
  | c :: rest =>
      if is_digit c
      then let '(ds, tl) := span_digits rest in (c :: ds, tl)
      else ([], cs)
  | [] => ([], [])
  end.

(** [re.search(r"step-(\d+)$", rev)] and the group it captures, read
    from the end of the name: the end of the pattern is the end of the
    string or the place before a last newline; before it come the
    digits, all of them, and before them the text "step-". *)
Definition step_digits (revision : string) : option (list ascii) :=
  let rcs := List.rev (String.list_ascii_of_string revision) in
  let rcs := match rcs with
             | c :: rest => if Ascii.eqb c (Ascii.ascii_of_nat 10) then rest else rcs
             | [] => rcs
             end in
  let '(rds, before) := span_digits rcs in
  match rds, before with
  | _ :: _, c5 :: c4 :: c3 :: c2 :: c1 :: _ =>
      if String.eqb (String.string_of_list_ascii [c1; c2; c3; c4; c5]) "step-"
      then Some (List.rev rds) else None
  | _, _ => None
  end.

(** The key of the sort: [int(re.search(...).group(1))]; no match has
    no [group]. *)
Definition step_number (revision : string) : res N :=
  match step_digits revision with
  | Some ds => Ok (int_of_digits ds)
  | None => Raise AttributeError
  end.

(** *** [list.sort(key=...)]

    The keys are computed first, once per element; the sort is stable:
    elements with equal keys keep their order. *)

Fixpoint keys_of (key : string -> res N) (l : list string)
    : res (list (N * string)) :=
  match l with
  | [] => Ok []
  | x :: rest =>
      match key x with
      | Raise e => Raise e
      | Ok k =>
          match keys_of key rest with
          | Raise e => Raise e
          | Ok ks => Ok ((k, x) :: ks)
          end
      end
  end.

Fixpoint insert_keyed (kx : N * string) (sorted : list (N * string))
    : list (N * string) :=
  match sorted with
  | [] => [kx]
  | ky :: rest =>
      if (fst kx <=? fst ky)%N then kx :: sorted
      else ky :: insert_keyed kx rest
  end.

Definition sort_keyed (l : list (N * string)) : list (N * string) :=
  foldr insert_keyed [] l.

Definition sort_by_key (key : string -> res N) (l : list string)
    : res (list string) :=
  match keys_of key l with
  | Raise e => Raise e
  | Ok ks => Ok (map snd (sort_keyed ks))
  end.

(** The step numbers of a list of revisions, the keys of the sort. *)
Definition step_numbers (revisions : list string) : res (list N) :=
  match keys_of step_number revisions with
  | Raise e => Raise e
  | Ok ks => Ok (map fst ks)
  end.

Fixpoint starts_with (pre cs : list ascii) : bool :=
  match pre, cs with
  | [], _ => true
  | p :: pre', c :: cs' => Ascii.eqb p c && starts_with pre' cs'
  | _ :: _, [] => false
  end.

(** [re.compile(f"{revision_pattern}-step-\\d+$").search] for a
    revision pattern without special characters: the name ends with the
    pattern, "-step-" and digits. *)
Definition literal_search (revision_pattern : string) (name : string) : bool :=
  let rcs := List.rev (String.list_ascii_of_string name) in
  let rcs := match rcs with
             | c :: rest => if Ascii.eqb c (Ascii.ascii_of_nat 10) then rest else rcs
             | [] => rcs
             end in
  let '(rds, before) := span_digits rcs in
  match rds with
  | [] => false
  | _ :: _ =>
      starts_with
        (List.rev (String.list_ascii_of_string (revision_pattern +:+ "-step-")))
        before
  end.

Section Script.

(** [str] of an exception. *)
Variable exn_str : exn -> string.

(** [get_model_revisions]: [branches] is what [list_repo_refs] gives,
    the branch names or an exception; [pattern_search] is the
    compiled pattern's [search] as a test on names. *)
Definition get_model_revisions (branches : res (list string))
    (pattern_search : string -> bool) : M (list string) :=
  try_except
    (match branches with
     | Raise e => raise e
     | Ok names =>
         let matching_revisions := filter (fun n => pattern_search n = true) names in
         match sort_by_key step_number matching_revisions with
         | Raise e => raise e
         | Ok sorted => ret sorted
         end
     end)
    (fun e =>
       emit (EPrint ("Error fetching model revisions: " +:+ exn_str e)) ;;;
       ret []).

(** *** The recipe *)

(** A structure written as a literal: nothing else refers to its
    parts until it is put into the store. *)
Inductive tree :=
| TFloat (f : float)
| TStr (s : string)
| TDict (items : list (string * tree))
| TList (items : list tree).

Definition new_obj (o : obj) : M value :=
  fun w =>
    let l := fresh (dom (heap w)) in
    (Ok (VRef l), World (<[l := o]> (heap w)) (trace w)).

Fixpoint alloc (t : tree) : M value :=
  match t with
  | TFloat f => ret (VFloat f)
  | TStr s => ret (VStr s)
  | TDict items =>
      vs <- (fix go (items : list (string * tree)) : M (list (key * value)) :=
               match items with
               | [] => ret []
               | (k, t) :: rest =>
                   v <- alloc t ;; vs <- go rest ;; ret ((KStr k, v) :: vs)
               end) items ;;
      new_obj (ODict vs)
  | TList items =>
      vs <- (fix go (items : list tree) : M (list value) :=
               match items with
               | [] => ret []
               | t :: rest => v <- alloc t ;; vs <- go rest ;; ret (v :: vs)
               end) items ;;
      new_obj (OList vs)
  end.

Definition model_entry (model_id : string) (weight : float) (revision : string)
    : tree :=
  TDict [("model", TStr (model_id +:+ "@" +:+ revision));
         ("parameters", TDict [("weight", TFloat weight)])].

(** The recipe that [create_merge_recipe] builds; [1.0 / len(revisions)]
    raises on an empty list. *)
Definition merge_recipe (model_id : string) (revisions : list string)
    (dtype chat_template : string) : res tree :=
  match revisions with
  | [] => Raise ZeroDivisionError
  | _ :: _ =>
      let weight := (1 / PyFloat.of_Z (Z.of_nat (length revisions)))%float in
      let weights := replicate (length revisions) weight in
      let models :=
        map (fun rw => model_entry model_id (snd rw) (fst rw))
            (combine revisions weights) in
      Ok (TDict [("models", TList models);
                 ("merge_method", TStr "linear");
                 ("dtype", TStr dtype);
                 ("chat_template", TStr chat_template)])
  end.

Definition save_yaml (content : value) (file_path : string) : M unit :=
  emit (ESave file_path content).

Definition create_merge_recipe (model_id : string) (revisions : list string)
    (output_path dtype chat_template : string) : M string :=
  match merge_recipe model_id revisions dtype chat_template with
  | Raise e => raise e
  | Ok t =>
      recipe <- alloc t ;;
      save_yaml recipe output_path ;;;
      ret output_path
  end.

(** The command lines of [run_merge] and [run_push_to_hub]. *)
Definition merge_cmd (yaml_path output_dir : string) : list string :=
  ["mergekit-yaml"; yaml_path; output_dir; "--cuda"].

Definition push_cmd (output_dir revision : string) : list string :=
  ["python"; "push_to_hub_linear.py"; "--path"; output_dir;
   "--revision"; revision +:+ "_soup"].

Definition run_merge (ok : bool) (yaml_path output_dir : string) : M unit :=
  run_checked ok (merge_cmd yaml_path output_dir).

Definition run_push_to_hub (ok : bool) (output_dir revision : string) : M unit :=
  run_checked ok (push_cmd output_dir revision).

(** *** [main] *)

Record args := Args {
  model_id : string;
  revision : string;
  output_dir : string;
  dtype : string;
  chat_template : string
}.

(** [s.split('/')[-1]]: what follows the last '/'. *)
Fixpoint last_component (s : string) : string :=
  match s with
  | EmptyString => EmptyString
  | String c rest =>
      if existsb (Ascii.eqb "/"%char) (String.list_ascii_of_string rest)
      then last_component rest
      else if Ascii.eqb c "/"%char then rest else s
  end.

Definition recipe_path (a : args) : string :=
  "scratch/temp_yamls/" +:+ last_component (model_id a) +:+ "_" +:+ revision a
    +:+ "_soup.yml".

Definition main (a : args) (branches : res (list string))
    (pattern_search : string -> bool) (o : outcome) : M unit :=
  emit (EPrint (nl +:+ rule)) ;;;
  emit (EPrint ("MODEL SOUP CREATION: " +:+ model_id a +:+ " - " +:+ revision a)) ;;;
  emit (EPrint (rule +:+ nl)) ;;;
  emit (EPrint ("Finding revisions matching " +:+ revision a +:+ "-step-XX...")) ;;;
  revisions <- get_model_revisions branches pattern_search ;;
  match revisions with
  | [] =>
      emit (EPrint ("No matching revisions found for " +:+ model_id a
                    +:+ " with revision pattern " +:+ revision a))
  | _ :: _ =>
      emit (EPrint ("Found " +:+ pretty (length revisions)
                    +:+ " matching revisions:")) ;;;
      for_each 0 revisions (fun _ rev => emit (EPrint ("  - " +:+ rev))) ;;;
      emit (EMakedirs "scratch/temp_yamls") ;;;
      let path := recipe_path a in
      create_merge_recipe (model_id a) revisions path (dtype a) (chat_template a) ;;;
      emit (EPrint ("Created merge recipe at " +:+ path)) ;;;
      clean_dir o (output_dir a) ;;;
      try_except
        (run_merge (merge_ok o) path (output_dir a) ;;;
         run_push_to_hub (push_ok o) (output_dir a) (revision a) ;;;
         emit (EPrint ("Successfully created model soup for " +:+ model_id a
                       +:+ " - " +:+ revision a)))
        (fun e => emit (EPrint ("Error creating model soup: " +:+ exn_str e)))
  end.

End Script.

End ModelSoup.

(** * Properties *)

(** ** The object store *)

Section Store.
Import Py.

Lemma key_eqb_eq (a b : key) : key_eqb a b = true <-> a = b.
Proof.
  destruct a as [s|i], b as [t|j]; simpl; split; intros H;
    try discriminate; try (inversion H; subst).
  - apply String.eqb_eq in H. now subst.
  - apply String.eqb_refl.
  - apply Nat.eqb_eq in H. now subst.
  - apply Nat.eqb_refl.
Qed.

Lemma key_eqb_refl (a : key) : key_eqb a a = true.
Proof. now apply key_eqb_eq. Qed.

Lemma key_eqb_neq (a b : key) : a <> b -> key_eqb a b = false.
Proof.
  intros H. destruct (key_eqb a b) eqn:E; [|reflexivity].
  apply key_eqb_eq in E. contradiction.
Qed.

Lemma dict_get_set_eq (k : key) (v : value) (items : list (key * value)) :
  dict_get k (dict_set k v items) = Some v.
Proof.
  induction items as [|[k' v'] rest IH]; simpl.
  - now rewrite key_eqb_refl.
  - destruct (key_eqb k k') eqn:E; simpl; rewrite E; [reflexivity|exact IH].
Qed.

Lemma dict_get_set_ne (k k' : key) (v : value) (items : list (key * value)) :
  k <> k' -> dict_get k' (dict_set k v items) = dict_get k' items.
Proof.
  intros Hne. induction items as [|[k0 v0] rest IH]; simpl.
  - rewrite key_eqb_neq; [reflexivity|]. intros ->. now apply Hne.
  - destruct (key_eqb k k0) eqn:E; simpl.
    + apply key_eqb_eq in E. subst k0.
      rewrite key_eqb_neq; [reflexivity|]. intros ->. now apply Hne.
    + now rewrite IH.
Qed.

End Store.

(** ** Reading a recipe

    [dget] and [lget] read a key of a dictionary and an index of a list
    through a reference; a recipe is [shaped] when the two subscript
    chains of [update_weights] and [update_densities] lead to
    dictionaries. *)

Module Recipe.
Import Py.

Definition dget (h : gmap loc obj) (v : value) (k : key) : option value :=
  match v with
  | VRef l => match h !! l with
              | Some (ODict items) => dict_get k items
              | _ => None
              end
  | _ => None
  end.

Definition lget (h : gmap loc obj) (v : value) (i : nat) : option value :=
  match v with
  | VRef l => match h !! l with
              | Some (OList items) => items !! i
              | _ => None
              end
  | _ => None
  end.

Definition is_dict (h : gmap loc obj) (v : value) : bool :=
  match v with
  | VRef l => match h !! l with
              | Some (ODict _) => true
              | _ => false
              end
  | _ => false
  end.

(** [root["models"][i]["parameters"]], when it is a dictionary. *)
Definition parameters_of (h : gmap loc obj) (root : value) (i : nat)
    : option value :=
  match dget h root (KStr "models") with
  | Some models =>
      match lget h models i with
      | Some model =>
          match dget h model (KStr "parameters") with
          | Some p => if is_dict h p then Some p else None
          | None => None
          end
      | None => None
      end
  | None => None
  end.

(** [root["models"][i]["parameters"][field]]. *)
Definition model_parameter (h : gmap loc obj) (root : value) (i : nat)
    (field : string) : option value :=
  match parameters_of h root i with
  | Some p => dget h p (KStr field)
  | None => None
  end.

(** The shape that the linear sweep expects of a recipe. *)
Definition shaped (h : gmap loc obj) (root : value) : bool :=
  match parameters_of h root 0, parameters_of h root 1 with
  | Some _, Some _ => true
  | _, _ => false
  end.

(** [root["parameters"]] is a dictionary. *)
Definition has_parameters (h : gmap loc obj) (root : value) : bool :=
  match dget h root (KStr "parameters") with
  | Some p => is_dict h p
  | None => false
  end.

(** The shape that the TIES sweep expects when it sets densities. *)
Definition shaped_ties (h : gmap loc obj) (root : value) : bool :=
  has_parameters h root && shaped h root.

End Recipe.


(** ** Subscripts and updates through the readers *)

Section StoreRuns.
Import Py Recipe.

Lemma getitem_dget (w : world) (v : value) (k : key) (x : value) :
  dget (heap w) v k = Some x -> getitem v k w = (Ok x, w).
Proof.
  unfold dget, getitem. destruct v as [| | | | |l]; try discriminate.
  destruct (heap w !! l) as [[items|items]|]; try discriminate.
  now intros ->.
Qed.

Lemma getitem_lget (w : world) (v : value) (i : nat) (x : value) :
  lget (heap w) v i = Some x -> getitem v (KInt i) w = (Ok x, w).
Proof.
  unfold lget, getitem. destruct v as [| | | | |l]; try discriminate.
  destruct (heap w !! l) as [[items|items]|]; try discriminate.
  now intros ->.
Qed.

Lemma is_dict_inv (h : gmap loc obj) (v : value) :
  is_dict h v = true -> exists l items, v = VRef l /\ h !! l = Some (ODict items).
Proof.
  unfold is_dict. destruct v as [| | | | |l]; try discriminate.
  destruct (h !! l) as [[items|items]|] eqn:E; try discriminate.
  intros _. now exists l, items.
Qed.

Lemma setitem_dict (w : world) (l : loc) (items : list (key * value))
    (k : key) (x : value) :
  heap w !! l = Some (ODict items) ->
  setitem (VRef l) k x w
  = (Ok tt, World (<[l := ODict (dict_set k x items)]> (heap w)) (trace w)).
Proof. unfold setitem. now intros ->. Qed.

(** A value that is no dangling reference. *)
Definition allocated (h : gmap loc obj) (v : value) : Prop :=
  match v with
  | VRef l => h !! l <> None
  | _ => True
  end.

(** [frame k h h']: the objects of [h] are in [h'] and read there as
    they read in [h], but for the key [k] of dictionaries. *)
Definition frame (k : key) (h h' : gmap loc obj) : Prop :=
  forall v : value,
    allocated h v ->
    allocated h' v /\
    (forall k', k' <> k -> dget h' v k' = dget h v k') /\
    (forall i, lget h' v i = lget h v i) /\
    is_dict h' v = is_dict h v.

Lemma frame_refl (k : key) (h : gmap loc obj) : frame k h h.
Proof. intros v Hv. now repeat split. Qed.

Lemma frame_trans (k : key) (h1 h2 h3 : gmap loc obj) :
  frame k h1 h2 -> frame k h2 h3 -> frame k h1 h3.
Proof.
  intros H12 H23 v Hv. destruct (H12 v Hv) as (A1 & B1 & C1 & D1).
  destruct (H23 v A1) as (A2 & B2 & C2 & D2).
  split; [exact A2|]. split; [|split].
  - intros k' Hk'. now rewrite B2, B1.
  - intros i. now rewrite C2, C1.
  - now rewrite D2, D1.
Qed.

Lemma dget_allocated (h : gmap loc obj) (v : value) (k : key) (x : value) :
  dget h v k = Some x -> allocated h v.
Proof.
  unfold dget, allocated. destruct v as [| | | | |l]; auto.
  destruct (h !! l); [congruence|discriminate].
Qed.

Lemma lget_allocated (h : gmap loc obj) (v : value) (i : nat) (x : value) :
  lget h v i = Some x -> allocated h v.
Proof.
  unfold lget, allocated. destruct v as [| | | | |l]; auto.
  destruct (h !! l); [congruence|discriminate].
Qed.

Lemma is_dict_allocated (h : gmap loc obj) (v : value) :
  is_dict h v = true -> allocated h v.
Proof.
  unfold is_dict, allocated. destruct v as [| | | | |l]; auto.
  destruct (h !! l); [congruence|discriminate].
Qed.

(** A new object leaves every reading as it was. *)
Lemma frame_alloc (k : key) (h : gmap loc obj) (l' : loc) (o : obj) :
  h !! l' = None -> frame k h (<[l' := o]> h).
Proof.
  intros Hfresh v. unfold allocated, dget, lget, is_dict.
  destruct v as [| | | | |l]; try (intros _; now repeat split).
  intros Hl. assert (Hne : l' <> l) by (intros ->; contradiction).
  rewrite lookup_insert_ne by exact Hne. now repeat split.
Qed.

(** An assignment to the key [k] of a dictionary leaves every other
    reading as it was. *)
Lemma frame_dict_set (k : key) (h : gmap loc obj) (l : loc)
    (items : list (key * value)) (x : value) :
  h !! l = Some (ODict items) ->
  frame k h (<[l := ODict (dict_set k x items)]> h).
Proof.
  intros Hl v. unfold allocated, dget, lget, is_dict.
  destruct v as [| | | | |l0]; try (intros _; now repeat split).
  intros Hl0. destruct (decide (l = l0)) as [->|Hne].
  - rewrite lookup_insert_eq, Hl. repeat split; try discriminate.
    intros k' Hk'. apply dict_get_set_ne. congruence.
  - rewrite lookup_insert_ne by exact Hne. now repeat split.
Qed.

Lemma dget_dict_set (k : key) (h : gmap loc obj) (l : loc)
    (items : list (key * value)) (x : value) :
  dget (<[l := ODict (dict_set k x items)]> h) (VRef l) k = Some x.
Proof. unfold dget. rewrite lookup_insert_eq. apply dict_get_set_eq. Qed.

Lemma parameters_of_frame (k : string) (h h' : gmap loc obj) (root : value)
    (i : nat) (p : value) :
  k <> "models" -> k <> "parameters" ->
  frame (KStr k) h h' ->
  parameters_of h root i = Some p -> parameters_of h' root i = Some p.
Proof.
  intros Hm Hp Hf. unfold parameters_of.
  destruct (dget h root (KStr "models")) as [models|] eqn:E1; [|discriminate].
  destruct (lget h models i) as [model|] eqn:E2; [|discriminate].
  destruct (dget h model (KStr "parameters")) as [q|] eqn:E3; [|discriminate].
  destruct (is_dict h q) eqn:E4; [|discriminate].
  intros [= ->].
  assert (Km : KStr "models" <> KStr k) by (intros [= E]; now apply Hm).
  assert (Kp : KStr "parameters" <> KStr k) by (intros [= E]; now apply Hp).
  destruct (Hf root (dget_allocated _ _ _ _ E1)) as (_ & A & _ & _).
  rewrite (A _ Km), E1.
  destruct (Hf models (lget_allocated _ _ _ _ E2)) as (_ & _ & B & _).
  rewrite B, E2.
  destruct (Hf model (dget_allocated _ _ _ _ E3)) as (_ & A' & _ & _).
  rewrite (A' _ Kp), E3.
  destruct (Hf p (is_dict_allocated _ _ E4)) as (_ & _ & _ & C).
  now rewrite C, E4.
Qed.

Lemma shaped_frame (k : string) (h h' : gmap loc obj) (root : value) :
  k <> "models" -> k <> "parameters" ->
  frame (KStr k) h h' -> shaped h root = true -> shaped h' root = true.
Proof.
  intros Hm Hp Hf. unfold shaped.
  destruct (parameters_of h root 0) as [p0|] eqn:E0; [|discriminate].
  destruct (parameters_of h root 1) as [p1|] eqn:E1; [|discriminate].
  intros _.
  now rewrite (parameters_of_frame k h h' root 0 p0 Hm Hp Hf E0),
              (parameters_of_frame k h h' root 1 p1 Hm Hp Hf E1).
Qed.

End StoreRuns.

(** ** The recipe updates on a shaped recipe *)

Section Updates.
Import Py Recipe.
Local Open Scope py_scope.

(** One subscript chain and its assignment,
    [root["models"][i]["parameters"][field] = x], followed by [k]. *)
Lemma run_assignment (h : gmap loc obj) (root p : value) (i : nat)
    (field : string) (x : value) :
  parameters_of h root i = Some p ->
  exists l items,
    p = VRef l /\ h !! l = Some (ODict items) /\
    forall (B : Type) (k : unit -> M B) (tr : list event),
      (models <- getitem root (KStr "models") ;;
       model <- getitem models (KInt i) ;;
       parameters <- getitem model (KStr "parameters") ;;
       bind (setitem parameters (KStr field) x) k) (World h tr)
      = k tt (World (<[l := ODict (dict_set (KStr field) x items)]> h) tr).
Proof.
  unfold parameters_of.
  destruct (dget h root (KStr "models")) as [models|] eqn:E1; [|discriminate].
  destruct (lget h models i) as [model|] eqn:E2; [|discriminate].
  destruct (dget h model (KStr "parameters")) as [q|] eqn:E3; [|discriminate].
  destruct (is_dict h q) eqn:E4; [|discriminate].
  intros [= ->]. destruct (is_dict_inv _ _ E4) as (l & items & -> & Hl).
  exists l, items. split; [reflexivity|]. split; [exact Hl|].
  intros B k tr.
  unfold bind at 1. rewrite (getitem_dget (World h tr) _ _ _ E1).
  unfold bind at 1. rewrite (getitem_lget (World h tr) _ _ _ E2).
  unfold bind at 1. rewrite (getitem_dget (World h tr) _ _ _ E3).
  unfold bind at 1. now rewrite (setitem_dict (World h tr) _ _ _ _ Hl).
Qed.

(** A shallow copy reads as its original does. *)
Lemma parameters_of_copy (h : gmap loc obj) (l0 l' : loc) (o : obj) (i : nat)
    (p : value) :
  h !! l0 = Some o -> h !! l' = None ->
  parameters_of h (VRef l0) i = Some p ->
  parameters_of (<[l' := o]> h) (VRef l') i = Some p.
Proof.
  intros H0 Hfresh Hp.
  pose proof (parameters_of_frame "weight" h (<[l' := o]> h) (VRef l0) i p
                ltac:(discriminate) ltac:(discriminate)
                (frame_alloc _ h l' o Hfresh) Hp) as Hp'.
  revert Hp'. unfold parameters_of, dget at 1 3.
  rewrite lookup_insert_eq.
  rewrite lookup_insert_ne by (intros ->; congruence).
  now rewrite H0.
Qed.

Lemma shaped_root (h : gmap loc obj) (root : value) :
  shaped h root = true ->
  exists l0 o p0 p1, root = VRef l0 /\ h !! l0 = Some o /\
    parameters_of h root 0 = Some p0 /\ parameters_of h root 1 = Some p1.
Proof.
  unfold shaped.
  destruct (parameters_of h root 0) as [p0|] eqn:E0; [|discriminate].
  destruct (parameters_of h root 1) as [p1|] eqn:E1; [|discriminate].
  intros _. pose proof E0 as E0'. revert E0'.
  unfold parameters_of at 1, dget at 1.
  destruct root as [| | | | |l0]; try discriminate.
  destruct (h !! l0) as [o|] eqn:El; [|discriminate].
  intros _. exists l0, o, p0, p1. repeat split; try reflexivity; assumption.
Qed.

Lemma copy_run (h : gmap loc obj) (l0 : loc) (o : obj) (tr : list event) :
  h !! l0 = Some o ->
  copy (VRef l0) (World h tr)
  = (Ok (VRef (fresh (dom h))), World (<[fresh (dom h) := o]> h) tr).
Proof. intros Hl0. unfold copy. cbn [heap trace]. now rewrite Hl0. Qed.

Lemma fresh_unallocated (h : gmap loc obj) : h !! fresh (dom h) = None.
Proof. apply not_elem_of_dom, is_fresh. Qed.

(** The common form of [update_weights] and [update_densities]: the
    field [field] of the parameters of the first two models. *)
Definition assign_both (field : string) (yaml_content : value) (x0 x1 : float)
    : M value :=
  models <- getitem yaml_content (KStr "models") ;;
  model <- getitem models (KInt 0) ;;
  parameters <- getitem model (KStr "parameters") ;;
  setitem parameters (KStr field) (VFloat x0) ;;;
  models <- getitem yaml_content (KStr "models") ;;
  model <- getitem models (KInt 1) ;;
  parameters <- getitem model (KStr "parameters") ;;
  setitem parameters (KStr field) (VFloat x1) ;;;
  ret yaml_content.

Lemma assign_both_run (field : string) (h : gmap loc obj) (c p0 p1 : value)
    (x0 x1 : float) :
  field <> "models" -> field <> "parameters" ->
  parameters_of h c 0 = Some p0 -> parameters_of h c 1 = Some p1 ->
  exists h',
    (forall tr, assign_both field c x0 x1 (World h tr) = (Ok c, World h' tr)) /\
    frame (KStr field) h h' /\
    dget h' p1 (KStr field) = Some (VFloat x1) /\
    (p0 <> p1 -> dget h' p0 (KStr field) = Some (VFloat x0)).
Proof.
  intros Hm Hp Hp0 Hp1.
  destruct (run_assignment h c p0 0 field (VFloat x0) Hp0)
    as (a & ita & -> & Ha & Hrun1).
  set (h2 := <[a := ODict (dict_set (KStr field) (VFloat x0) ita)]> h) in *.
  assert (F2 : frame (KStr field) h h2) by now apply frame_dict_set.
  apply (parameters_of_frame field h h2 _ _ _ Hm Hp F2) in Hp1.
  destruct (run_assignment h2 c p1 1 field (VFloat x1) Hp1)
    as (b & itb & -> & Hb & Hrun2).
  exists (<[b := ODict (dict_set (KStr field) (VFloat x1) itb)]> h2).
  split; [|split; [|split]].
  - intros tr. unfold assign_both. rewrite Hrun1. rewrite Hrun2. reflexivity.
  - eapply frame_trans; [exact F2|]. now apply frame_dict_set.
  - apply dget_dict_set.
  - intros Hne. unfold dget. rewrite lookup_insert_ne by congruence.
    fold (dget h2 (VRef a) (KStr field)). apply dget_dict_set.
Qed.

(** The update of the linear sweep, [update_weights(original_yaml.copy(),
    weight_1, weight_2)]: it succeeds on a shaped recipe, leaves the
    events alone, and writes through to the parameters of the original. *)
Lemma copy_update_weights (h : gmap loc obj) (root : value) (w1 w2 : float) :
  shaped h root = true ->
  exists l' h' p0 p1,
    (forall tr,
       (copied <- copy root ;; MergeScanLinear.update_weights copied w1 w2)
         (World h tr)
       = (Ok (VRef l'), World h' tr)) /\
    frame (KStr "weight") h h' /\
    parameters_of h root 0 = Some p0 /\ parameters_of h root 1 = Some p1 /\
    dget h' p1 (KStr "weight") = Some (VFloat w2) /\
    (p0 <> p1 -> dget h' p0 (KStr "weight") = Some (VFloat w1)).
Proof.
  intros Hs. destruct (shaped_root _ _ Hs) as (l0 & o & p0 & p1 & -> & Hl0 & Hp0 & Hp1).
  pose proof (fresh_unallocated h) as Hfresh.
  set (l' := fresh (dom h)) in *. set (h1 := <[l' := o]> h).
  assert (F1 : frame (KStr "weight") h h1) by now apply frame_alloc.
  destruct (assign_both_run "weight" h1 (VRef l') p0 p1 w1 w2
              ltac:(discriminate) ltac:(discriminate)
              (parameters_of_copy h l0 l' o 0 p0 Hl0 Hfresh Hp0)
              (parameters_of_copy h l0 l' o 1 p1 Hl0 Hfresh Hp1))
    as (h' & Hrun & F2 & Hw2 & Hw1).
  exists l', h', p0, p1. split; [|split; [|now repeat split]].
  - intros tr. unfold bind. rewrite (copy_run h l0 o tr Hl0). fold l'. fold h1.
    apply Hrun.
  - eapply frame_trans; [exact F1|exact F2].
Qed.

(** [update_lambda] on a recipe with a top-level [parameters]
    dictionary. *)
Lemma update_lambda_run (h : gmap loc obj) (c p : value) (x : float) :
  dget h c (KStr "parameters") = Some p -> is_dict h p = true ->
  exists h',
    (forall tr, MergeScanTies.update_lambda c x (World h tr) = (Ok c, World h' tr)) /\
    frame (KStr "lambda") h h' /\
    dget h' p (KStr "lambda") = Some (VFloat x).
Proof.
  intros Hp Hd. destruct (is_dict_inv _ _ Hd) as (l & items & -> & Hl).
  exists (<[l := ODict (dict_set (KStr "lambda") (VFloat x) items)]> h).
  split; [|split].
  - intros tr. unfold MergeScanTies.update_lambda.
    unfold bind at 1. rewrite (getitem_dget (World h tr) _ _ _ Hp).
    unfold bind at 1. now rewrite (setitem_dict (World h tr) _ _ _ _ Hl).
  - now apply frame_dict_set.
  - apply dget_dict_set.
Qed.

End Updates.

(** ** What a run shows to the outside *)

Module Trace.
Import Py.

(** An event without the identity of the object that was dumped. *)
Definition erase (ev : event) : event :=
  match ev with
  | ESave path _ => ESave path VNone
  | _ => ev
  end.

(** The external commands, in the order they were run. *)
Definition commands (tr : list event) : list (list string) :=
  flat_map (fun ev => match ev with ERun cmd => [cmd] | _ => [] end) tr.

(** The recipe files, in the order they were written. *)
Definition saved_paths (tr : list event) : list string :=
  flat_map (fun ev => match ev with ESave path _ => [path] | _ => [] end) tr.

(** The lines printed, in order. *)
Definition printed (tr : list event) : list string :=
  flat_map (fun ev => match ev with EPrint line => [line] | _ => [] end) tr.

(** The commands that one iteration attempts: the merge, and the upload
    once the merge succeeded. *)
Definition attempts (o : outcome) (merge_cmd push_cmd : list string)
    : list (list string) :=
  merge_cmd :: (if merge_ok o then [push_cmd] else []).

(** Removing the output directory raises. *)
Definition rmtree_raises (o : outcome) : bool :=
  dir_exists o && negb (rmtree_ok o).

(** The merge or the upload fails. *)
Definition tool_fails (o : outcome) : bool :=
  negb (merge_ok o && push_ok o).

(** The events of the guarded block of an iteration,
    [try: run_merge; run_push_to_hub; print(success) except: print(error)]. *)
Definition guarded_events (o : outcome) (merge_cmd push_cmd : list string)
    (success error : string) : list event :=
  [EPrint ("Executing: " +:+ String.concat " " merge_cmd); ERun merge_cmd] ++
  (if merge_ok o
   then [EPrint ("Executing: " +:+ String.concat " " push_cmd); ERun push_cmd] ++
        (if push_ok o then [EPrint success] else [EPrint error])
   else [EPrint error]).

(** The events of the cleaning of the output directory. *)
Definition clean_events (o : outcome) (path : string) : list event :=
  if dir_exists o then [ERmtree path] else [].

End Trace.

Section TraceFacts.
Import Py Trace.

Lemma commands_app (a b : list event) : commands (a ++ b) = commands a ++ commands b.
Proof. unfold commands. now rewrite flat_map_app. Qed.

Lemma saved_paths_app (a b : list event) :
  saved_paths (a ++ b) = saved_paths a ++ saved_paths b.
Proof. unfold saved_paths. now rewrite flat_map_app. Qed.

Lemma printed_app (a b : list event) : printed (a ++ b) = printed a ++ printed b.
Proof. unfold printed. now rewrite flat_map_app. Qed.

Lemma commands_erase (tr : list event) : commands (map erase tr) = commands tr.
Proof.
  unfold commands. induction tr as [|ev tr IH]; [reflexivity|].
  cbn [map flat_map]. rewrite IH. now destruct ev.
Qed.

Lemma saved_paths_erase (tr : list event) :
  saved_paths (map erase tr) = saved_paths tr.
Proof.
  unfold saved_paths. induction tr as [|ev tr IH]; [reflexivity|].
  cbn [map flat_map]. rewrite IH. now destruct ev.
Qed.

Lemma printed_erase (tr : list event) : printed (map erase tr) = printed tr.
Proof.
  unfold printed. induction tr as [|ev tr IH]; [reflexivity|].
  cbn [map flat_map]. rewrite IH. now destruct ev.
Qed.

End TraceFacts.

(** ** The loop of a sweep

    When the body of a loop, on every store of an invariant, ends as
    [expect] says and adds the events that [expect] says, the loop runs
    the iterations one after the other up to the first that raises. *)

Section Loop.
Import Py Trace.

Context {A : Type} (body : nat -> A -> M unit).
Context (Inv : gmap loc obj -> Prop) (good : A -> Prop).
Context (expect : nat -> A -> res unit * list event).

Hypothesis body_spec : forall i x h tr,
  Inv h -> good x ->
  exists h' tr',
    body i x (World h tr) = (fst (expect i x), World h' (tr ++ tr')) /\
    Inv h' /\ map erase tr' = snd (expect i x).

Lemma for_each_inv (xs : list A) : forall start h tr,
  Inv h -> Forall good xs ->
  exists r h' tr',
    for_each start xs body (World h tr) = (r, World h' (tr ++ tr')) /\ Inv h'.
Proof.
  induction xs as [|x rest IH]; intros start h tr HI Hg.
  - exists (Ok tt), h, []. simpl. rewrite app_nil_r. now split.
  - inversion Hg as [|? ? Hx Hrest]; subst.
    destruct (body_spec start x h tr HI Hx) as (h1 & tr1 & Hrun & HI1 & _).
    destruct (fst (expect start x)) as [[]|e] eqn:E.
    + destruct (IH (S start) h1 (tr ++ tr1) HI1 Hrest) as (r & h2 & tr2 & Hr & HI2).
      exists r, h2, (tr1 ++ tr2). split; [|exact HI2].
      cbn [for_each]. unfold bind. rewrite Hrun, Hr. now rewrite app_assoc.
    + exists (Raise e), h1, tr1. split; [|exact HI1].
      cbn [for_each]. unfold bind. now rewrite Hrun.
Qed.

Lemma for_each_ok (xs : list A) : forall start h tr,
  Inv h -> Forall good xs ->
  (forall i x, xs !! i = Some x -> fst (expect (start + i) x) = Ok tt) ->
  exists h' tr',
    for_each start xs body (World h tr) = (Ok tt, World h' (tr ++ tr')) /\
    Inv h' /\
    map erase tr' = concat (imap (fun i x => snd (expect (start + i) x)) xs).
Proof.
  induction xs as [|x rest IH]; intros start h tr HI Hg Hok.
  - exists h, []. simpl. rewrite app_nil_r. now repeat split.
  - inversion Hg as [|? ? Hx Hrest]; subst.
    destruct (body_spec start x h tr HI Hx) as (h1 & tr1 & Hrun & HI1 & Hev).
    pose proof (Hok 0 x eq_refl) as H0. rewrite Nat.add_0_r in H0.
    destruct (IH (S start) h1 (tr ++ tr1) HI1 Hrest)
      as (h2 & tr2 & Hr & HI2 & Hev2).
    { intros i y Hy. replace (S start + i) with (start + S i) by lia.
      now apply Hok. }
    exists h2, (tr1 ++ tr2). split; [|split; [exact HI2|]].
    + cbn [for_each]. unfold bind. rewrite Hrun, H0, Hr. now rewrite app_assoc.
    + rewrite map_app, Hev, Hev2. cbn [imap concat]. rewrite Nat.add_0_r.
      f_equal. f_equal. apply imap_ext. intros i y _. cbn.
      f_equal. f_equal. lia.
Qed.


End Loop.

(** ** Computations by their result and their events *)

Section Yields.
Import Py Trace.
Local Open Scope py_scope.

(** [yields c h r h' evs]: from the store [h], [c] ends with [r] in the
    store [h'] and adds the events [evs]. *)
Definition yields {A : Type} (c : M A) (h : gmap loc obj) (r : res A)
    (h' : gmap loc obj) (evs : list event) : Prop :=
  forall tr, c (World h tr) = (r, World h' (tr ++ evs)).

Lemma yields_ret {A} (a : A) (h : gmap loc obj) : yields (ret a) h (Ok a) h [].
Proof. intros tr. unfold ret. now rewrite app_nil_r. Qed.

Lemma yields_raise {A} (e : exn) (h : gmap loc obj) :
  yields (@raise A e) h (Raise e) h [].
Proof. intros tr. unfold raise. now rewrite app_nil_r. Qed.

Lemma yields_emit (ev : event) (h : gmap loc obj) :
  yields (emit ev) h (Ok tt) h [ev].
Proof. intros tr. reflexivity. Qed.

Lemma yields_silent {A} (c : M A) (h h' : gmap loc obj) (r : res A) :
  (forall tr, c (World h tr) = (r, World h' tr)) -> yields c h r h' [].
Proof. intros H tr. now rewrite app_nil_r. Qed.

Lemma yields_bind {A B} (c : M A) (k : A -> M B) (h h1 h2 : gmap loc obj)
    (a : A) (r : res B) (e1 e2 : list event) :
  yields c h (Ok a) h1 e1 -> yields (k a) h1 r h2 e2 ->
  yields (bind c k) h r h2 (e1 ++ e2).
Proof. intros H1 H2 tr. unfold bind. now rewrite H1, H2, app_assoc. Qed.

Lemma yields_bind_raise {A B} (c : M A) (k : A -> M B) (h h1 : gmap loc obj)
    (e : exn) (e1 : list event) :
  yields c h (Raise e) h1 e1 -> yields (bind c k) h (Raise e) h1 e1.
Proof. intros H1 tr. unfold bind. now rewrite H1. Qed.

Lemma yields_try_ok {A} (c : M A) (handler : exn -> M A) (h h1 : gmap loc obj)
    (a : A) (e1 : list event) :
  yields c h (Ok a) h1 e1 -> yields (try_except c handler) h (Ok a) h1 e1.
Proof. intros H1 tr. unfold try_except. now rewrite H1. Qed.

Lemma yields_try_raise {A} (c : M A) (handler : exn -> M A)
    (h h1 h2 : gmap loc obj) (e : exn) (r : res A) (e1 e2 : list event) :
  yields c h (Raise e) h1 e1 -> yields (handler e) h1 r h2 e2 ->
  yields (try_except c handler) h r h2 (e1 ++ e2).
Proof. intros H1 H2 tr. unfold try_except. now rewrite H1, H2, app_assoc. Qed.

Lemma yields_clean_dir (o : outcome) (path : string) (h : gmap loc obj) :
  yields (clean_dir o path) h
    (if rmtree_raises o then Raise OSError else Ok tt) h (clean_events o path).
Proof.
  unfold clean_dir, rmtree_raises, clean_events.
  destruct (dir_exists o); [|apply yields_ret].
  destruct (rmtree_ok o); cbn [negb andb].
  - change [ERmtree path] with ([ERmtree path] ++ []).
    eapply yields_bind; [apply yields_emit|apply yields_ret].
  - change [ERmtree path] with ([ERmtree path] ++ []).
    eapply yields_bind; [apply yields_emit|apply yields_raise].
Qed.

Lemma yields_run_checked (ok : bool) (cmd : list string) (h : gmap loc obj) :
  yields (run_checked ok cmd) h
    (if ok then Ok tt else Raise CalledProcessError) h
    [EPrint ("Executing: " +:+ String.concat " " cmd); ERun cmd].
Proof.
  unfold run_checked.
  change [EPrint ("Executing: " +:+ String.concat " " cmd); ERun cmd]
    with ([EPrint ("Executing: " +:+ String.concat " " cmd)] ++ [ERun cmd] ++ []).
  eapply yields_bind; [apply yields_emit|].
  eapply yields_bind; [apply yields_emit|].
  destruct ok; [apply yields_ret|apply yields_raise].
Qed.

(** The guarded block always ends normally: a failure of either tool is
    caught and reported. *)
Lemma yields_guarded (o : outcome) (merge_cmd push_cmd : list string)
    (success : string) (error : exn -> string) (h : gmap loc obj) :
  yields
    (try_except
       (run_checked (merge_ok o) merge_cmd ;;;
        run_checked (push_ok o) push_cmd ;;;
        emit (EPrint success))
       (fun e => emit (EPrint (error e))))
    h (Ok tt) h
    (guarded_events o merge_cmd push_cmd success (error CalledProcessError)).
Proof.
  unfold guarded_events.
  pose proof (yields_run_checked (merge_ok o) merge_cmd h) as Hm.
  pose proof (yields_run_checked (push_ok o) push_cmd h) as Hp.
  destruct (merge_ok o).
  - destruct (push_ok o).
    + apply yields_try_ok. eapply yields_bind; [exact Hm|].
      eapply yields_bind; [exact Hp|]. apply yields_emit.
    + rewrite app_assoc. eapply yields_try_raise; [|apply yields_emit].
      eapply yields_bind; [exact Hm|]. apply yields_bind_raise. exact Hp.
  - eapply yields_try_raise; [|apply yields_emit].
    apply yields_bind_raise. exact Hm.
Qed.

Lemma bind_assoc {A B C} (c : M A) (f : A -> M B) (g : B -> M C) (w : world) :
  bind (bind c f) g w = bind c (fun x => bind (f x) g) w.
Proof. unfold bind. destruct (c w) as [[a|e] w1]; reflexivity. Qed.

Lemma yields_assoc {A B C} (c : M A) (f : A -> M B) (g : B -> M C)
    (h h' : gmap loc obj) (r : res C) (evs : list event) :
  yields (bind (bind c f) g) h r h' evs ->
  yields (bind c (fun x => bind (f x) g)) h r h' evs.
Proof. intros H tr. rewrite <- bind_assoc. apply H. Qed.

Lemma erase_clean_events (o : outcome) (path : string) :
  map erase (clean_events o path) = clean_events o path.
Proof. unfold clean_events. now destruct (dir_exists o). Qed.

Lemma erase_guarded_events (o : outcome) (m p : list string) (s e : string) :
  map erase (guarded_events o m p s e) = guarded_events o m p s e.
Proof. unfold guarded_events. now destruct (merge_ok o), (push_ok o). Qed.

End Yields.

(** ** The linear sweep, iteration by iteration *)

Section LinearSweep.
Import Py Recipe Trace MergeScanLinear.
Local Open Scope py_scope.

Variable float_str : float -> string.
Variable exn_str : exn -> string.
Variable output_dir : option string.

(** The result and the events of the iteration for [weight_1] under the
    outcome [o]: the recipe is written in every case; when the removal
    of the output directory raises, nothing follows. *)
Definition linear_expect (o : outcome) (weight_1 : float) : res unit * list event :=
  let weight_2 := second_weight weight_1 in
  let out := current_output_dir float_str output_dir weight_1 weight_2 in
  let path := temp_yaml_path float_str weight_1 weight_2 in
  let ws := weights_str float_str weight_1 weight_2 in
  let head :=
    [EPrint (nl +:+ rule); EPrint ("PROCESSING WEIGHTS: " +:+ ws);
     EPrint (rule +:+ nl); ESave path VNone] ++ clean_events o out in
  if rmtree_raises o then (Raise OSError, head)
  else (Ok tt,
        head ++
        guarded_events o (merge_cmd path out) (push_cmd out)
          ("Successfully processed weights " +:+ ws)
          ("Error processing weights " +:+ ws +:+ ": " +:+ exn_str CalledProcessError)
        ++ [ESleep 2]).

Lemma process_weight_yields (o : outcome) (original_yaml : value)
    (weight_1 : float) (h : gmap loc obj) :
  shaped h original_yaml = true ->
  exists h' evs,
    yields (process_weight float_str exn_str o original_yaml output_dir weight_1)
      h (fst (linear_expect o weight_1)) h' evs /\
    shaped h' original_yaml = true /\
    map erase evs = snd (linear_expect o weight_1).
Proof.
  intros Hs.
  destruct (copy_update_weights h original_yaml weight_1 (second_weight weight_1) Hs)
    as (l' & h' & p0 & p1 & Hrun & Hf & _).
  assert (Hs' : shaped h' original_yaml = true)
    by (apply (shaped_frame "weight" h h'); [discriminate|discriminate|exact Hf|exact Hs]).
  pose proof (yields_clean_dir o
    (current_output_dir float_str output_dir weight_1 (second_weight weight_1)) h')
    as Hc.
  unfold process_weight, linear_expect.
  destruct (rmtree_raises o) eqn:Er; cbn [fst snd].
  - eexists h', _. split; [|split; [exact Hs'|]].
    + eapply yields_bind; [apply yields_emit|].
      eapply yields_bind; [apply yields_emit|].
      eapply yields_bind; [apply yields_emit|].
      apply yields_assoc.
      eapply yields_bind; [apply yields_silent; exact Hrun|].
      eapply yields_bind; [apply yields_emit|].
      apply yields_bind_raise. exact Hc.
    + rewrite !map_app, erase_clean_events. reflexivity.
  - eexists h', _. split; [|split; [exact Hs'|]].
    + eapply yields_bind; [apply yields_emit|].
      eapply yields_bind; [apply yields_emit|].
      eapply yields_bind; [apply yields_emit|].
      apply yields_assoc.
      eapply yields_bind; [apply yields_silent; exact Hrun|].
      eapply yields_bind; [apply yields_emit|].
      eapply yields_bind; [exact Hc|].
      eapply yields_bind; [|apply yields_emit].
      unfold run_merge, run_push_to_hub.
      apply (yields_guarded o _ _ _
               (fun e => "Error processing weights " +:+
                         weights_str float_str weight_1 (second_weight weight_1)
                         +:+ ": " +:+ exn_str e)).
    + rewrite !map_app, erase_clean_events, erase_guarded_events. reflexivity.
Qed.

End LinearSweep.

(** ** The TIES sweep, iteration by iteration *)

Section TiesSweep.
Import Py Recipe Trace MergeScanTies.
Local Open Scope py_scope.

Variable float_str : float -> string.
Variable exn_str : exn -> string.
Variable output_dir : string.

Lemma has_parameters_frame (k : string) (h h' : gmap loc obj) (root : value) :
  k <> "parameters" -> frame (KStr k) h h' ->
  has_parameters h root = true -> has_parameters h' root = true.
Proof.
  intros Hk Hf. unfold has_parameters.
  destruct (dget h root (KStr "parameters")) as [p|] eqn:E; [|discriminate].
  intros Hd.
  assert (Kp : KStr "parameters" <> KStr k) by (intros [= E']; now apply Hk).
  destruct (Hf root (dget_allocated _ _ _ _ E)) as (_ & A & _ & _).
  rewrite (A _ Kp), E.
  destruct (Hf p (is_dict_allocated _ _ Hd)) as (_ & _ & _ & C).
  now rewrite C.
Qed.

(** The result and the events of the iteration for [lmda] and
    [density_pair] under the outcome [o]. *)
Definition ties_expect (o : outcome) (c : float * option (float * float))
    : res unit * list event :=
  let lmda := fst c in
  let density_pair := snd c in
  let path := temp_yaml_path float_str lmda density_pair in
  let head :=
    [EPrint (nl +:+ rule);
     EPrint ("PROCESSING LAMBDA: " +:+ float_str lmda +:+
             match density_pair with
             | Some (density_1, density_2) =>
                 " WITH DENSITIES: " +:+ pair_str float_str density_1 density_2
             | None => ""
             end);
     EPrint (rule +:+ nl); ESave path VNone] ++ clean_events o output_dir in
  if rmtree_raises o then (Raise OSError, head)
  else (Ok tt,
        head ++
        guarded_events o (merge_cmd path output_dir) (push_cmd output_dir)
          ("Successfully processed " +:+ lambda_str float_str lmda
           +:+ density_str float_str density_pair)
          ("Error processing " +:+ lambda_str float_str lmda
           +:+ density_str float_str density_pair +:+ ": "
           +:+ exn_str CalledProcessError)
        ++ [ESleep 2]).

(** The recipe update of an iteration: the store afterwards holds what
    it held, but for the [lambda] of the top-level parameters and, when
    there is a density pair, the [density] of the models' parameters. *)
Lemma process_yields (o : outcome) (original_yaml : value)
    (c : float * option (float * float)) (h : gmap loc obj) :
  has_parameters h original_yaml = true ->
  (snd c <> None -> shaped h original_yaml = true) ->
  exists hm h' evs,
    yields (process float_str exn_str o original_yaml output_dir (fst c) (snd c))
      h (fst (ties_expect o c)) h' evs /\
    frame (KStr "lambda") h hm /\
    match snd c with
    | None => h' = hm
    | Some _ => frame (KStr "density") hm h'
    end /\
    map erase evs = snd (ties_expect o c).
Proof.
  intros Hpar Hshape. destruct c as [lmda pair]. cbn [fst snd] in *.
  pose proof Hpar as Hpar'. unfold has_parameters in Hpar'.
  destruct (dget h original_yaml (KStr "parameters")) as [p|] eqn:Ep; [|discriminate].
  pose proof Ep as Ep'. unfold dget in Ep'.
  destruct original_yaml as [| | | | |l0]; try discriminate.
  destruct (h !! l0) as [o0|] eqn:Hl0; [|discriminate].
  pose proof (fresh_unallocated h) as Hfresh.
  set (l' := fresh (dom h)) in *. set (h1 := <[l' := o0]> h).
  assert (F1 : forall k, frame k h h1) by (intros k; now apply frame_alloc).
  assert (Ep1 : dget h1 (VRef l') (KStr "parameters") = Some p).
  { unfold dget, h1. rewrite lookup_insert_eq. exact Ep'. }
  assert (Hd1 : is_dict h1 p = true).
  { destruct (F1 (KStr "lambda") p (is_dict_allocated _ _ Hpar')) as (_ & _ & _ & C).
    now rewrite C. }
  destruct (update_lambda_run h1 (VRef l') p lmda Ep1 Hd1) as (h2 & Hlam & F2 & _).
  assert (F12 : frame (KStr "lambda") h h2)
    by (eapply frame_trans; [apply F1|exact F2]).
  assert (Hpair : exists h',
            (forall tr,
               match pair with
               | Some (density_1, density_2) =>
                   update_densities (VRef l') density_1 density_2
               | None => ret (VRef l')
               end (World h2 tr) = (Ok (VRef l'), World h' tr)) /\
            match pair with
            | None => h' = h2
            | Some _ => frame (KStr "density") h2 h'
            end).
  { destruct pair as [[d1 d2]|].
    - specialize (Hshape ltac:(discriminate)).
      destruct (shaped_root _ _ Hshape) as (l0' & o' & p0 & p1 & [= <-] & Hl & Hp0 & Hp1).
      pose proof (parameters_of_copy h l0 l' o0 0 p0 Hl0 Hfresh Hp0) as Hq0.
      pose proof (parameters_of_copy h l0 l' o0 1 p1 Hl0 Hfresh Hp1) as Hq1.
      apply (parameters_of_frame "lambda" h1 h2 _ _ _ ltac:(discriminate)
               ltac:(discriminate) F2) in Hq0, Hq1.
      destruct (assign_both_run "density" h2 (VRef l') p0 p1 d1 d2
                  ltac:(discriminate) ltac:(discriminate) Hq0 Hq1)
        as (h3 & Hrun & F3 & _).
      exists h3. split; [exact Hrun|exact F3].
    - exists h2. split; [reflexivity|reflexivity]. }
  destruct Hpair as (h' & Hden & Hrel).
  pose proof (yields_clean_dir o output_dir h') as Hc.
  exists h2, h'. unfold process, ties_expect. cbn [fst snd].
  destruct (rmtree_raises o) eqn:Er; cbn [fst snd].
  - eexists. split; [|split; [exact F12|split; [exact Hrel|]]].
    + eapply yields_bind; [apply yields_emit|].
      eapply yields_bind; [apply yields_emit|].
      eapply yields_bind; [apply yields_emit|].
      eapply yields_bind;
        [apply yields_silent; intros tr; apply (copy_run h l0 o0 tr Hl0)|].
      fold l'. fold h1.
      eapply yields_bind; [apply yields_silent; exact Hlam|].
      eapply yields_bind; [apply yields_silent; exact Hden|].
      eapply yields_bind; [apply yields_emit|].
      apply yields_bind_raise. exact Hc.
    + rewrite !map_app, erase_clean_events. reflexivity.
  - eexists. split; [|split; [exact F12|split; [exact Hrel|]]].
    + eapply yields_bind; [apply yields_emit|].
      eapply yields_bind; [apply yields_emit|].
      eapply yields_bind; [apply yields_emit|].
      eapply yields_bind;
        [apply yields_silent; intros tr; apply (copy_run h l0 o0 tr Hl0)|].
      fold l'. fold h1.
      eapply yields_bind; [apply yields_silent; exact Hlam|].
      eapply yields_bind; [apply yields_silent; exact Hden|].
      eapply yields_bind; [apply yields_emit|].
      eapply yields_bind; [exact Hc|].
      eapply yields_bind; [|apply yields_emit].
      unfold run_merge, run_push_to_hub.
      apply (yields_guarded o _ _ _
               (fun e => "Error processing " +:+ lambda_str float_str lmda
                         +:+ density_str float_str pair +:+ ": " +:+ exn_str e)).
    + rewrite !map_app, erase_clean_events, erase_guarded_events. reflexivity.
Qed.

End TiesSweep.

(** ** Observations of the events of a whole loop *)

Section LoopObservations.
Import Py Trace.

Lemma flat_map_concat_imap {A B : Type} (g : event -> list B)
    (l : list A) : forall (f : nat -> A -> list event),
  flat_map g (concat (imap f l))
  = concat (imap (fun i x => flat_map g (f i x)) l).
Proof.
  induction l as [|x l IH]; intros f; [reflexivity|].
  cbn [imap concat]. rewrite flat_map_app. f_equal. apply IH.
Qed.

Lemma concat_imap_const {A B : Type} (f : A -> B) (l : list A) :
  concat (imap (fun _ x => [f x]) l) = map f l.
Proof.
  induction l as [|x l IH]; [reflexivity|].
  cbn [imap concat map app]. f_equal. exact IH.
Qed.

Lemma in_concat_imap {A B : Type} (f : nat -> A -> list B) (l : list A)
    (i : nat) (x : A) (y : B) :
  l !! i = Some x -> In y (f i x) -> In y (concat (imap f l)).
Proof.
  intros Hl Hy. apply in_concat. exists (f i x). split; [|exact Hy].
  apply list_elem_of_In, elem_of_lookup_imap. now exists i, x.
Qed.

End LoopObservations.

(** ** The linear sweep as a whole *)

Section LinearSweepRuns.
Import Py Recipe Trace MergeScanLinear.

Variable float_str : float -> string.
Variable exn_str : exn -> string.
Variable output_dir : option string.

(** The recipe path, the commands and the error line of the iteration
    for [weight_1]. *)
Definition linear_path (weight_1 : float) : string :=
  temp_yaml_path float_str weight_1 (second_weight weight_1).

Definition linear_out (weight_1 : float) : string :=
  current_output_dir float_str output_dir weight_1 (second_weight weight_1).

Definition linear_attempts (o : outcome) (weight_1 : float) : list (list string) :=
  attempts o (merge_cmd (linear_path weight_1) (linear_out weight_1))
             (push_cmd (linear_out weight_1)).

Definition linear_error_line (weight_1 : float) : string :=
  "Error processing weights "
  +:+ weights_str float_str weight_1 (second_weight weight_1)
  +:+ ": " +:+ exn_str CalledProcessError.

Lemma linear_expect_result (o : outcome) (w1 : float) :
  fst (linear_expect float_str exn_str output_dir o w1)
  = if rmtree_raises o then Raise OSError else Ok tt.
Proof. unfold linear_expect. now destruct (rmtree_raises o). Qed.

Lemma linear_expect_commands (o : outcome) (w1 : float) :
  commands (snd (linear_expect float_str exn_str output_dir o w1))
  = if rmtree_raises o then [] else linear_attempts o w1.
Proof.
  unfold linear_expect, rmtree_raises, linear_attempts, attempts, clean_events,
    guarded_events.
  destruct o as [de ro mo po]. cbn [dir_exists rmtree_ok merge_ok push_ok].
  destruct de, ro, mo, po; reflexivity.
Qed.

Lemma linear_expect_saved (o : outcome) (w1 : float) :
  saved_paths (snd (linear_expect float_str exn_str output_dir o w1))
  = [linear_path w1].
Proof.
  unfold linear_expect, rmtree_raises, clean_events, guarded_events.
  destruct o as [de ro mo po]. cbn [dir_exists rmtree_ok merge_ok push_ok].
  destruct de, ro, mo, po; reflexivity.
Qed.

Lemma linear_expect_error (o : outcome) (w1 : float) :
  rmtree_raises o = false -> tool_fails o = true ->
  In (linear_error_line w1)
     (printed (snd (linear_expect float_str exn_str output_dir o w1))).
Proof.
  unfold linear_expect, rmtree_raises, tool_fails, clean_events, guarded_events,
    linear_error_line.
  destruct o as [de ro mo po]. cbn [dir_exists rmtree_ok merge_ok push_ok].
  destruct de, ro, mo, po; cbn [andb negb]; try discriminate; intros _ _;
    cbn [snd app printed flat_map]; auto 12 using in_eq, in_cons.
Qed.

Lemma linear_body_spec (env : nat -> outcome) (original_yaml : value) :
  forall i (x : float) h tr,
    shaped h original_yaml = true -> True ->
    exists h' tr',
      process_weight float_str exn_str (env i) original_yaml output_dir x (World h tr)
      = (fst (linear_expect float_str exn_str output_dir (env i) x),
         World h' (tr ++ tr')) /\
      shaped h' original_yaml = true /\
      map erase tr' = snd (linear_expect float_str exn_str output_dir (env i) x).
Proof.
  intros i x h tr Hs _.
  destruct (process_weight_yields float_str exn_str output_dir (env i)
              original_yaml x h Hs) as (h' & evs & Hy & Hs' & Hev).
  exists h', evs. split; [apply Hy|]. now split.
Qed.

(** When no removal raises, every weight is processed. *)
Lemma linear_sweep_ok (env : nat -> outcome) (original_yaml : value)
    (weights : list float) (h : gmap loc obj) (tr : list event) :
  shaped h original_yaml = true ->
  (forall i x, weights !! i = Some x -> rmtree_raises (env i) = false) ->
  exists w',
    sweep float_str exn_str env original_yaml output_dir weights (World h tr)
    = (Ok tt, w') /\
    shaped (heap w') original_yaml = true /\
    saved_paths (trace w') = saved_paths tr ++ map linear_path weights /\
    commands (trace w')
    = commands tr ++ concat (imap (fun i x => linear_attempts (env i) x) weights) /\
    (forall i x, weights !! i = Some x -> tool_fails (env i) = true ->
                 In (linear_error_line x) (printed (trace w'))).
Proof.
  intros Hs Hfs.
  destruct (for_each_ok
              (fun i x => process_weight float_str exn_str (env i) original_yaml
                            output_dir x)
              (fun h => shaped h original_yaml = true) (fun _ => True)
              (fun i x => linear_expect float_str exn_str output_dir (env i) x)
              (linear_body_spec env original_yaml) weights 0 h tr Hs)
    as (h' & tr' & Hrun & Hs' & Hev).
  { now apply Forall_forall. }
  { intros i x Hx. cbn. rewrite linear_expect_result. now rewrite (Hfs i x Hx). }
  exists (World h' (tr ++ tr')). cbn [heap trace].
  split; [exact Hrun|]. split; [exact Hs'|]. split; [|split].
  - rewrite saved_paths_app, <- (saved_paths_erase tr'), Hev. f_equal.
    unfold saved_paths. rewrite flat_map_concat_imap.
    rewrite <- (concat_imap_const linear_path). f_equal.
    apply imap_ext. intros i x _. apply linear_expect_saved.
  - rewrite commands_app, <- (commands_erase tr'), Hev. f_equal.
    unfold commands at 1. rewrite flat_map_concat_imap. f_equal.
    apply imap_ext. intros i x Hx. cbn.
    fold (commands (snd (linear_expect float_str exn_str output_dir (env i) x))).
    rewrite linear_expect_commands. now rewrite (Hfs i x Hx).
  - intros i x Hx Hfail. rewrite printed_app. apply in_or_app. right.
    rewrite <- (printed_erase tr'), Hev. unfold printed at 1.
    rewrite flat_map_concat_imap.
    apply (in_concat_imap _ weights i x); [exact Hx|].
    apply linear_expect_error; [now apply (Hfs i x)|exact Hfail].
Qed.


End LinearSweepRuns.

(** ** The TIES sweep as a whole *)

Section TiesSweepRuns.
Import Py Recipe Trace MergeScanTies.

Variable float_str : float -> string.
Variable exn_str : exn -> string.
Variable output_dir : string.

Definition combination : Type := (float * option (float * float))%type.

(** The recipe path, the commands and the error line of the iteration
    for a combination. *)
Definition ties_path (c : combination) : string :=
  temp_yaml_path float_str (fst c) (snd c).

Definition ties_attempts (o : outcome) (c : combination) : list (list string) :=
  attempts o (merge_cmd (ties_path c) output_dir) (push_cmd output_dir).

Definition ties_error_line (c : combination) : string :=
  "Error processing " +:+ lambda_str float_str (fst c)
  +:+ density_str float_str (snd c) +:+ ": " +:+ exn_str CalledProcessError.

Definition ties_banner (c : combination) : list string :=
  [nl +:+ rule;
   "PROCESSING LAMBDA: " +:+ float_str (fst c) +:+
   match snd c with
   | Some (density_1, density_2) =>
       " WITH DENSITIES: " +:+ pair_str float_str density_1 density_2
   | None => ""
   end;
   rule +:+ nl].

Lemma ties_expect_result (o : outcome) (c : combination) :
  fst (ties_expect float_str exn_str output_dir o c)
  = if rmtree_raises o then Raise OSError else Ok tt.
Proof. unfold ties_expect. now destruct (rmtree_raises o). Qed.

Lemma ties_expect_commands (o : outcome) (c : combination) :
  commands (snd (ties_expect float_str exn_str output_dir o c))
  = if rmtree_raises o then [] else ties_attempts o c.
Proof.
  unfold ties_expect, rmtree_raises, ties_attempts, attempts, clean_events,
    guarded_events.
  destruct o as [de ro mo po]. cbn [dir_exists rmtree_ok merge_ok push_ok].
  destruct de, ro, mo, po; reflexivity.
Qed.

Lemma ties_expect_saved (o : outcome) (c : combination) :
  saved_paths (snd (ties_expect float_str exn_str output_dir o c)) = [ties_path c].
Proof.
  unfold ties_expect, rmtree_raises, clean_events, guarded_events.
  destruct o as [de ro mo po]. cbn [dir_exists rmtree_ok merge_ok push_ok].
  destruct de, ro, mo, po; reflexivity.
Qed.

Lemma ties_expect_error (o : outcome) (c : combination) :
  rmtree_raises o = false -> tool_fails o = true ->
  In (ties_error_line c)
     (printed (snd (ties_expect float_str exn_str output_dir o c))).
Proof.
  unfold ties_expect, rmtree_raises, tool_fails, clean_events, guarded_events,
    ties_error_line.
  destruct o as [de ro mo po]. cbn [dir_exists rmtree_ok merge_ok push_ok].
  destruct de, ro, mo, po; cbn [andb negb]; try discriminate; intros _ _;
    cbn [snd app printed flat_map]; auto 12 using in_eq, in_cons.
Qed.

Lemma shaped_ties_inv (h : gmap loc obj) (root : value) :
  shaped_ties h root = true ->
  has_parameters h root = true /\ shaped h root = true.
Proof. unfold shaped_ties. intros H. now apply andb_true_iff in H. Qed.

Lemma ties_body_spec (env : nat -> outcome) (original_yaml : value) :
  forall i (c : combination) h tr,
    shaped_ties h original_yaml = true -> True ->
    exists h' tr',
      process float_str exn_str (env i) original_yaml output_dir (fst c) (snd c)
        (World h tr)
      = (fst (ties_expect float_str exn_str output_dir (env i) c),
         World h' (tr ++ tr')) /\
      shaped_ties h' original_yaml = true /\
      map erase tr' = snd (ties_expect float_str exn_str output_dir (env i) c).
Proof.
  intros i c h tr Hs _. destruct (shaped_ties_inv _ _ Hs) as (Hp & Hsh).
  destruct (process_yields float_str exn_str output_dir (env i) original_yaml c h
              Hp (fun _ => Hsh)) as (hm & h' & evs & Hy & Fl & Fd & Hev).
  exists h', evs. split; [apply Hy|]. split; [|exact Hev].
  assert (Hpm : has_parameters hm original_yaml = true)
    by (apply (has_parameters_frame "lambda" h hm); [discriminate|exact Fl|exact Hp]).
  assert (Hsm : shaped hm original_yaml = true)
    by (apply (shaped_frame "lambda" h hm);
        [discriminate|discriminate|exact Fl|exact Hsh]).
  unfold shaped_ties. apply andb_true_iff.
  destruct (snd c).
  - split.
    + apply (has_parameters_frame "density" hm h'); [discriminate|exact Fd|exact Hpm].
    + apply (shaped_frame "density" hm h');
        [discriminate|discriminate|exact Fd|exact Hsm].
  - subst h'. now split.
Qed.

(** When no removal raises, every combination is processed. *)
Lemma ties_sweep_ok (env : nat -> outcome) (original_yaml : value)
    (lambdas : list float) (pairs : list (option (float * float)))
    (h : gmap loc obj) (tr : list event) :
  shaped_ties h original_yaml = true ->
  (forall i c, combinations lambdas pairs !! i = Some c ->
               rmtree_raises (env i) = false) ->
  exists w',
    sweep float_str exn_str env original_yaml output_dir lambdas pairs (World h tr)
    = (Ok tt, w') /\
    saved_paths (trace w')
    = saved_paths tr ++ map ties_path (combinations lambdas pairs) /\
    commands (trace w')
    = commands tr
      ++ concat (imap (fun i c => ties_attempts (env i) c)
                      (combinations lambdas pairs)) /\
    (forall i c, combinations lambdas pairs !! i = Some c ->
                 tool_fails (env i) = true ->
                 In (ties_error_line c) (printed (trace w'))).
Proof.
  intros Hs Hfs. unfold sweep.
  destruct (for_each_ok
              (fun i (c : combination) =>
                 process float_str exn_str (env i) original_yaml output_dir
                   (fst c) (snd c))
              (fun h => shaped_ties h original_yaml = true) (fun _ => True)
              (fun i c => ties_expect float_str exn_str output_dir (env i) c)
              (ties_body_spec env original_yaml) (combinations lambdas pairs)
              0 h tr Hs)
    as (h' & tr' & Hrun & Hs' & Hev).
  { now apply Forall_forall. }
  { intros i x Hx. cbn. rewrite ties_expect_result. now rewrite (Hfs i x Hx). }
  exists (World h' (tr ++ tr')). cbn [heap trace].
  split; [exact Hrun|]. split; [|split].
  - rewrite saved_paths_app, <- (saved_paths_erase tr'), Hev. f_equal.
    unfold saved_paths. rewrite flat_map_concat_imap.
    rewrite <- (concat_imap_const ties_path). f_equal.
    apply imap_ext. intros i x _. apply ties_expect_saved.
  - rewrite commands_app, <- (commands_erase tr'), Hev. f_equal.
    unfold commands at 1. rewrite flat_map_concat_imap. f_equal.
    apply imap_ext. intros i x Hx. cbn.
    fold (commands (snd (ties_expect float_str exn_str output_dir (env i) x))).
    rewrite ties_expect_commands. now rewrite (Hfs i x Hx).
  - intros i x Hx Hfail. rewrite printed_app. apply in_or_app. right.
    rewrite <- (printed_erase tr'), Hev. unfold printed at 1.
    rewrite flat_map_concat_imap.
    apply (in_concat_imap _ (combinations lambdas pairs) i x); [exact Hx|].
    apply ties_expect_error; [now apply (Hfs i x)|exact Hfail].
Qed.


End TiesSweepRuns.

(** ** Comparisons of floats *)

Section FloatOrder.

Lemma ltb_leb (x y : float) : (x <? y)%float = true -> (x <=? y)%float = true.
Proof.
  rewrite FloatAxioms.ltb_spec, FloatAxioms.leb_spec. unfold SFltb, SFleb.
  now destruct (SFcompare (Prim2SF x) (Prim2SF y)) as [[| |]|].
Qed.

Lemma ltb_not_eqb (x y : float) : (x <? y)%float = true -> (x =? y)%float = false.
Proof.
  rewrite FloatAxioms.ltb_spec, FloatAxioms.eqb_spec. unfold SFltb, SFeqb.
  now destruct (SFcompare (Prim2SF x) (Prim2SF y)) as [[| |]|].
Qed.

Lemma eqb_leb (x y : float) : (x =? y)%float = true -> (x <=? y)%float = true.
Proof.
  rewrite FloatAxioms.eqb_spec, FloatAxioms.leb_spec. unfold SFeqb, SFleb.
  now destruct (SFcompare (Prim2SF x) (Prim2SF y)) as [[| |]|].
Qed.

Lemma eqb_not_ltb (x y : float) : (x =? y)%float = true -> (x <? y)%float = false.
Proof.
  rewrite FloatAxioms.eqb_spec, FloatAxioms.ltb_spec. unfold SFeqb, SFltb.
  now destruct (SFcompare (Prim2SF x) (Prim2SF y)) as [[| |]|].
Qed.


Lemma SFcompare_antisym (x y : spec_float) :
  SFcompare y x = option_map CompOpp (SFcompare x y).
Proof.
  destruct x as [sx|sx| |sx mx ex], y as [sy|sy| |sy my ey]; cbn;
    try reflexivity; try (now destruct sx); try (now destruct sy);
    try (now destruct sx, sy).
  destruct sx, sy; cbn; try reflexivity.
  - rewrite (Z.compare_antisym ex ey).
    destruct (ex ?= ey)%Z; cbn; try reflexivity.
    rewrite (Pos.compare_cont_antisym my mx Eq). cbn.
    now rewrite CompOpp_involutive.
  - rewrite (Z.compare_antisym ex ey).
    destruct (ex ?= ey)%Z; cbn; try reflexivity.
    rewrite (Pos.compare_cont_antisym mx my Eq). reflexivity.
Qed.

Lemma gtb_not_leb (x y : float) : (y <? x)%float = true -> (x <=? y)%float = false.
Proof.
  rewrite FloatAxioms.ltb_spec, FloatAxioms.leb_spec. unfold SFltb, SFleb.
  rewrite (SFcompare_antisym (Prim2SF x) (Prim2SF y)).
  now destruct (SFcompare (Prim2SF x) (Prim2SF y)) as [[| |]|].
Qed.

Lemma gtb_not_ltb (x y : float) : (y <? x)%float = true -> (x <? y)%float = false.
Proof.
  rewrite !FloatAxioms.ltb_spec. unfold SFltb.
  rewrite (SFcompare_antisym (Prim2SF x) (Prim2SF y)).
  now destruct (SFcompare (Prim2SF x) (Prim2SF y)) as [[| |]|].
Qed.

Lemma gtb_not_eqb (x y : float) : (y <? x)%float = true -> (x =? y)%float = false.
Proof.
  rewrite FloatAxioms.ltb_spec, FloatAxioms.eqb_spec. unfold SFltb, SFeqb.
  rewrite (SFcompare_antisym (Prim2SF x) (Prim2SF y)).
  now destruct (SFcompare (Prim2SF x) (Prim2SF y)) as [[| |]|].
Qed.

End FloatOrder.

(** ** The weight loop *)

Module Weights.
Import MergeScanLinear.

(** The value of [current] at the start of the iteration [k]. *)
Fixpoint current_at (weight_start weight_end step_size : float) (k : nat) : float :=
  match k with
  | O => weight_start
  | S k' => advance weight_start weight_end step_size
              (current_at weight_start weight_end step_size k')
  end.

(** The first [n] weights: each iteration appends the rounded [current]. *)
Definition first_weights (weight_start weight_end step_size : float) (n : nat)
    : list float :=
  map (fun k => PyFloat.round (current_at weight_start weight_end step_size k) 3)
      (seq 0 n).

(** The loop leaves at iteration [n]: the guard holds before, not at [n]. *)
Definition leaves_at (weight_start weight_end step_size : float) (n : nat) : Prop :=
  guard weight_start weight_end (current_at weight_start weight_end step_size n)
  = false /\
  forall k, k < n ->
    guard weight_start weight_end (current_at weight_start weight_end step_size k)
    = true.



End Weights.

Section WeightLoop.
Import MergeScanLinear Weights.

Variables weight_start weight_end step_size : float.
Hypothesis distinct : (weight_start =? weight_end)%float = false.

Let cur := current_at weight_start weight_end step_size.

Lemma weights_loop_reaches (n : nat) : forall fuel k acc,
  k <= n -> n - k < fuel ->
  (forall j, k <= j < n -> guard weight_start weight_end (cur j) = true) ->
  guard weight_start weight_end (cur n) = false ->
  weights_loop fuel weight_start weight_end step_size (cur k) acc
  = Some (acc ++ map (fun j => PyFloat.round (cur j) 3) (seq k (n - k))).
Proof.
  induction fuel as [|fuel IH]; intros k acc Hk Hfuel Hin Hout; [lia|].
  cbn [weights_loop]. destruct (decide (k = n)) as [->|Hne].
  - rewrite Hout, Nat.sub_diag. cbn. now rewrite app_nil_r.
  - rewrite (Hin k) by lia. rewrite distinct.
    change (advance weight_start weight_end step_size (cur k)) with (cur (S k)).
    rewrite (IH (S k)); [|lia|lia|intros j Hj; apply Hin; lia|exact Hout].
    replace (n - k) with (S (n - S k)) by lia. cbn [seq map].
    now rewrite <- app_assoc.
Qed.

Lemma weights_loop_result : forall fuel k acc ws,
  weights_loop fuel weight_start weight_end step_size (cur k) acc = Some ws ->
  exists n,
    k <= n /\ n - k < fuel /\
    (forall j, k <= j < n -> guard weight_start weight_end (cur j) = true) /\
    guard weight_start weight_end (cur n) = false /\
    ws = acc ++ map (fun j => PyFloat.round (cur j) 3) (seq k (n - k)).
Proof.
  induction fuel as [|fuel IH]; intros k acc ws; [discriminate|].
  cbn [weights_loop].
  destruct (guard weight_start weight_end (cur k)) eqn:Hg.
  - rewrite distinct.
    change (advance weight_start weight_end step_size (cur k)) with (cur (S k)).
    intros H. destruct (IH _ _ _ H) as (n & Hn & Hf & Hin & Hout & ->).
    exists n. split; [lia|]. split; [lia|]. split; [|split; [exact Hout|]].
    + intros j Hj. destruct (decide (j = k)) as [->|]; [exact Hg|apply Hin; lia].
    + replace (n - k) with (S (n - S k)) by lia. cbn [seq map].
      now rewrite <- app_assoc.
  - intros [= <-]. exists k. rewrite Nat.sub_diag. cbn. rewrite app_nil_r.
    repeat split; try lia; auto.
Qed.

(** With distinct bounds the loop ends exactly when the guard first
    fails, and returns the weights before that. *)
Lemma gen_weights_distinct (fuel : nat) (ws : list float) :
  gen_weights fuel weight_start weight_end step_size = Some ws <->
  exists n, n < fuel /\ leaves_at weight_start weight_end step_size n /\
            ws = first_weights weight_start weight_end step_size n.
Proof.
  unfold gen_weights, leaves_at, first_weights. fold cur. split.
  - intros H. destruct (weights_loop_result fuel 0 [] ws H)
      as (n & _ & Hf & Hin & Hout & ->).
    exists n. rewrite Nat.sub_0_r in *. split; [exact Hf|]. split; [|reflexivity].
    split; [exact Hout|]. intros k Hk. apply Hin. lia.
  - intros (n & Hf & (Hout & Hin) & ->).
    pose proof (weights_loop_reaches n fuel 0 [] ltac:(lia) ltac:(lia)) as Hr.
    rewrite Nat.sub_0_r in Hr. apply Hr; [|exact Hout].
    intros j Hj. apply Hin. lia.
Qed.

End WeightLoop.

Section WeightLoopEqual.
Import MergeScanLinear Weights.

(** With equal bounds the body runs at most once, whatever the step. *)
Lemma gen_weights_equal (fuel : nat) (weight_start weight_end step_size : float) :
  (weight_start =? weight_end)%float = true ->
  gen_weights (S fuel) weight_start weight_end step_size
  = Some (if (weight_start <=? weight_end + 1e-6)%float
          then [PyFloat.round weight_start 3] else []).
Proof.
  intros He. unfold gen_weights. cbn [weights_loop]. unfold guard.
  rewrite (eqb_leb _ _ He), He.
  now destruct (weight_start <=? weight_end + 1e-6)%float.
Qed.

End WeightLoopEqual.

(** ** Paths built from printed values *)

Module Paths.

(** A string without the separator of the path templates. *)
Definition plain (s : string) : bool :=
  forallb (fun c => negb (Ascii.eqb c "_")) (String.list_ascii_of_string s).



End Paths.

Section PathFacts.
Import Paths.

Let chars := String.list_ascii_of_string.

Lemma chars_app (a b : string) : chars (a +:+ b) = chars a ++ chars b.
Proof. induction a as [|c a IH]; [reflexivity|]. cbn. now rewrite <- IH. Qed.

Lemma chars_inj (a b : string) : chars a = chars b -> a = b.
Proof.
  intros H. rewrite <- (String.string_of_list_ascii_of_string a),
    <- (String.string_of_list_ascii_of_string b). unfold chars in H. now rewrite H.
Qed.

Lemma plain_chars (s : string) :
  plain s = true -> ~ In "_"%char (chars s).
Proof.
  unfold plain. fold chars. intros H Hin.
  rewrite forallb_forall in H. specialize (H _ Hin).
  now rewrite Ascii.eqb_refl in H.
Qed.

Lemma split_at_separator (l1 l2 t1 t2 : list ascii) :
  ~ In "_"%char l1 -> ~ In "_"%char l2 ->
  l1 ++ "_"%char :: t1 = l2 ++ "_"%char :: t2 -> l1 = l2 /\ t1 = t2.
Proof.
  revert l2. induction l1 as [|c l1 IH]; intros [|d l2] H1 H2 Heq; cbn in *.
  - now inversion Heq.
  - inversion Heq as [[Hd Ht]]. subst d. exfalso. apply H2. now left.
  - inversion Heq as [[Hc Ht]]. subst c. exfalso. apply H1. now left.
  - inversion Heq as [[Hc Ht]]. subst d.
    destruct (IH l2) as (-> & ->); auto.
Qed.

(** Two strings [a ++ "_" ++ x] with plain [a] agree only when their
    parts agree. *)
Lemma separated_inj (a a' x x' : string) :
  plain a = true -> plain a' = true ->
  a +:+ "_" +:+ x = a' +:+ "_" +:+ x' -> a = a' /\ x = x'.
Proof.
  intros Ha Ha' Heq. apply (f_equal chars) in Heq.
  rewrite !chars_app in Heq. cbn in Heq.
  destruct (split_at_separator _ _ _ _ (plain_chars _ Ha) (plain_chars _ Ha') Heq)
    as (H1 & H2).
  split; now apply chars_inj.
Qed.


Lemma append_inv_head (s a b : string) : s +:+ a = s +:+ b -> a = b.
Proof.
  intros Heq. apply (f_equal chars) in Heq. rewrite !chars_app in Heq.
  apply app_inv_head in Heq. now apply chars_inj.
Qed.


Lemma plain_no_separator (a b x : string) :
  plain a = true -> plain b = true -> a +:+ b <> a +:+ "_" +:+ x.
Proof.
  intros Ha Hb Heq. apply append_inv_head in Heq.
  apply (plain_chars _ Hb). rewrite Heq. cbn. now left.
Qed.


End PathFacts.

Section LinearPaths.
Import Paths MergeScanLinear.

Variable float_str : float -> string.
Variable output_dir : option string.

Lemma linear_path_inj (x y : float) :
  plain (float_str x) = true -> plain (float_str y) = true ->
  linear_path float_str x = linear_path float_str y -> float_str x = float_str y.
Proof.
  intros Hx Hy. unfold linear_path, temp_yaml_path. intros Heq.
  apply append_inv_head in Heq. apply (append_inv_head "/weights_") in Heq.
  now destruct (separated_inj _ _ _ _ Hx Hy Heq).
Qed.

Lemma linear_out_inj (x y : float) :
  plain (float_str x) = true -> plain (float_str y) = true ->
  linear_out float_str output_dir x = linear_out float_str output_dir y ->
  float_str x = float_str y.
Proof.
  intros Hx Hy. unfold linear_out, current_output_dir. intros Heq.
  apply append_inv_head in Heq. apply (append_inv_head "_") in Heq.
  now destruct (separated_inj _ _ _ _ Hx Hy Heq).
Qed.

End LinearPaths.

Section TiesPaths.
Import Paths MergeScanTies.

Variable float_str : float -> string.


End TiesPaths.

(** ** The pair of weights *)

Module WeightPair.
Import MergeScanLinear.





End WeightPair.

Section WeightPairFacts.
Import MergeScanLinear WeightPair.










End WeightPairFacts.

(** ** The density pairs *)

Section DensityPairs.
Import Py Recipe MergeScanTies.

Lemma flat_map_over_map {A B C : Type} (f : B -> list C) (g : A -> B) (l : list A) :
  flat_map f (map g l) = flat_map (fun x => f (g x)) l.
Proof. induction l as [|x l IH]; [reflexivity|]. cbn. now rewrite IH. Qed.

(** The nested loops build the product of the rounded axis with
    itself, in the order of the loops. *)
Lemma density_grid_product (start end_ step : float) :
  density_grid start end_ step
  = match density_axis start end_ step with
    | Raise e => Raise e
    | Ok axis => Ok (list_prod axis axis)
    end.
Proof.
  unfold density_grid, density_axis.
  destruct (Numpy.arange start (end_ + step / 2)%float step) as [ds|e];
    [|reflexivity].
  f_equal. rewrite list_prod_as_flat_map, flat_map_over_map.
  apply flat_map_ext. intros d1. now rewrite map_map.
Qed.

Lemma NoDup_list_prod {A : Type} (l : list A) :
  NoDup l -> NoDup (list_prod l l).
Proof.
  intros Hl. assert (Hgen : forall k : list A, NoDup k -> NoDup (list_prod k l)).
  { induction k as [|x k IH]; intros Hk; cbn; [constructor|].
    apply NoDup_cons in Hk. destruct Hk as (Hx & Hk).
    apply NoDup_app. split; [|split].
    - apply NoDup_fmap_2; [|exact Hl]. intros y z [= ->]. reflexivity.
    - intros [a b] Hin Hin2. apply list_elem_of_In, in_map_iff in Hin.
      destruct Hin as (y & [= <- <-] & _).
      apply list_elem_of_In, in_prod_iff in Hin2. destruct Hin2 as (Hin2 & _).
      apply Hx. now apply list_elem_of_In.
    - now apply IH. }
  now apply Hgen.
Qed.

End DensityPairs.

(** ** A TIES sweep without density pairs *)

Section TiesWithoutDensities.
Import Py Recipe Trace MergeScanTies.

Variable float_str : float -> string.
Variable exn_str : exn -> string.
Variable output_dir : string.

Lemma combinations_without_pairs (lambdas : list float) :
  combinations lambdas [None] = map (fun lmda => (lmda, None)) lambdas.
Proof. induction lambdas as [|l ls IH]; [reflexivity|]. cbn. now f_equal. Qed.

(** Only the [lambda] of the top-level parameters is assigned: every
    object of the store before the sweep reads afterwards as it did, but
    for the key [lambda]. *)
Lemma ties_sweep_frame (env : nat -> outcome) (original_yaml : value)
    (lambdas : list float) (h : gmap loc obj) (tr : list event) :
  has_parameters h original_yaml = true ->
  exists r w',
    sweep float_str exn_str env original_yaml output_dir lambdas [None] (World h tr)
    = (r, w') /\
    frame (KStr "lambda") h (heap w').
Proof.
  intros Hp. unfold sweep.
  destruct (for_each_inv
              (fun i (c : combination) =>
                 process float_str exn_str (env i) original_yaml output_dir
                   (fst c) (snd c))
              (fun h' => has_parameters h' original_yaml = true /\
                         frame (KStr "lambda") h h')
              (fun c => snd c = None)
              (fun i c => ties_expect float_str exn_str output_dir (env i) c))
    with (xs := combinations lambdas [None]) (start := 0) (h := h) (tr := tr)
    as (r & h' & tr' & Hrun & _ & Hf).
  - intros i c h1 tr1 (Hp1 & Hf1) Hc.
    destruct (process_yields float_str exn_str output_dir (env i) original_yaml c
                h1 Hp1) as (hm & h2 & evs & Hy & Fl & Fd & Hev).
    { intros Hne. contradiction. }
    rewrite Hc in Fd. subst h2.
    exists hm, evs. split; [apply Hy|]. split; [|exact Hev]. split.
    + apply (has_parameters_frame "lambda" h1 hm); [discriminate|exact Fl|exact Hp1].
    + eapply frame_trans; [exact Hf1|exact Fl].
  - split; [exact Hp|apply frame_refl].
  - rewrite combinations_without_pairs. apply Forall_forall.
    intros c Hc. apply list_elem_of_In, in_map_iff in Hc.
    now destruct Hc as (l & <- & _).
  - exists r, (World h' (tr ++ tr')). now split.
Qed.

End TiesWithoutDensities.

(** ** The model soup *)

Section SoupRecipe.
Import Py ModelSoup.

Lemma map_combine_replicate {A B C : Type} (f : B -> A -> C) (l : list A) (w : B) :
  map (fun rw => f (snd rw) (fst rw)) (combine l (replicate (length l) w))
  = map (f w) l.
Proof. induction l as [|x l IH]; [reflexivity|]. cbn. now rewrite IH. Qed.

(** The recipe of a non-empty list of revisions: one entry per
    revision, in the order of the list, each with the weight
    [1.0 / len(revisions)]. *)
Lemma merge_recipe_entries (model_id : string) (revisions : list string)
    (dtype chat_template : string) :
  revisions <> [] ->
  merge_recipe model_id revisions dtype chat_template
  = Ok (TDict
          [("models",
            TList (map (model_entry model_id
                          (1 / PyFloat.of_Z (Z.of_nat (length revisions))))
                       revisions));
           ("merge_method", TStr "linear");
           ("dtype", TStr dtype);
           ("chat_template", TStr chat_template)]).
Proof.
  intros Hne. unfold merge_recipe. destruct revisions as [|r rs]; [contradiction|].
  now rewrite (map_combine_replicate (model_entry model_id)).
Qed.

End SoupRecipe.

Section SoupSort.
Import Py ModelSoup.


Lemma insert_keyed_perm (kx : N * string) (l : list (N * string)) :
  insert_keyed kx l ≡ₚ kx :: l.
Proof.
  induction l as [|ky l IH]; [reflexivity|]. cbn.
  destruct (fst kx <=? fst ky)%N; [reflexivity|].
  rewrite IH. apply Permutation_swap.
Qed.

Lemma sort_keyed_perm (l : list (N * string)) : sort_keyed l ≡ₚ l.
Proof.
  induction l as [|kx l IH]; [reflexivity|]. cbn.
  rewrite insert_keyed_perm. now rewrite IH.
Qed.





(** Every pair of [keys_of key l] is a name of [l] with its key. *)
Lemma keys_of_pairs (key : string -> res N) (l : list string) (ks : list (N * string)) :
  keys_of key l = Ok ks ->
  map snd ks = l /\ Forall (fun kx => key (snd kx) = Ok (fst kx)) ks.
Proof.
  revert ks. induction l as [|x l IH]; intros ks; cbn.
  - intros [= <-]. now split.
  - destruct (key x) as [k|e] eqn:Ek; [|discriminate].
    destruct (keys_of key l) as [ks'|e]; [|discriminate].
    intros [= <-]. destruct (IH ks' eq_refl) as (Hm & Hall). cbn. split.
    + now rewrite Hm.
    + constructor; [exact Ek|exact Hall].
Qed.



End SoupSort.

Section SoupMain.
Import Py Trace ModelSoup.
Local Open Scope py_scope.

Variable exn_str : exn -> string.

(** The revisions that [get_model_revisions] returns. *)
Definition found_revisions (branches : res (list string))
    (pattern_search : string -> bool) : list string :=
  match branches with
  | Raise _ => []
  | Ok names =>
      match sort_by_key step_number (filter (fun n => pattern_search n = true) names) with
      | Ok sorted => sorted
      | Raise _ => []
      end
  end.



End SoupMain.

(** ** A recipe and outcomes for examples *)

Module Example.
Import Py.

(** The store after loading
    [{models: [{model: A, parameters: {weight: 0.5, density: 0.5}},
               {model: B, parameters: {weight: 0.5, density: 0.5}}],
      merge_method: ties, parameters: {lambda: 1.0}}];
    the recipe is the object 0. *)
Definition store : gmap loc obj :=
  list_to_map
    [(0, ODict [(KStr "models", VRef 1); (KStr "merge_method", VStr "ties");
                (KStr "parameters", VRef 6)]);
     (1, OList [VRef 2; VRef 3]);
     (2, ODict [(KStr "model", VStr "A"); (KStr "parameters", VRef 4)]);
     (3, ODict [(KStr "model", VStr "B"); (KStr "parameters", VRef 5)]);
     (4, ODict [(KStr "weight", VFloat 0.5); (KStr "density", VFloat 0.5)]);
     (5, ODict [(KStr "weight", VFloat 0.5); (KStr "density", VFloat 0.5)]);
     (6, ODict [(KStr "lambda", VFloat 1)])].

Definition recipe : value := VRef 0.

(** The outside when nothing is in the way and both tools succeed. *)
Definition fine : outcome := Outcome false true true true.

(** The merge tool fails for the second combination only. *)
Definition second_merge_fails (i : nat) : outcome :=
  if Nat.eqb i 1 then Outcome false true false true else fine.


End Example.

(** * The claims *)

Section Claims.
Import Py Recipe Trace.
Local Open Scope py_scope.

(** C1. The update of the linear sweep works on a shallow copy: what it
    assigns is read back through the base recipe. On every shaped base
    recipe, after [update_weights(original_yaml.copy(), w1, w2)] the base
    recipe's [models[1].parameters.weight] is [w2], and its
    [models[0].parameters.weight] is [w1] unless the two models share one
    parameters dictionary. *)
Theorem update_weights_writes_through (h : gmap loc obj) (original_yaml : value)
    (w1 w2 : float) :
  shaped h original_yaml = true ->
  exists l' h',
    (forall tr,
       (copied <- copy original_yaml ;;
        MergeScanLinear.update_weights copied w1 w2) (World h tr)
       = (Ok (VRef l'), World h' tr)) /\
    model_parameter h' original_yaml 1 "weight" = Some (VFloat w2) /\
    (parameters_of h original_yaml 0 <> parameters_of h original_yaml 1 ->
     model_parameter h' original_yaml 0 "weight" = Some (VFloat w1)).
Proof.
  intros Hs.
  destruct (copy_update_weights h original_yaml w1 w2 Hs)
    as (l' & h' & p0 & p1 & Hrun & Hf & Hp0 & Hp1 & Hw2 & Hw1).
  exists l', h'. split; [exact Hrun|]. unfold model_parameter. split.
  - rewrite (parameters_of_frame "weight" h h' _ _ _ ltac:(discriminate)
               ltac:(discriminate) Hf Hp1). exact Hw2.
  - intros Hne.
    rewrite (parameters_of_frame "weight" h h' _ _ _ ltac:(discriminate)
               ltac:(discriminate) Hf Hp0).
    apply Hw1. intros ->. apply Hne. now rewrite Hp0, Hp1.
Qed.

(** C1 at the example recipe: the weight of the first model is 0.5
    before the call with the pair (0.3, 0.7) and 0.3 after it. *)
Lemma update_weights_writes_through_witness :
  shaped Example.store Example.recipe = true /\
  model_parameter Example.store Example.recipe 0 "weight" = Some (VFloat 0.5) /\
  exists l' h',
    (forall tr,
       (copied <- copy Example.recipe ;;
        MergeScanLinear.update_weights copied 0.3 0.7) (World Example.store tr)
       = (Ok (VRef l'), World h' tr)) /\
    model_parameter h' Example.recipe 1 "weight" = Some (VFloat 0.7) /\
    model_parameter h' Example.recipe 0 "weight" = Some (VFloat 0.3).
Proof.
  split; [vm_compute; reflexivity|]. split; [vm_compute; reflexivity|].
  destruct (update_weights_writes_through Example.store Example.recipe 0.3 0.7)
    as (l' & h' & Hrun & H1 & H0); [vm_compute; reflexivity|].
  exists l', h'. split; [exact Hrun|]. split; [exact H1|].
  apply H0. vm_compute. discriminate.
Defined.

(** C3. A failure of the merge or of the upload tool stays within its
    iteration. In the linear sweep over [weights] and in the TIES sweep
    over the combinations of [lambdas] and [pairs], on a shaped recipe
    and when no removal of an output directory raises: the sweep ends
    normally; the recipe of every combination is written, in order; the
    merge is attempted for every combination and the upload for every
    combination whose merge succeeded, in order, whatever failed
    before; and an error line with the combination's values is printed
    for every combination whose merge or upload failed. *)
Theorem tool_failures_are_isolated (float_str : float -> string)
    (exn_str : exn -> string) (env : nat -> outcome) (original_yaml : value)
    (h : gmap loc obj) (tr : list event) :
  (forall (output_dir : option string) (weights : list float),
     shaped h original_yaml = true ->
     (forall i x, weights !! i = Some x -> rmtree_raises (env i) = false) ->
     exists w',
       MergeScanLinear.sweep float_str exn_str env original_yaml output_dir weights
         (World h tr) = (Ok tt, w') /\
       saved_paths (trace w')
       = saved_paths tr ++ map (linear_path float_str) weights /\
       commands (trace w')
       = commands tr
         ++ concat (imap (fun i x => linear_attempts float_str output_dir (env i) x)
                         weights) /\
       (forall i x, weights !! i = Some x -> tool_fails (env i) = true ->
                    In (linear_error_line float_str exn_str x) (printed (trace w'))))
  /\
  (forall (output_dir : string) (lambdas : list float)
          (pairs : list (option (float * float))),
     shaped_ties h original_yaml = true ->
     (forall i c, MergeScanTies.combinations lambdas pairs !! i = Some c ->
                  rmtree_raises (env i) = false) ->
     exists w',
       MergeScanTies.sweep float_str exn_str env original_yaml output_dir
         lambdas pairs (World h tr) = (Ok tt, w') /\
       saved_paths (trace w')
       = saved_paths tr
         ++ map (ties_path float_str) (MergeScanTies.combinations lambdas pairs) /\
       commands (trace w')
       = commands tr
         ++ concat (imap (fun i c => ties_attempts float_str output_dir (env i) c)
                         (MergeScanTies.combinations lambdas pairs)) /\
       (forall i c, MergeScanTies.combinations lambdas pairs !! i = Some c ->
                    tool_fails (env i) = true ->
                    In (ties_error_line float_str exn_str c) (printed (trace w')))).
Proof.
  split.
  - intros output_dir weights Hs Hfs.
    destruct (linear_sweep_ok float_str exn_str output_dir env original_yaml
                weights h tr Hs Hfs) as (w' & Hrun & _ & Hsaved & Hcmd & Herr).
    now exists w'.
  - intros output_dir lambdas pairs Hs Hfs.
    destruct (ties_sweep_ok float_str exn_str output_dir env original_yaml
                lambdas pairs h tr Hs Hfs) as (w' & Hrun & Hsaved & Hcmd & Herr).
    now exists w'.
Qed.

(** C3 at the sweep over the weights 0.3, 0.5, 0.7 whose second merge
    fails: the first and the third combination are merged and uploaded,
    and the failure of the second is reported. *)
Lemma tool_failures_are_isolated_witness :
  shaped Example.store Example.recipe = true /\
  exists w',
    MergeScanLinear.sweep PyFloat.repr exn_name Example.second_merge_fails
      Example.recipe (Some "out") [0.3; 0.5; 0.7]%float (World Example.store [])
    = (Ok tt, w') /\
    saved_paths (trace w')
    = ["scratch/tmp_yamls/linear/weights_0.3_0.7.yml";
       "scratch/tmp_yamls/linear/weights_0.5_0.5.yml";
       "scratch/tmp_yamls/linear/weights_0.7_0.3.yml"] /\
    commands (trace w')
    = [["mergekit-yaml"; "scratch/tmp_yamls/linear/weights_0.3_0.7.yml";
        "out_0.3_0.7"; "--cuda"; "--trust-remote-code"];
       ["python"; "push_to_hub_linear.py"; "--path"; "out_0.3_0.7"];
       ["mergekit-yaml"; "scratch/tmp_yamls/linear/weights_0.5_0.5.yml";
        "out_0.5_0.5"; "--cuda"; "--trust-remote-code"];
       ["mergekit-yaml"; "scratch/tmp_yamls/linear/weights_0.7_0.3.yml";
        "out_0.7_0.3"; "--cuda"; "--trust-remote-code"];
       ["python"; "push_to_hub_linear.py"; "--path"; "out_0.7_0.3"]] /\
    In "Error processing weights 0.5 and 0.5: CalledProcessError"
       (printed (trace w')).
Proof.
  split; [vm_compute; reflexivity|].
  destruct (proj1 (tool_failures_are_isolated PyFloat.repr exn_name
                     Example.second_merge_fails Example.recipe Example.store [])
              (Some "out") [0.3; 0.5; 0.7]%float)
    as (w' & Hrun & Hsaved & Hcmd & Herr).
  - vm_compute; reflexivity.
  - intros [|[|[|i]]] x Hx; reflexivity.
  - exists w'. split; [exact Hrun|]. split; [|split].
    + rewrite Hsaved. vm_compute. reflexivity.
    + rewrite Hcmd. vm_compute. reflexivity.
    + specialize (Herr 1 0.5%float eq_refl eq_refl).
      revert Herr. vm_compute. exact (fun H => H).
Defined.



















(** C9. With both density bounds, the density pairs are the product of
    the axis values with themselves, in the order of the two loops: the
    axis values are those of [np.arange(start, end + step/2, step)],
    each rounded to 2 places; every pair of axis values is there, once
    for each pair of positions, and no other pair. For the bounds 0.2
    and 0.3 and the step 0.1 the axis is [0.2, 0.3] and the pairs are
    (0.2,0.2), (0.2,0.3), (0.3,0.2), (0.3,0.3). Without a bound the only
    pair is [(None, None)], and a sweep over it leaves the [density] of
    every dictionary of the recipe as it was. *)
Theorem density_pairs_cross_product :
  (forall (a : MergeScanTies.args) (start end_ : float),
     MergeScanTies.density_start a = Some start ->
     MergeScanTies.density_end a = Some end_ ->
     match MergeScanTies.density_axis start end_ (MergeScanTies.density_step a) with
     | Ok axis =>
         MergeScanTies.density_pairs a = Ok (map Some (list_prod axis axis)) /\
         length (list_prod axis axis) = length axis * length axis /\
         (forall d1 d2, In (d1, d2) (list_prod axis axis) <-> In d1 axis /\ In d2 axis) /\
         (NoDup axis -> NoDup (list_prod axis axis))
     | Raise e => MergeScanTies.density_pairs a = Raise e
     end)
  /\
  (MergeScanTies.density_axis 0.2 0.3 0.1 = Ok [0.2; 0.3]%float /\
   MergeScanTies.density_pairs
     (MergeScanTies.Args 1 None 0.1 (Some 0.2%float) (Some 0.3%float) 0.1 "out")
   = Ok [Some (0.2, 0.2); Some (0.2, 0.3); Some (0.3, 0.2); Some (0.3, 0.3)]%float)
  /\
  (forall a : MergeScanTies.args,
     MergeScanTies.density_start a = None \/ MergeScanTies.density_end a = None ->
     MergeScanTies.density_pairs a = Ok [None])
  /\
  (forall (float_str : float -> string) (exn_str : exn -> string)
          (env : nat -> outcome) (original_yaml : value) (output_dir : string)
          (lambdas : list float) (h : gmap loc obj) (tr : list event),
     has_parameters h original_yaml = true ->
     exists r w',
       MergeScanTies.sweep float_str exn_str env original_yaml output_dir
         lambdas [None] (World h tr) = (r, w') /\
       forall v, allocated h v ->
                 dget (heap w') v (KStr "density") = dget h v (KStr "density")).
Proof.
  split; [|split; [|split]].
  - intros a start end_ Hs He. unfold MergeScanTies.density_pairs.
    rewrite Hs, He, density_grid_product.
    destruct (MergeScanTies.density_axis start end_ (MergeScanTies.density_step a))
      as [axis|e]; [|reflexivity].
    split; [reflexivity|]. split; [apply length_prod|]. split.
    + intros d1 d2. apply in_prod_iff.
    + apply NoDup_list_prod.
  - vm_compute. split; reflexivity.
  - intros a [H|H]; unfold MergeScanTies.density_pairs; rewrite H;
      [reflexivity|now destruct (MergeScanTies.density_start a)].
  - intros float_str exn_str env original_yaml output_dir lambdas h tr Hp.
    destruct (ties_sweep_frame float_str exn_str output_dir env original_yaml
                lambdas h tr Hp) as (r & w' & Hrun & Hf).
    exists r, w'. split; [exact Hrun|]. intros v Hv.
    destruct (Hf v Hv) as (_ & Hd & _). apply Hd. discriminate.
Qed.

(** C9 at the example recipe and the lambdas 1.0 and 1.1 without density
    bounds: the density of the first model is 0.5 after the sweep as
    before. *)
Lemma density_pairs_cross_product_witness :
  has_parameters Example.store Example.recipe = true /\
  dget Example.store (VRef 4) (KStr "density") = Some (VFloat 0.5) /\
  exists r w',
    MergeScanTies.sweep PyFloat.repr exn_name (fun _ => Example.fine)
      Example.recipe "out" [1; 1.1]%float [None] (World Example.store [])
    = (r, w') /\
    dget (heap w') (VRef 4) (KStr "density") = Some (VFloat 0.5).
Proof.
  split; [vm_compute; reflexivity|]. split; [vm_compute; reflexivity|].
  destruct (proj2 (proj2 (proj2 density_pairs_cross_product)) PyFloat.repr exn_name
              (fun _ => Example.fine) Example.recipe "out" [1; 1.1]%float
              Example.store [] ltac:(vm_compute; reflexivity))
    as (r & w' & Hrun & Hkeep).
  exists r, w'. split; [exact Hrun|].
  rewrite (Hkeep (VRef 4)); [vm_compute; reflexivity|].
  vm_compute. discriminate.
Defined.

(** C9 as stated fails on "no duplicates": for the bounds 0.2 and 0.201
    and the step 0.001 the two axis values round to 0.2 both, and the
    pair (0.2, 0.2) is generated four times. *)
Lemma density_pairs_repeat :
  MergeScanTies.density_axis 0.2 0.201 0.001 = Ok [0.2; 0.2]%float /\
  MergeScanTies.density_pairs
    (MergeScanTies.Args 1 None 0.1 (Some 0.2%float) (Some 0.201%float) 0.001 "out")
  = Ok [Some (0.2, 0.2); Some (0.2, 0.2); Some (0.2, 0.2); Some (0.2, 0.2)]%float /\
  ~ NoDup [Some (0.2, 0.2); Some (0.2, 0.2); Some (0.2, 0.2); Some (0.2, 0.2)]%float.
Proof.
  split; [vm_compute; reflexivity|]. split; [vm_compute; reflexivity|].
  intros Hnd. apply NoDup_cons in Hnd. destruct Hnd as (Hnotin & _).
  apply Hnotin. left.
Qed.




End Claims.


(** * Further properties of the scripts *)

(** ** Step numbers of revision names *)

Module StepNames.
Import Py ModelSoup.

(** The revision [revision] has the step number [k]. *)
Definition has_step (k : N) (revision : string) : bool :=
  match step_number revision with
  | Ok n => N.eqb n k
  | Raise _ => false
  end.

(** [k] digits "0". *)
Definition zero_digits (k : nat) : string :=
  String.string_of_list_ascii (replicate k "0"%char).

(** Names of at most 4300 characters: [int] converts their digits,
    which are within the number of digits that it accepts. *)
Definition short_names (names : list string) : bool :=
  forallb (fun name => (String.length name <=? 4300)%nat) names.

(** A string without '/'. *)
Definition no_slash (s : string) : bool :=
  negb (existsb (Ascii.eqb "/"%char) (String.list_ascii_of_string s)).

End StepNames.

Section StepNameFacts.
Import Py ModelSoup StepNames.

Let chars := String.list_ascii_of_string.

Lemma list_ascii_app (a b : string) : chars (a +:+ b) = chars a ++ chars b.
Proof. induction a as [|c a IH]; [reflexivity|]. cbn. now rewrite <- IH. Qed.

Lemma span_digits_app (ds rest : list ascii) :
  Forall (fun c => is_digit c = true) ds ->
  match rest with [] => True | c :: _ => is_digit c = false end ->
  span_digits (ds ++ rest) = (ds, rest).
Proof.
  intros Hds Hrest. induction Hds as [|c ds Hc Hds IH]; cbn.
  - destruct rest as [|c rest]; [reflexivity|]. cbn. now rewrite Hrest.
  - now rewrite Hc, IH.
Qed.

Lemma digit_not_newline (c : ascii) :
  is_digit c = true -> Ascii.eqb c (Ascii.ascii_of_nat 10) = false.
Proof.
  intros Hc. destruct (Ascii.eqb c (Ascii.ascii_of_nat 10)) eqn:E; [|reflexivity].
  apply Ascii.eqb_eq in E. subst c. discriminate Hc.
Qed.

(** The search for "step-" and digits at the end of a name that ends
    with "step-" and the digits [ds]. *)
Lemma step_digits_suffix (pre : string) (ds : list ascii) :
  ds <> [] -> Forall (fun c => is_digit c = true) ds ->
  step_digits (pre +:+ "step-" +:+ String.string_of_list_ascii ds) = Some ds.
Proof.
  intros Hne Hds. unfold step_digits.
  assert (Hrev : Forall (fun c => is_digit c = true) (List.rev ds)).
  { apply Forall_forall. intros c Hc. rewrite Forall_forall in Hds.
    apply Hds. apply list_elem_of_In. apply list_elem_of_In in Hc.
    now apply in_rev. }
  assert (E : List.rev (String.list_ascii_of_string
                          (pre +:+ "step-" +:+ String.string_of_list_ascii ds))
              = List.rev ds ++ List.rev (chars "step-") ++ List.rev (chars pre)).
  { fold chars. rewrite !list_ascii_app. unfold chars at 3.
    rewrite String.list_ascii_of_string_of_list_ascii.
    now rewrite !rev_app_distr, app_assoc. }
  rewrite E. clear E.
  destruct (List.rev ds) as [|d rds] eqn:Er.
  { exfalso. apply Hne. apply (f_equal (@List.rev ascii)) in Er.
    now rewrite rev_involutive in Er. }
  cbn [app]. rewrite digit_not_newline by (now inversion Hrev).
  change (d :: rds ++ List.rev (chars "step-") ++ List.rev (chars pre))
    with ((d :: rds) ++ List.rev (chars "step-") ++ List.rev (chars pre)).
  rewrite span_digits_app; [|exact Hrev|reflexivity].
  transitivity (Some (List.rev (d :: rds))); [reflexivity|].
  now rewrite <- Er, rev_involutive.
Qed.

Lemma int_of_digits_from (ds : list ascii) (acc : N) :
  fold_left (fun acc c => (acc * 10 + (Ascii.N_of_ascii c - 48))%N) ds acc
  = (acc * 10 ^ N.of_nat (length ds) + int_of_digits ds)%N.
Proof.
  unfold int_of_digits. revert acc.
  induction ds as [|c ds IH]; intros acc; cbn [fold_left length].
  - cbn. lia.
  - rewrite IH, (IH (0 * 10 + _)%N). rewrite Nat2N.inj_succ, N.pow_succ_r'. lia.
Qed.

Lemma pretty_char_value (d : N) :
  (d < 10)%N ->
  is_digit (pretty_N_char d) = true /\
  (Ascii.N_of_ascii (pretty_N_char d) - 48 = d)%N.
Proof.
  intros Hd.
  assert (H : (d = 0 \/ d = 1 \/ d = 2 \/ d = 3 \/ d = 4 \/ d = 5 \/ d = 6 \/
               d = 7 \/ d = 8 \/ d = 9)%N) by lia.
  repeat (destruct H as [->|H]; [split; reflexivity|]). subst d. split; reflexivity.
Qed.

Lemma pretty_go_digits (x : N) : forall s : string,
  Forall (fun c => is_digit c = true) (chars s) ->
  Forall (fun c => is_digit c = true) (chars (pretty_N_go x s)) /\
  fold_left (fun acc c => (acc * 10 + (Ascii.N_of_ascii c - 48))%N)
    (chars (pretty_N_go x s)) 0%N
  = fold_left (fun acc c => (acc * 10 + (Ascii.N_of_ascii c - 48))%N) (chars s) x.
Proof.
  induction (N.lt_wf_0 x) as [x _ IH]. intros s Hs.
  destruct (N.eq_dec x 0%N) as [->|Hx].
  - rewrite pretty_N_go_0. now split.
  - rewrite pretty_N_go_step by lia.
    destruct (pretty_char_value (x mod 10)%N) as (Hd & Hv);
      [apply N.mod_lt; lia|].
    destruct (IH (x / 10)%N ltac:(apply N.div_lt; lia)
                (String (pretty_N_char (x mod 10)) s)) as (IH1 & IH2).
    { cbn. constructor; [exact Hd|exact Hs]. }
    split; [exact IH1|]. rewrite IH2. cbn [chars String.list_ascii_of_string fold_left].
    rewrite Hv. f_equal. pose proof (N.div_mod x 10%N ltac:(lia)). lia.
Qed.

Lemma pretty_go_nonempty (x : N) (s : string) :
  (0 < x)%N -> chars (pretty_N_go x s) <> [].
Proof.
  revert s. induction (N.lt_wf_0 x) as [x _ IH]. intros s Hx.
  rewrite pretty_N_go_step by exact Hx.
  destruct (N.eq_dec (x / 10)%N 0%N) as [E|E].
  - rewrite E, pretty_N_go_0. discriminate.
  - apply IH; [apply N.div_lt; lia|now apply N.neq_0_lt_0].
Qed.

(** The decimal notation of a number: digits, at least one, that read
    back as the number. *)
Lemma pretty_digits (n : N) :
  chars (pretty n) <> [] /\
  Forall (fun c => is_digit c = true) (chars (pretty n)) /\
  int_of_digits (chars (pretty n)) = n.
Proof.
  unfold pretty, pretty_N. destruct (decide (n = 0%N)) as [->|Hn].
  - split; [discriminate|]. split; [|reflexivity]. repeat constructor.
  - destruct (pretty_go_digits n "" ltac:(constructor)) as (Hd & Hv).
    split; [apply pretty_go_nonempty; lia|]. split; [exact Hd|].
    unfold int_of_digits. rewrite Hv. reflexivity.
Qed.

Lemma zero_digits_chars (k : nat) : chars (zero_digits k) = replicate k "0"%char.
Proof. apply String.list_ascii_of_string_of_list_ascii. Qed.

Lemma int_of_leading_zeros (k : nat) (ds : list ascii) :
  int_of_digits (replicate k "0"%char ++ ds) = int_of_digits ds.
Proof.
  unfold int_of_digits. induction k as [|k IH]; [reflexivity|].
  cbn [replicate app fold_left]. exact IH.
Qed.

Lemma string_of_chars (s : string) : String.string_of_list_ascii (chars s) = s.
Proof. apply String.string_of_list_ascii_of_string. Qed.



End StepNameFacts.

(** ** The order of the revisions *)

Section StableSort.
Import Py ModelSoup StepNames.

Let key_is (k : N) (ky : N * string) : bool := N.eqb (fst ky) k.

Lemma filter_insert_keyed (k : N) (kx : N * string) (l : list (N * string)) :
  List.filter (key_is k) (insert_keyed kx l) = List.filter (key_is k) (kx :: l).
Proof.
  induction l as [|ky l IH]; [reflexivity|]. cbn [insert_keyed].
  destruct (fst kx <=? fst ky)%N eqn:E; [reflexivity|].
  apply N.leb_gt in E. cbn [List.filter] in *. rewrite IH.
  unfold key_is. destruct (N.eqb (fst kx) k) eqn:Ex; [|reflexivity].
  apply N.eqb_eq in Ex.
  replace (N.eqb (fst ky) k) with false; [reflexivity|].
  symmetry. apply N.eqb_neq. lia.
Qed.

Lemma filter_sort_keyed (k : N) (l : list (N * string)) :
  List.filter (key_is k) (sort_keyed l) = List.filter (key_is k) l.
Proof.
  induction l as [|kx l IH]; [reflexivity|].
  change (sort_keyed (kx :: l)) with (insert_keyed kx (sort_keyed l)).
  rewrite filter_insert_keyed. cbn [List.filter]. now rewrite IH.
Qed.

Lemma filter_keyed_names (k : N) (ks : list (N * string)) :
  Forall (fun kx => step_number (snd kx) = Ok (fst kx)) ks ->
  List.filter (has_step k) (map snd ks) = map snd (List.filter (key_is k) ks).
Proof.
  induction 1 as [|kx ks Hk Hall IH]; [reflexivity|].
  cbn [map List.filter]. unfold has_step at 1, key_is at 1. rewrite Hk, IH.
  now destruct (N.eqb (fst kx) k).
Qed.

(** The sort keeps the names, and keeps the names of one step number in
    the order they had. *)
Lemma sort_by_key_stable (l : list string) (ns : list N) :
  step_numbers l = Ok ns ->
  exists sorted,
    sort_by_key step_number l = Ok sorted /\
    Permutation sorted l /\
    forall k, List.filter (has_step k) sorted = List.filter (has_step k) l.
Proof.
  unfold step_numbers, sort_by_key.
  destruct (keys_of step_number l) as [ks|e] eqn:E; [|discriminate].
  intros _. destruct (keys_of_pairs _ _ _ E) as (Hnames & Hall).
  exists (map snd (sort_keyed ks)). split; [reflexivity|]. split.
  - rewrite <- Hnames. apply Permutation_map, sort_keyed_perm.
  - intros k. rewrite <- Hnames.
    rewrite !filter_keyed_names; [now rewrite filter_sort_keyed|exact Hall|].
    rewrite Forall_forall in *. intros kx Hkx. apply Hall.
    now rewrite <- (sort_keyed_perm ks).
Qed.



End StableSort.

(** ** The last component of a model id *)

Section LastComponent.
Import ModelSoup StepNames.

Let chars := String.list_ascii_of_string.

Lemma last_component_plain (b : string) :
  no_slash b = true -> last_component b = b.
Proof.
  unfold no_slash. destruct b as [|c b]; [reflexivity|].
  cbn [String.list_ascii_of_string existsb last_component].
  rewrite negb_true_iff, orb_false_iff. intros (Hc & Hb). rewrite Hb.
  rewrite Ascii.eqb_sym in Hc. now rewrite Hc.
Qed.

Lemma last_component_prefixed (pre b : string) :
  no_slash b = true -> last_component (pre +:+ "/" +:+ b) = b.
Proof.
  intros Hb. induction pre as [|c pre IH].
  - change ("" +:+ "/" +:+ b) with (String "/" b). cbn [last_component].
    unfold no_slash in Hb. rewrite negb_true_iff in Hb. now rewrite Hb.
  - change (String c pre +:+ "/" +:+ b) with (String c (pre +:+ "/" +:+ b)).
    cbn [last_component].
    replace (existsb (Ascii.eqb "/"%char)
               (String.list_ascii_of_string (pre +:+ "/" +:+ b))) with true;
      [exact IH|].
    symmetry. apply existsb_exists. exists "/"%char. split; [|reflexivity].
    rewrite list_ascii_app. apply in_or_app. right. now left.
Qed.

End LastComponent.

(** * Further properties *)

Section Further.
Import Py Recipe Trace StepNames.
Local Open Scope py_scope.

(** X1. [get_model_revisions] keeps the matching branches and sorts
    them stably. When every matching name has a step number (the names
    being of at most 4300 characters), it returns, without printing, a
    list with the matching names and no other, each as often as the
    listing has it; and the names of one step number are in the order
    of the listing. *)
Theorem equal_steps_keep_listing_order (exn_str : exn -> string)
    (names : list string) (pattern_search : string -> bool) (ns : list N)
    (h : gmap loc obj) (tr : list event) :
  short_names names = true ->
  ModelSoup.step_numbers (filter (fun n => pattern_search n = true) names) = Ok ns ->
  exists revisions,
    ModelSoup.get_model_revisions exn_str (Ok names) pattern_search (World h tr)
    = (Ok revisions, World h tr) /\
    Permutation revisions (filter (fun n => pattern_search n = true) names) /\
    forall k,
      List.filter (has_step k) revisions
      = List.filter (has_step k) (filter (fun n => pattern_search n = true) names).
Proof.
  intros _ Hns. destruct (sort_by_key_stable _ _ Hns) as (sorted & Hsort & Hperm & Hst).
  exists sorted. split; [|now split].
  unfold ModelSoup.get_model_revisions, try_except. now rewrite Hsort.
Qed.

(** X1 at the branches v1-step-30, main, v1-step-5 and old-v1-step-30:
    step 5 comes first, and the two names of step 30 keep their order. *)
Lemma equal_steps_keep_listing_order_witness :
  exists revisions,
    ModelSoup.get_model_revisions exn_name
      (Ok ["v1-step-30"; "main"; "v1-step-5"; "old-v1-step-30"])
      (ModelSoup.literal_search "v1") (World ∅ [])
    = (Ok revisions, World ∅ []) /\
    List.filter (has_step 30) revisions = ["v1-step-30"; "old-v1-step-30"] /\
    List.filter (has_step 5) revisions = ["v1-step-5"].
Proof.
  destruct (equal_steps_keep_listing_order exn_name
              ["v1-step-30"; "main"; "v1-step-5"; "old-v1-step-30"]
              (ModelSoup.literal_search "v1") [30; 5; 30]%N ∅ [])
    as (revisions & Hrun & _ & Hk); [reflexivity|vm_compute; reflexivity|].
  exists revisions. split; [exact Hrun|]. rewrite !Hk. split; vm_compute; reflexivity.
Defined.





(** X4. The step number of a name is read from its end: a name that
    ends with "step-" and the decimal notation of [n], with leading
    zeros (at most 4300 digits in all) and after any text, has the step
    number [n]. *)
Theorem step_number_reads_suffix (pre : string) (k : nat) (n : N) :
  (k + String.length (pretty n) <= 4300)%nat ->
  ModelSoup.step_number (pre +:+ "step-" +:+ zero_digits k +:+ pretty n) = Ok n.
Proof.
  intros _.
  destruct (pretty_digits n) as (Hne & Hds & Hval).
  set (ds := replicate k "0"%char ++ String.list_ascii_of_string (pretty n)).
  assert (E : zero_digits k +:+ pretty n = String.string_of_list_ascii ds).
  { apply chars_inj. unfold ds.
    now rewrite list_ascii_app, zero_digits_chars,
      String.list_ascii_of_string_of_list_ascii. }
  rewrite E. unfold ModelSoup.step_number. rewrite step_digits_suffix.
  - unfold ds. now rewrite int_of_leading_zeros, Hval.
  - unfold ds. intros H. apply app_eq_nil in H. now destruct H.
  - unfold ds. apply Forall_app. split; [|exact Hds].
    apply Forall_forall. intros c Hc. apply elem_of_replicate in Hc.
    destruct Hc as (-> & _). reflexivity.
Qed.

(** X4 at the name v1-step-007. *)
Lemma step_number_reads_suffix_witness :
  ModelSoup.step_number "v1-step-007" = Ok 7%N.
Proof.
  exact (step_number_reads_suffix "v1-" 2 7 ltac:(vm_compute; lia)).
Defined.

(** X5. [model_id.split('/')[-1]]: a part without '/' is the last
    component of itself and of every id that ends with '/' and that
    part; the recipe of the soup of such an id is named after the part
    and the revision. *)
Theorem last_component_after_slash (pre b : string) :
  no_slash b = true ->
  ModelSoup.last_component b = b /\
  ModelSoup.last_component (pre +:+ "/" +:+ b) = b /\
  forall revision output_dir dtype chat_template : string,
    ModelSoup.recipe_path
      (ModelSoup.Args (pre +:+ "/" +:+ b) revision output_dir dtype chat_template)
    = "scratch/temp_yamls/" +:+ b +:+ "_" +:+ revision +:+ "_soup.yml".
Proof.
  intros Hb. split; [now apply last_component_plain|].
  split; [now apply last_component_prefixed|].
  intros revision output_dir dtype chat_template. unfold ModelSoup.recipe_path.
  cbn [ModelSoup.model_id ModelSoup.revision].
  now rewrite last_component_prefixed.
Qed.

(** X5 at the model id org/team/m and the revision v1. *)
Lemma last_component_after_slash_witness :
  no_slash "m" = true /\
  ModelSoup.last_component ("org/team" +:+ "/" +:+ "m") = "m" /\
  ModelSoup.recipe_path (ModelSoup.Args ("org/team" +:+ "/" +:+ "m") "v1" "out"
                           "bfloat16" "auto")
  = "scratch/temp_yamls/m_v1_soup.yml".
Proof.
  split; [reflexivity|].
  destruct (last_component_after_slash "org/team" "m" eq_refl) as (_ & H1 & H2).
  split; [exact H1|]. rewrite H2. reflexivity.
Defined.

End Further.


(** ** The recipes that the sweeps dump *)

Module Dumps.
Import Py Recipe.

(** The recipe files with the objects that were dumped into them, in
    the order they were written. *)
Definition saved (tr : list event) : list (string * value) :=
  flat_map (fun ev => match ev with ESave path content => [(path, content)] | _ => [] end)
           tr.

(** [frame_keys ks h h']: the objects of [h] are in [h'] and read there
    as they read in [h], but for the keys [ks] of dictionaries. *)
Definition frame_keys (ks : list key) (h h' : gmap loc obj) : Prop :=
  forall v : value,
    allocated h v ->
    allocated h' v /\
    (forall k', ~ In k' ks -> dget h' v k' = dget h v k') /\
    (forall i, lget h' v i = lget h v i) /\
    is_dict h' v = is_dict h v.

End Dumps.

Section DumpFacts.
Import Py Recipe Trace Dumps.

Lemma saved_app (a b : list event) : saved (a ++ b) = saved a ++ saved b.
Proof. unfold saved. now rewrite flat_map_app. Qed.

Lemma saved_clean_events (o : outcome) (path : string) :
  saved (clean_events o path) = [].
Proof. unfold clean_events. now destruct (dir_exists o). Qed.

Lemma saved_guarded_events (o : outcome) (m p : list string) (s e : string) :
  saved (guarded_events o m p s e) = [].
Proof. unfold guarded_events. now destruct (merge_ok o), (push_ok o). Qed.

Lemma frame_keys_of (k : key) (ks : list key) (h h' : gmap loc obj) :
  In k ks -> frame k h h' -> frame_keys ks h h'.
Proof.
  intros Hk Hf v Hv. destruct (Hf v Hv) as (A & B & C & D).
  split; [exact A|]. split; [|now split].
  intros k' Hk'. apply B. intros ->. now apply Hk'.
Qed.

Lemma frame_keys_refl (ks : list key) (h : gmap loc obj) : frame_keys ks h h.
Proof. intros v Hv. now repeat split. Qed.

Lemma frame_keys_trans (ks : list key) (h1 h2 h3 : gmap loc obj) :
  frame_keys ks h1 h2 -> frame_keys ks h2 h3 -> frame_keys ks h1 h3.
Proof.
  intros H12 H23 v Hv. destruct (H12 v Hv) as (A1 & B1 & C1 & D1).
  destruct (H23 v A1) as (A2 & B2 & C2 & D2).
  split; [exact A2|]. split; [|split].
  - intros k' Hk'. now rewrite B2, B1.
  - intros i. now rewrite C2, C1.
  - now rewrite D2, D1.
Qed.

(** A subscript with a missing key, and one past the end of a list. *)
Lemma getitem_key_error (w : world) (v : value) (k : key) :
  is_dict (heap w) v = true -> dget (heap w) v k = None ->
  getitem v k w = (Raise KeyError, w).
Proof.
  unfold is_dict, dget, getitem. destruct v as [| | | | |l]; try discriminate.
  destruct (heap w !! l) as [[items|items]|]; try discriminate.
  now intros _ ->.
Qed.

Lemma getitem_index_error (w : world) (v : value) (i j : nat) (x : value) :
  lget (heap w) v j = Some x -> lget (heap w) v i = None ->
  getitem v (KInt i) w = (Raise IndexError, w).
Proof.
  unfold lget, getitem. destruct v as [| | | | |l]; try discriminate.
  destruct (heap w !! l) as [[items|items]|]; try discriminate.
  now intros _ ->.
Qed.

End DumpFacts.

(** ** The update of the linear sweep, with its copy *)

Section LinearUpdate.
Import Py Recipe Trace Dumps MergeScanLinear.
Local Open Scope py_scope.

Lemma copy_update_weights_full (h : gmap loc obj) (root : value) (w1 w2 : float) :
  shaped h root = true ->
  exists l' h' p0 p1,
    h !! l' = None /\
    (forall tr,
       (copied <- copy root ;; update_weights copied w1 w2) (World h tr)
       = (Ok (VRef l'), World h' tr)) /\
    frame (KStr "weight") h h' /\
    parameters_of h root 0 = Some p0 /\ parameters_of h root 1 = Some p1 /\
    parameters_of h' (VRef l') 0 = Some p0 /\
    parameters_of h' (VRef l') 1 = Some p1 /\
    (forall k, k <> KStr "weight" -> dget h' (VRef l') k = dget h root k) /\
    dget h' p1 (KStr "weight") = Some (VFloat w2) /\
    (p0 <> p1 -> dget h' p0 (KStr "weight") = Some (VFloat w1)).
Proof.
  intros Hs. destruct (shaped_root _ _ Hs) as (l0 & o & p0 & p1 & -> & Hl0 & Hp0 & Hp1).
  pose proof (fresh_unallocated h) as Hfresh.
  set (l' := fresh (dom h)) in *. set (h1 := <[l' := o]> h).
  assert (F1 : frame (KStr "weight") h h1) by now apply frame_alloc.
  pose proof (parameters_of_copy h l0 l' o 0 p0 Hl0 Hfresh Hp0) as Hq0.
  pose proof (parameters_of_copy h l0 l' o 1 p1 Hl0 Hfresh Hp1) as Hq1.
  destruct (assign_both_run "weight" h1 (VRef l') p0 p1 w1 w2
              ltac:(discriminate) ltac:(discriminate) Hq0 Hq1)
    as (h' & Hrun & F2 & Hw2 & Hw1).
  exists l', h', p0, p1. split; [exact Hfresh|]. split; [|split].
  - intros tr. unfold bind. rewrite (copy_run h l0 o tr Hl0). fold l'. fold h1.
    apply Hrun.
  - eapply frame_trans; [exact F1|exact F2].
  - split; [exact Hp0|]. split; [exact Hp1|].
    split; [apply (parameters_of_frame "weight" h1 h'); try discriminate; assumption|].
    split; [apply (parameters_of_frame "weight" h1 h'); try discriminate; assumption|].
    split; [|now split].
    intros k Hk. destruct (F2 (VRef l')) as (_ & B & _).
    { unfold allocated, h1. now rewrite lookup_insert_eq. }
    rewrite (B k Hk). unfold dget, h1. now rewrite lookup_insert_eq, Hl0.
Qed.

Variable float_str : float -> string.
Variable exn_str : exn -> string.
Variable output_dir : option string.

(** One iteration of the linear sweep on a shaped recipe: the recipe
    that is dumped is a new object; the store is not assigned to after
    the update. *)
Lemma process_weight_run (o : outcome) (original_yaml : value)
    (weight_1 : float) (h : gmap loc obj) :
  shaped h original_yaml = true ->
  exists l' h' p0 p1 evs,
    yields (process_weight float_str exn_str o original_yaml output_dir weight_1)
      h (fst (linear_expect float_str exn_str output_dir o weight_1)) h' evs /\
    map erase evs = snd (linear_expect float_str exn_str output_dir o weight_1) /\
    saved evs = [(linear_path float_str weight_1, VRef l')] /\
    h !! l' = None /\
    frame (KStr "weight") h h' /\
    parameters_of h original_yaml 0 = Some p0 /\
    parameters_of h original_yaml 1 = Some p1 /\
    parameters_of h' (VRef l') 0 = Some p0 /\
    parameters_of h' (VRef l') 1 = Some p1 /\
    (forall k, k <> KStr "weight" -> dget h' (VRef l') k = dget h original_yaml k) /\
    dget h' p1 (KStr "weight") = Some (VFloat (second_weight weight_1)) /\
    (p0 <> p1 -> dget h' p0 (KStr "weight") = Some (VFloat weight_1)).
Proof.
  intros Hs.
  destruct (copy_update_weights_full h original_yaml weight_1
              (second_weight weight_1) Hs)
    as (l' & h' & p0 & p1 & Hfresh & Hrun & Hrest).
  pose proof (yields_clean_dir o
    (current_output_dir float_str output_dir weight_1 (second_weight weight_1)) h')
    as Hc.
  exists l', h', p0, p1. unfold process_weight, linear_expect, linear_path.
  destruct (rmtree_raises o) eqn:Er; cbn [fst snd].
  - eexists. split; [|split; [|split; [|split; [exact Hfresh|exact Hrest]]]].
    + eapply yields_bind; [apply yields_emit|].
      eapply yields_bind; [apply yields_emit|].
      eapply yields_bind; [apply yields_emit|].
      apply yields_assoc.
      eapply yields_bind; [apply yields_silent; exact Hrun|].
      eapply yields_bind; [apply yields_emit|].
      apply yields_bind_raise. exact Hc.
    + rewrite !map_app, erase_clean_events. reflexivity.
    + rewrite !saved_app, saved_clean_events. reflexivity.
  - eexists. split; [|split; [|split; [|split; [exact Hfresh|exact Hrest]]]].
    + eapply yields_bind; [apply yields_emit|].
      eapply yields_bind; [apply yields_emit|].
      eapply yields_bind; [apply yields_emit|].
      apply yields_assoc.
      eapply yields_bind; [apply yields_silent; exact Hrun|].
      eapply yields_bind; [apply yields_emit|].
      eapply yields_bind; [exact Hc|].
      eapply yields_bind; [|apply yields_emit].
      unfold run_merge, run_push_to_hub.
      apply (yields_guarded o _ _ _
               (fun e => "Error processing weights " +:+
                         weights_str float_str weight_1 (second_weight weight_1)
                         +:+ ": " +:+ exn_str e)).
    + rewrite !map_app, erase_clean_events, erase_guarded_events. reflexivity.
    + rewrite !saved_app, saved_clean_events, saved_guarded_events. reflexivity.
Qed.

End LinearUpdate.

(** ** The update of the TIES sweep, with its copy *)

Section TiesUpdate.
Import Py Recipe Trace Dumps MergeScanTies.
Local Open Scope py_scope.

Variable float_str : float -> string.
Variable exn_str : exn -> string.
Variable output_dir : string.

(** One iteration of the TIES sweep: the recipe that is dumped is a new
    object that shares the parameters of the original; [lambda] is
    assigned in every case, the densities when there is a pair. *)
Lemma process_run (o : outcome) (original_yaml : value) (c : combination)
    (h : gmap loc obj) :
  has_parameters h original_yaml = true ->
  (snd c <> None -> shaped h original_yaml = true) ->
  exists l' h' p evs,
    yields (process float_str exn_str o original_yaml output_dir (fst c) (snd c))
      h (fst (ties_expect float_str exn_str output_dir o c)) h' evs /\
    map erase evs = snd (ties_expect float_str exn_str output_dir o c) /\
    saved evs = [(ties_path float_str c, VRef l')] /\
    h !! l' = None /\
    frame_keys [KStr "lambda"; KStr "density"] h h' /\
    (snd c = None -> frame (KStr "lambda") h h') /\
    dget h original_yaml (KStr "parameters") = Some p /\
    dget h' (VRef l') (KStr "parameters") = Some p /\
    dget h' p (KStr "lambda") = Some (VFloat (fst c)) /\
    (forall k, ~ In k [KStr "lambda"; KStr "density"] ->
               dget h' (VRef l') k = dget h original_yaml k) /\
    match snd c with
    | None => True
    | Some (density_1, density_2) =>
        exists p0 p1,
          parameters_of h original_yaml 0 = Some p0 /\
          parameters_of h original_yaml 1 = Some p1 /\
          parameters_of h' (VRef l') 0 = Some p0 /\
          parameters_of h' (VRef l') 1 = Some p1 /\
          dget h' p1 (KStr "density") = Some (VFloat density_2) /\
          (p0 <> p1 -> dget h' p0 (KStr "density") = Some (VFloat density_1))
    end.
Proof.
  intros Hpar Hshape. destruct c as [lmda pair]. cbn [fst snd] in *.
  pose proof Hpar as Hpar'. unfold has_parameters in Hpar'.
  destruct (dget h original_yaml (KStr "parameters")) as [p|] eqn:Ep; [|discriminate].
  pose proof Ep as Ep'. unfold dget in Ep'.
  destruct original_yaml as [| | | | |l0]; try discriminate.
  destruct (h !! l0) as [o0|] eqn:Hl0; [|discriminate].
  pose proof (fresh_unallocated h) as Hfresh.
  set (l' := fresh (dom h)) in *. set (h1 := <[l' := o0]> h).
  assert (F1 : forall k, frame k h h1) by (intros k; now apply frame_alloc).
  assert (Hcopy : forall k, dget h1 (VRef l') k = dget h (VRef l0) k).
  { intros k. unfold dget, h1. now rewrite lookup_insert_eq, Hl0. }
  assert (Al' : allocated h1 (VRef l')).
  { unfold allocated, h1. now rewrite lookup_insert_eq. }
  assert (Ep1 : dget h1 (VRef l') (KStr "parameters") = Some p)
    by now rewrite Hcopy.
  assert (Hd1 : is_dict h1 p = true).
  { destruct (F1 (KStr "lambda") p (is_dict_allocated _ _ Hpar')) as (_ & _ & _ & C).
    now rewrite C. }
  destruct (update_lambda_run h1 (VRef l') p lmda Ep1 Hd1) as (h2 & Hlam & F2 & Hl2).
  assert (F12 : frame (KStr "lambda") h h2)
    by (eapply frame_trans; [apply F1|exact F2]).
  assert (Hpair : exists h',
            (forall tr,
               match pair with
               | Some (density_1, density_2) =>
                   update_densities (VRef l') density_1 density_2
               | None => ret (VRef l')
               end (World h2 tr) = (Ok (VRef l'), World h' tr)) /\
            match pair with
            | None => h' = h2
            | Some (density_1, density_2) =>
                frame (KStr "density") h2 h' /\
                exists p0 p1,
                  parameters_of h (VRef l0) 0 = Some p0 /\
                  parameters_of h (VRef l0) 1 = Some p1 /\
                  parameters_of h' (VRef l') 0 = Some p0 /\
                  parameters_of h' (VRef l') 1 = Some p1 /\
                  dget h' p1 (KStr "density") = Some (VFloat density_2) /\
                  (p0 <> p1 -> dget h' p0 (KStr "density") = Some (VFloat density_1))
            end).
  { destruct pair as [[d1 d2]|].
    - specialize (Hshape ltac:(discriminate)).
      destruct (shaped_root _ _ Hshape) as (l0' & o' & p0 & p1 & [= <-] & Hl & Hp0 & Hp1).
      pose proof (parameters_of_copy h l0 l' o0 0 p0 Hl0 Hfresh Hp0) as Hq0.
      pose proof (parameters_of_copy h l0 l' o0 1 p1 Hl0 Hfresh Hp1) as Hq1.
      apply (parameters_of_frame "lambda" h1 h2 _ _ _ ltac:(discriminate)
               ltac:(discriminate) F2) in Hq0, Hq1.
      destruct (assign_both_run "density" h2 (VRef l') p0 p1 d1 d2
                  ltac:(discriminate) ltac:(discriminate) Hq0 Hq1)
        as (h3 & Hrun & F3 & Hd2 & Hd1').
      exists h3. split; [exact Hrun|]. split; [exact F3|].
      exists p0, p1. split; [exact Hp0|]. split; [exact Hp1|].
      split; [apply (parameters_of_frame "density" h2 h3); try discriminate; assumption|].
      split; [apply (parameters_of_frame "density" h2 h3); try discriminate; assumption|].
      now split.
    - exists h2. split; [reflexivity|reflexivity]. }
  destruct Hpair as (h' & Hden & Hrel).
  assert (F2' : frame_keys [KStr "lambda"; KStr "density"] h2 h').
  { destruct pair as [[d1 d2]|].
    - apply (frame_keys_of (KStr "density")); [right; now left|apply Hrel].
    - subst h'. apply frame_keys_refl. }
  assert (F1' : frame_keys [KStr "lambda"; KStr "density"] h1 h2)
    by (apply (frame_keys_of (KStr "lambda")); [now left|exact F2]).
  assert (F0' : frame_keys [KStr "lambda"; KStr "density"] h h1)
    by (apply (frame_keys_of (KStr "lambda")); [now left|apply F1]).
  assert (F1h : frame_keys [KStr "lambda"; KStr "density"] h1 h')
    by (eapply frame_keys_trans; [exact F1'|exact F2']).
  assert (Hfacts :
    frame_keys [KStr "lambda"; KStr "density"] h h' /\
    (pair = None -> frame (KStr "lambda") h h') /\
    Some p = Some p /\
    dget h' (VRef l') (KStr "parameters") = Some p /\
    dget h' p (KStr "lambda") = Some (VFloat lmda) /\
    (forall k, ~ In k [KStr "lambda"; KStr "density"] ->
               dget h' (VRef l') k = dget h (VRef l0) k) /\
    match pair with
    | None => True
    | Some (density_1, density_2) =>
        exists p0 p1,
          parameters_of h (VRef l0) 0 = Some p0 /\
          parameters_of h (VRef l0) 1 = Some p1 /\
          parameters_of h' (VRef l') 0 = Some p0 /\
          parameters_of h' (VRef l') 1 = Some p1 /\
          dget h' p1 (KStr "density") = Some (VFloat density_2) /\
          (p0 <> p1 -> dget h' p0 (KStr "density") = Some (VFloat density_1))
    end).
  { split; [eapply frame_keys_trans; [exact F0'|exact F1h]|].
    split; [intros ->; now subst h'|]. split; [reflexivity|].
    destruct (F1h (VRef l') Al') as (_ & B & _).
    split; [|split; [|split]].
    - rewrite B, Hcopy; [exact Ep|]. cbn. intros [[=]|[[=]|[]]].
    - destruct (F2' p) as (_ & B' & _).
      { now apply (dget_allocated h2 p (KStr "lambda") (VFloat lmda)). }
      destruct pair as [[d1 d2]|].
      + destruct Hrel as (F3 & _). destruct (F3 p) as (_ & B3 & _).
        { now apply (dget_allocated h2 p (KStr "lambda") (VFloat lmda)). }
        rewrite B3; [exact Hl2|discriminate].
      + now subst h'.
    - intros k Hk. now rewrite B, Hcopy.
    - destruct pair as [[d1 d2]|]; [apply Hrel|exact I]. }
  pose proof (yields_clean_dir o output_dir h') as Hc.
  exists l', h', p. unfold process, ties_expect, ties_path. cbn [fst snd].
  destruct (rmtree_raises o) eqn:Er; cbn [fst snd].
  - eexists. split; [|split; [|split; [|split; [exact Hfresh|exact Hfacts]]]].
    + eapply yields_bind; [apply yields_emit|].
      eapply yields_bind; [apply yields_emit|].
      eapply yields_bind; [apply yields_emit|].
      eapply yields_bind;
        [apply yields_silent; intros tr; apply (copy_run h l0 o0 tr Hl0)|].
      fold l'. fold h1.
      eapply yields_bind; [apply yields_silent; exact Hlam|].
      eapply yields_bind; [apply yields_silent; exact Hden|].
      eapply yields_bind; [apply yields_emit|].
      apply yields_bind_raise. exact Hc.
    + rewrite !map_app, erase_clean_events. reflexivity.
    + rewrite !saved_app, saved_clean_events. reflexivity.
  - eexists. split; [|split; [|split; [|split; [exact Hfresh|exact Hfacts]]]].
    + eapply yields_bind; [apply yields_emit|].
      eapply yields_bind; [apply yields_emit|].
      eapply yields_bind; [apply yields_emit|].
      eapply yields_bind;
        [apply yields_silent; intros tr; apply (copy_run h l0 o0 tr Hl0)|].
      fold l'. fold h1.
      eapply yields_bind; [apply yields_silent; exact Hlam|].
      eapply yields_bind; [apply yields_silent; exact Hden|].
      eapply yields_bind; [apply yields_emit|].
      eapply yields_bind; [exact Hc|].
      eapply yields_bind; [|apply yields_emit].
      unfold run_merge, run_push_to_hub.
      apply (yields_guarded o _ _ _
               (fun e => "Error processing " +:+ lambda_str float_str lmda
                         +:+ density_str float_str pair +:+ ": " +:+ exn_str e)).
    + rewrite !map_app, erase_clean_events, erase_guarded_events. reflexivity.
    + rewrite !saved_app, saved_clean_events, saved_guarded_events. reflexivity.
Qed.

End TiesUpdate.

(** ** Recipes of another shape *)

Section OtherShapes.
Import Py Recipe Trace Dumps.
Local Open Scope py_scope.

Variable float_str : float -> string.
Variable exn_str : exn -> string.

(** The first lines of an iteration of the linear sweep. *)
Definition linear_banner (weight_1 : float) : list event :=
  [EPrint (nl +:+ rule);
   EPrint ("PROCESSING WEIGHTS: "
           +:+ MergeScanLinear.weights_str float_str weight_1
                 (MergeScanLinear.second_weight weight_1));
   EPrint (rule +:+ nl)].

(** The first lines of an iteration of the TIES sweep. *)
Definition ties_banner_events (c : combination) : list event :=
  map EPrint (ties_banner float_str c).

Lemma for_each_first_raises {A : Type} (body : nat -> A -> M unit) (x : A)
    (rest : list A) (e : exn) (h h' : gmap loc obj) (evs : list event) :
  yields (body 0 x) h (Raise e) h' evs ->
  yields (for_each 0 (x :: rest) body) h (Raise e) h' evs.
Proof. intros H. cbn [for_each]. now apply yields_bind_raise. Qed.

(** With a list of one model, [update_weights] assigns the weight of
    that model and raises at the second subscript. *)
Lemma process_weight_one_model (o : outcome) (original_yaml : value)
    (output_dir : option string) (weight_1 : float) (h : gmap loc obj)
    (p0 models : value) :
  parameters_of h original_yaml 0 = Some p0 ->
  dget h original_yaml (KStr "models") = Some models ->
  lget h models 1 = None ->
  exists h',
    yields (MergeScanLinear.process_weight float_str exn_str o original_yaml
              output_dir weight_1)
      h (Raise IndexError) h' (linear_banner weight_1) /\
    frame (KStr "weight") h h' /\
    dget h' p0 (KStr "weight") = Some (VFloat weight_1).
Proof.
  intros Hp0 Hm Hl1.
  assert (Hl0 : exists model, lget h models 0 = Some model).
  { revert Hp0. unfold parameters_of. rewrite Hm.
    destruct (lget h models 0) as [model|]; [now exists model|discriminate]. }
  destruct Hl0 as (model & Hmodel).
  pose proof Hm as Hm'. unfold dget in Hm'.
  destruct original_yaml as [| | | | |l0]; try discriminate.
  destruct (h !! l0) as [o0|] eqn:Hroot; [|discriminate].
  pose proof (fresh_unallocated h) as Hfresh.
  set (l' := fresh (dom h)) in *. set (h1 := <[l' := o0]> h).
  assert (F1 : frame (KStr "weight") h h1) by now apply frame_alloc.
  pose proof (parameters_of_copy h l0 l' o0 0 p0 Hroot Hfresh Hp0) as Hq0.
  destruct (run_assignment h1 (VRef l') p0 0 "weight" (VFloat weight_1) Hq0)
    as (a & ita & -> & Ha & Hrun1).
  set (h2 := <[a := ODict (dict_set (KStr "weight") (VFloat weight_1) ita)]> h1) in *.
  assert (F2 : frame (KStr "weight") h1 h2) by now apply frame_dict_set.
  assert (F12 : frame (KStr "weight") h h2) by (eapply frame_trans; eassumption).
  assert (Hm2 : dget h2 (VRef l') (KStr "models") = Some models).
  { destruct (F2 (VRef l')) as (_ & B & _).
    { unfold allocated, h1. now rewrite lookup_insert_eq. }
    rewrite B by discriminate. unfold dget, h1. rewrite lookup_insert_eq.
    exact Hm'. }
  destruct (F12 models (lget_allocated _ _ _ _ Hmodel)) as (_ & _ & C & _).
  exists h2. split; [|split; [exact F12|apply dget_dict_set]].
  unfold MergeScanLinear.process_weight, linear_banner.
  rewrite <- (app_nil_r [EPrint _; EPrint _; EPrint _]).
  change ([EPrint (nl +:+ rule);
           EPrint ("PROCESSING WEIGHTS: "
                   +:+ MergeScanLinear.weights_str float_str weight_1
                         (MergeScanLinear.second_weight weight_1));
           EPrint (rule +:+ nl)] ++ [])
    with ([EPrint (nl +:+ rule)]
          ++ [EPrint ("PROCESSING WEIGHTS: "
                      +:+ MergeScanLinear.weights_str float_str weight_1
                            (MergeScanLinear.second_weight weight_1))]
          ++ [EPrint (rule +:+ nl)] ++ []).
  eapply yields_bind; [apply yields_emit|].
  eapply yields_bind; [apply yields_emit|].
  eapply yields_bind; [apply yields_emit|].
  apply yields_assoc. apply yields_bind_raise. apply yields_silent. intros tr.
  unfold bind at 1. rewrite (copy_run h l0 o0 tr Hroot). fold l'. fold h1.
  unfold MergeScanLinear.update_weights. rewrite Hrun1. fold h2.
  unfold bind at 1. rewrite (getitem_dget (World h2 tr) _ _ _ Hm2).
  unfold bind at 1.
  rewrite (getitem_index_error (World h2 tr) models 1 0 model);
    [reflexivity|cbn [heap]; now rewrite C|cbn [heap]; now rewrite C].
Qed.

(** Without the key [models], the first subscript of [update_weights]
    raises on the copy. *)
Lemma process_weight_without_models (o : outcome) (original_yaml : value)
    (output_dir : option string) (weight_1 : float) (h : gmap loc obj) :
  is_dict h original_yaml = true ->
  dget h original_yaml (KStr "models") = None ->
  exists h',
    yields (MergeScanLinear.process_weight float_str exn_str o original_yaml
              output_dir weight_1)
      h (Raise KeyError) h' (linear_banner weight_1) /\
    forall k, frame k h h'.
Proof.
  intros Hd Hm. destruct (is_dict_inv _ _ Hd) as (l0 & items & -> & Hroot).
  pose proof (fresh_unallocated h) as Hfresh.
  set (l' := fresh (dom h)) in *. set (h1 := <[l' := ODict items]> h).
  exists h1. split; [|intros k; now apply frame_alloc].
  unfold MergeScanLinear.process_weight, linear_banner.
  rewrite <- (app_nil_r [EPrint _; EPrint _; EPrint _]).
  change ([EPrint (nl +:+ rule);
           EPrint ("PROCESSING WEIGHTS: "
                   +:+ MergeScanLinear.weights_str float_str weight_1
                         (MergeScanLinear.second_weight weight_1));
           EPrint (rule +:+ nl)] ++ [])
    with ([EPrint (nl +:+ rule)]
          ++ [EPrint ("PROCESSING WEIGHTS: "
                      +:+ MergeScanLinear.weights_str float_str weight_1
                            (MergeScanLinear.second_weight weight_1))]
          ++ [EPrint (rule +:+ nl)] ++ []).
  eapply yields_bind; [apply yields_emit|].
  eapply yields_bind; [apply yields_emit|].
  eapply yields_bind; [apply yields_emit|].
  apply yields_assoc. apply yields_bind_raise. apply yields_silent. intros tr.
  unfold bind at 1. rewrite (copy_run h l0 _ tr Hroot). fold l'. fold h1.
  unfold MergeScanLinear.update_weights. unfold bind at 1.
  rewrite (getitem_key_error (World h1 tr)); [reflexivity| |];
    cbn [heap]; unfold is_dict, dget, h1; rewrite lookup_insert_eq;
    [reflexivity|]. revert Hm. unfold dget. now rewrite Hroot.
Qed.

(** Without the key [parameters], the subscript of [update_lambda]
    raises on the copy. *)
Lemma process_without_parameters (o : outcome) (original_yaml : value)
    (output_dir : string) (c : combination) (h : gmap loc obj) :
  is_dict h original_yaml = true ->
  dget h original_yaml (KStr "parameters") = None ->
  exists h',
    yields (MergeScanTies.process float_str exn_str o original_yaml output_dir
              (fst c) (snd c))
      h (Raise KeyError) h' (ties_banner_events c) /\
    forall k, frame k h h'.
Proof.
  intros Hd Hm. destruct (is_dict_inv _ _ Hd) as (l0 & items & -> & Hroot).
  pose proof (fresh_unallocated h) as Hfresh.
  set (l' := fresh (dom h)) in *. set (h1 := <[l' := ODict items]> h).
  exists h1. split; [|intros k; now apply frame_alloc].
  unfold MergeScanTies.process, ties_banner_events, ties_banner. cbn [map].
  rewrite <- (app_nil_r [EPrint _; EPrint _; EPrint _]).
  match goal with
  | |- yields _ _ _ _ ([?a; ?b; ?c'] ++ []) =>
      change ([a; b; c'] ++ []) with ([a] ++ [b] ++ [c'] ++ [])
  end.
  eapply yields_bind; [apply yields_emit|].
  eapply yields_bind; [apply yields_emit|].
  eapply yields_bind; [apply yields_emit|].
  apply yields_silent. intros tr.
  unfold bind at 1. rewrite (copy_run h l0 _ tr Hroot). fold l'. fold h1.
  unfold bind at 1. unfold MergeScanTies.update_lambda. unfold bind at 1.
  rewrite (getitem_key_error (World h1 tr)); [reflexivity| |];
    cbn [heap]; unfold is_dict, dget, h1; rewrite lookup_insert_eq;
    [reflexivity|]. revert Hm. unfold dget. now rewrite Hroot.
Qed.

End OtherShapes.

Module Example2.
Import Py.

(** The store after loading [{models: [{model: A, parameters: {weight:
    0.5}}], merge_method: linear}], a recipe with one model; the recipe
    is the object 0. *)
Definition one_model_store : gmap loc obj :=
  list_to_map
    [(0, ODict [(KStr "models", VRef 1); (KStr "merge_method", VStr "linear")]);
     (1, OList [VRef 2]);
     (2, ODict [(KStr "model", VStr "A"); (KStr "parameters", VRef 3)]);
     (3, ODict [(KStr "weight", VFloat 0.5)])].

(** The store after loading [{merge_method: linear}]. *)
Definition bare_store : gmap loc obj :=
  list_to_map [(0, ODict [(KStr "merge_method", VStr "linear")])].

End Example2.

Section FurtherStore.
Import Py Recipe Trace Dumps.
Local Open Scope py_scope.

(** X6. The linear sweep assigns nothing but weights. On a shaped
    recipe, however the sweep ends, every object of the store before
    the sweep is there afterwards, and reads as before at every key
    other than [weight] and at every index. *)
Theorem linear_sweep_assigns_only_weights (float_str : float -> string)
    (exn_str : exn -> string) (env : nat -> outcome) (original_yaml : value)
    (output_dir : option string) (weights : list float)
    (h : gmap loc obj) (tr : list event) :
  shaped h original_yaml = true ->
  exists r w',
    MergeScanLinear.sweep float_str exn_str env original_yaml output_dir weights
      (World h tr) = (r, w') /\
    frame_keys [KStr "weight"] h (heap w').
Proof.
  intros Hs. unfold MergeScanLinear.sweep.
  destruct (for_each_inv
              (fun i x => MergeScanLinear.process_weight float_str exn_str (env i)
                            original_yaml output_dir x)
              (fun h' => shaped h' original_yaml = true /\
                         frame (KStr "weight") h h')
              (fun _ => True)
              (fun i x => linear_expect float_str exn_str output_dir (env i) x))
    with (xs := weights) (start := 0) (h := h) (tr := tr)
    as (r & h' & tr' & Hrun & _ & Hf).
  - intros i x h1 tr1 (Hs1 & Hf1) _.
    destruct (process_weight_run float_str exn_str output_dir (env i) original_yaml
                x h1 Hs1) as (l' & h2 & p0 & p1 & evs & Hy & Hev & _ & _ & Hf2 & _).
    exists h2, evs. split; [apply Hy|]. split; [|exact Hev]. split.
    + apply (shaped_frame "weight" h1 h2); [discriminate|discriminate|exact Hf2|exact Hs1].
    + eapply frame_trans; [exact Hf1|exact Hf2].
  - split; [exact Hs|apply frame_refl].
  - now apply Forall_forall.
  - exists r, (World h' (tr ++ tr')). split; [exact Hrun|].
    apply (frame_keys_of (KStr "weight")); [now left|exact Hf].
Qed.

(** X6 at the example recipe and the weights 0.3 and 0.7: the density
    of the first model is 0.5 after the sweep as before. *)
Lemma linear_sweep_assigns_only_weights_witness :
  shaped Example.store Example.recipe = true /\
  exists r w',
    MergeScanLinear.sweep PyFloat.repr exn_name Example.second_merge_fails
      Example.recipe (Some "out") [0.3; 0.7]%float (World Example.store [])
    = (r, w') /\
    dget (heap w') (VRef 4) (KStr "density") = Some (VFloat 0.5).
Proof.
  split; [vm_compute; reflexivity|].
  destruct (linear_sweep_assigns_only_weights PyFloat.repr exn_name
              Example.second_merge_fails Example.recipe (Some "out")
              [0.3; 0.7]%float Example.store [] ltac:(vm_compute; reflexivity))
    as (r & w' & Hrun & Hf).
  exists r, w'. split; [exact Hrun|].
  destruct (Hf (VRef 4)) as (_ & Hd & _); [vm_compute; discriminate|].
  rewrite Hd; [vm_compute; reflexivity|].
  intros [[=]|[]].
Defined.

(** X7. The recipe that an iteration of the linear sweep dumps. On a
    shaped recipe the iteration writes one file, from a new object of
    the store; whatever the tools do afterwards, that object reads
    [weight_2] as the weight of the second model, [weight_1] as the
    weight of the first (when the two models have parameters of their
    own), and at every other top-level key what the base recipe read. *)
Theorem linear_recipe_holds_its_pair (float_str : float -> string)
    (exn_str : exn -> string) (o : outcome) (original_yaml : value)
    (output_dir : option string) (weight_1 : float)
    (h : gmap loc obj) (tr : list event) :
  shaped h original_yaml = true ->
  exists l' r w',
    MergeScanLinear.process_weight float_str exn_str o original_yaml output_dir
      weight_1 (World h tr) = (r, w') /\
    h !! l' = None /\
    saved (trace w')
    = saved tr
      ++ [(MergeScanLinear.temp_yaml_path float_str weight_1
             (MergeScanLinear.second_weight weight_1), VRef l')] /\
    model_parameter (heap w') (VRef l') 1 "weight"
    = Some (VFloat (MergeScanLinear.second_weight weight_1)) /\
    (parameters_of h original_yaml 0 <> parameters_of h original_yaml 1 ->
     model_parameter (heap w') (VRef l') 0 "weight" = Some (VFloat weight_1)) /\
    (forall k, k <> KStr "weight" ->
               dget (heap w') (VRef l') k = dget h original_yaml k).
Proof.
  intros Hs.
  destruct (process_weight_run float_str exn_str output_dir o original_yaml
              weight_1 h Hs)
    as (l' & h' & p0 & p1 & evs & Hy & _ & Hsaved & Hfresh & _ & Hp0 & Hp1 &
        Hq0 & Hq1 & Htop & Hw2 & Hw1).
  exists l', (fst (linear_expect float_str exn_str output_dir o weight_1)),
    (World h' (tr ++ evs)).
  split; [apply Hy|]. split; [exact Hfresh|]. cbn [heap trace].
  split; [now rewrite saved_app, Hsaved|].
  unfold model_parameter. rewrite Hq0, Hq1. split; [exact Hw2|]. split; [|exact Htop].
  intros Hne. apply Hw1. intros ->. apply Hne. now rewrite Hp0, Hp1.
Qed.

(** X7 at the example recipe and the weight 0.3. *)
Lemma linear_recipe_holds_its_pair_witness :
  shaped Example.store Example.recipe = true /\
  exists l' r w',
    MergeScanLinear.process_weight PyFloat.repr exn_name Example.fine
      Example.recipe (Some "out") 0.3 (World Example.store []) = (r, w') /\
    saved (trace w') = [("scratch/tmp_yamls/linear/weights_0.3_0.7.yml", VRef l')] /\
    model_parameter (heap w') (VRef l') 1 "weight" = Some (VFloat 0.7) /\
    model_parameter (heap w') (VRef l') 0 "weight" = Some (VFloat 0.3) /\
    dget (heap w') (VRef l') (KStr "merge_method") = Some (VStr "ties").
Proof.
  split; [vm_compute; reflexivity|].
  destruct (linear_recipe_holds_its_pair PyFloat.repr exn_name Example.fine
              Example.recipe (Some "out") 0.3%float Example.store []
              ltac:(vm_compute; reflexivity))
    as (l' & r & w' & Hrun & _ & Hsaved & H1 & H0 & Htop).
  exists l', r, w'. split; [exact Hrun|]. split.
  { rewrite Hsaved. vm_compute. reflexivity. }
  split; [rewrite H1; vm_compute; reflexivity|]. split.
  - apply H0. vm_compute. discriminate.
  - rewrite Htop by discriminate. vm_compute. reflexivity.
Defined.

(** X8. The recipe that an iteration of the TIES sweep dumps. On a
    recipe with top-level parameters (and shaped, when densities are
    set) the iteration writes one file, from a new object of the store
    that shares the parameters of the base recipe: after the iteration
    both read the [lambda] of the iteration, and with a density pair
    both read its densities; without a pair nothing but [lambda] is
    assigned. *)
Theorem ties_recipe_holds_its_values (float_str : float -> string)
    (exn_str : exn -> string) (o : outcome) (original_yaml : value)
    (output_dir : string) (lmda : float) (density_pair : option (float * float))
    (h : gmap loc obj) (tr : list event) :
  has_parameters h original_yaml = true ->
  (density_pair <> None -> shaped h original_yaml = true) ->
  exists l' p r w',
    MergeScanTies.process float_str exn_str o original_yaml output_dir lmda
      density_pair (World h tr) = (r, w') /\
    h !! l' = None /\
    saved (trace w')
    = saved tr ++ [(MergeScanTies.temp_yaml_path float_str lmda density_pair, VRef l')] /\
    dget (heap w') (VRef l') (KStr "parameters") = Some p /\
    dget (heap w') original_yaml (KStr "parameters") = Some p /\
    dget (heap w') p (KStr "lambda") = Some (VFloat lmda) /\
    match density_pair with
    | None => frame_keys [KStr "lambda"] h (heap w')
    | Some (density_1, density_2) =>
        model_parameter (heap w') (VRef l') 1 "density" = Some (VFloat density_2) /\
        model_parameter (heap w') original_yaml 1 "density" = Some (VFloat density_2) /\
        (parameters_of h original_yaml 0 <> parameters_of h original_yaml 1 ->
         model_parameter (heap w') (VRef l') 0 "density" = Some (VFloat density_1) /\
         model_parameter (heap w') original_yaml 0 "density" = Some (VFloat density_1))
    end.
Proof.
  intros Hpar Hshape.
  destruct (process_run float_str exn_str output_dir o original_yaml
              (lmda, density_pair) h Hpar Hshape)
    as (l' & h' & p & evs & Hy & _ & Hsaved & Hfresh & Hf & Hfl & Hp & Hp' & Hlam &
        _ & Hden).
  cbn [fst snd] in *.
  exists l', p, (fst (ties_expect float_str exn_str output_dir o (lmda, density_pair))),
    (World h' (tr ++ evs)).
  split; [apply Hy|]. split; [exact Hfresh|]. cbn [heap trace].
  split; [now rewrite saved_app, Hsaved|]. split; [exact Hp'|].
  assert (Hbase : dget h' original_yaml (KStr "parameters") = Some p).
  { destruct (Hf original_yaml (dget_allocated _ _ _ _ Hp)) as (_ & B & _).
    rewrite B; [exact Hp|]. intros [[=]|[[=]|[]]]. }
  split; [exact Hbase|]. split; [exact Hlam|].
  destruct density_pair as [[d1 d2]|].
  - destruct Hden as (p0 & p1 & Hp0 & Hp1 & Hq0 & Hq1 & Hd2 & Hd1).
    assert (Hb : forall i q, parameters_of h original_yaml i = Some q ->
                             parameters_of h' original_yaml i = Some q).
    { intros i q Hq. revert Hq. unfold parameters_of.
      destruct (dget h original_yaml (KStr "models")) as [models|] eqn:E1;
        [|discriminate].
      destruct (lget h models i) as [model|] eqn:E2; [|discriminate].
      destruct (dget h model (KStr "parameters")) as [q'|] eqn:E3; [|discriminate].
      destruct (is_dict h q') eqn:E4; [|discriminate]. intros [= ->].
      destruct (Hf original_yaml (dget_allocated _ _ _ _ E1)) as (_ & A & _ & _).
      rewrite A, E1 by (intros [[=]|[[=]|[]]]).
      destruct (Hf models (lget_allocated _ _ _ _ E2)) as (_ & _ & B & _).
      rewrite B, E2.
      destruct (Hf model (dget_allocated _ _ _ _ E3)) as (_ & A' & _ & _).
      rewrite A', E3 by (intros [[=]|[[=]|[]]]).
      destruct (Hf q (is_dict_allocated _ _ E4)) as (_ & _ & _ & C).
      now rewrite C, E4. }
    unfold model_parameter. rewrite Hq0, Hq1, (Hb 0 p0 Hp0), (Hb 1 p1 Hp1).
    split; [exact Hd2|]. split; [exact Hd2|].
    intros Hne. assert (Hne' : p0 <> p1) by (intros ->; apply Hne; now rewrite Hp0, Hp1).
    split; now apply Hd1.
  - apply (frame_keys_of (KStr "lambda")); [now left|now apply Hfl].
Qed.

(** X8 at the example recipe, the lambda 1.2 and the densities 0.3 and
    0.4: the base recipe reads them after the iteration. *)
Lemma ties_recipe_holds_its_values_witness :
  has_parameters Example.store Example.recipe = true /\
  shaped Example.store Example.recipe = true /\
  exists l' r w',
    MergeScanTies.process PyFloat.repr exn_name Example.fine Example.recipe "out"
      1.2 (Some (0.3, 0.4)%float) (World Example.store []) = (r, w') /\
    saved (trace w')
    = [("scratch/temp_yamls_ties/v00.00_v01.00_lambda_1.2_density_0.3_0.4.yml",
        VRef l')] /\
    dget (heap w') (VRef 6) (KStr "lambda") = Some (VFloat 1.2) /\
    model_parameter (heap w') Example.recipe 0 "density" = Some (VFloat 0.3) /\
    model_parameter (heap w') Example.recipe 1 "density" = Some (VFloat 0.4).
Proof.
  split; [vm_compute; reflexivity|]. split; [vm_compute; reflexivity|].
  destruct (ties_recipe_holds_its_values PyFloat.repr exn_name Example.fine
              Example.recipe "out" 1.2%float (Some (0.3, 0.4)%float) Example.store []
              ltac:(vm_compute; reflexivity) ltac:(intros _; vm_compute; reflexivity))
    as (l' & p & r & w' & Hrun & _ & Hsaved & _ & Hp & Hlam & _ & H1 & H0).
  exists l', r, w'. split; [exact Hrun|]. split.
  { rewrite Hsaved. vm_compute. reflexivity. }
  assert (Ep : p = VRef 6).
  { destruct (H0 ltac:(vm_compute; discriminate)) as (_ & Hb).
    clear - Hp Hrun. revert Hp.
    replace w' with (snd (MergeScanTies.process PyFloat.repr exn_name Example.fine
                            Example.recipe "out" 1.2
                            (Some (0.3, 0.4)%float) (World Example.store [])))
      by now rewrite Hrun.
    vm_compute. now intros [= <-]. }
  subst p. split; [exact Hlam|]. split; [|exact H1].
  now apply H0; vm_compute.
Defined.

(** X9. The TIES sweep assigns nothing but [lambda] and densities. On a
    recipe of the shape it expects, however the sweep ends, every
    object of the store before the sweep is there afterwards, and reads
    as before at every key other than [lambda] and [density] and at
    every index. *)
Theorem ties_sweep_assigns_only_lambda_and_density (float_str : float -> string)
    (exn_str : exn -> string) (env : nat -> outcome) (original_yaml : value)
    (output_dir : string) (lambdas : list float)
    (pairs : list (option (float * float)))
    (h : gmap loc obj) (tr : list event) :
  shaped_ties h original_yaml = true ->
  exists r w',
    MergeScanTies.sweep float_str exn_str env original_yaml output_dir lambdas pairs
      (World h tr) = (r, w') /\
    frame_keys [KStr "lambda"; KStr "density"] h (heap w').
Proof.
  intros Hs. unfold MergeScanTies.sweep.
  destruct (for_each_inv
              (fun i (c : combination) =>
                 MergeScanTies.process float_str exn_str (env i) original_yaml
                   output_dir (fst c) (snd c))
              (fun h' => shaped_ties h' original_yaml = true /\
                         frame_keys [KStr "lambda"; KStr "density"] h h')
              (fun _ => True)
              (fun i c => ties_expect float_str exn_str output_dir (env i) c))
    with (xs := MergeScanTies.combinations lambdas pairs) (start := 0) (h := h)
         (tr := tr)
    as (r & h' & tr' & Hrun & _ & Hf).
  - intros i c h1 tr1 (Hs1 & Hf1) _.
    destruct (ties_body_spec float_str exn_str output_dir env original_yaml i c h1 tr1
                Hs1 I) as (h2 & evs & Hrun2 & Hs2 & Hev).
    destruct (shaped_ties_inv _ _ Hs1) as (Hp1 & Hsh1).
    destruct (process_run float_str exn_str output_dir (env i) original_yaml c h1
                Hp1 (fun _ => Hsh1))
      as (l' & h2' & p & evs' & Hy & _ & _ & _ & Hf2 & _).
    assert (E : h2' = h2).
    { specialize (Hy tr1). rewrite Hrun2 in Hy. now inversion Hy. }
    subst h2'. exists h2, evs. split; [exact Hrun2|]. split; [|exact Hev].
    split; [exact Hs2|]. eapply frame_keys_trans; [exact Hf1|exact Hf2].
  - split; [exact Hs|apply frame_keys_refl].
  - now apply Forall_forall.
  - exists r, (World h' (tr ++ tr')). now split.
Qed.

(** X9 at the example recipe, the lambdas 1.0 and 1.1 and the density
    pair (0.3, 0.4): the weight of the first model is 0.5 after the
    sweep as before. *)
Lemma ties_sweep_assigns_only_lambda_and_density_witness :
  shaped_ties Example.store Example.recipe = true /\
  exists r w',
    MergeScanTies.sweep PyFloat.repr exn_name (fun _ => Example.fine) Example.recipe
      "out" [1; 1.1]%float [Some (0.3, 0.4)%float] (World Example.store [])
    = (r, w') /\
    dget (heap w') (VRef 4) (KStr "weight") = Some (VFloat 0.5).
Proof.
  split; [vm_compute; reflexivity|].
  destruct (ties_sweep_assigns_only_lambda_and_density PyFloat.repr exn_name
              (fun _ => Example.fine) Example.recipe "out" [1; 1.1]%float
              [Some (0.3, 0.4)%float] Example.store [] ltac:(vm_compute; reflexivity))
    as (r & w' & Hrun & Hf).
  exists r, w'. split; [exact Hrun|].
  destruct (Hf (VRef 4)) as (_ & Hd & _); [vm_compute; discriminate|].
  rewrite Hd; [vm_compute; reflexivity|].
  intros [[=]|[[=]|[]]].
Defined.

(** X10. A recipe with one model ends the linear sweep at its first
    weight: the second subscript of [update_weights] raises
    [IndexError], which nothing catches. Only the heading lines are
    printed: no recipe is written and no command is run; and the weight
    of the one model is assigned already, in the base recipe too. *)
Theorem one_model_recipe_stops_the_sweep (float_str : float -> string)
    (exn_str : exn -> string) (env : nat -> outcome) (original_yaml : value)
    (output_dir : option string) (weight_1 : float) (rest : list float)
    (h : gmap loc obj) (tr : list event) (p0 models : value) :
  parameters_of h original_yaml 0 = Some p0 ->
  dget h original_yaml (KStr "models") = Some models ->
  lget h models 1 = None ->
  exists w',
    MergeScanLinear.sweep float_str exn_str env original_yaml output_dir
      (weight_1 :: rest) (World h tr) = (Raise IndexError, w') /\
    trace w' = tr ++ linear_banner float_str weight_1 /\
    model_parameter (heap w') original_yaml 0 "weight" = Some (VFloat weight_1) /\
    frame_keys [KStr "weight"] h (heap w').
Proof.
  intros Hp0 Hm Hl1.
  destruct (process_weight_one_model float_str exn_str (env 0) original_yaml
              output_dir weight_1 h p0 models Hp0 Hm Hl1) as (h' & Hy & Hf & Hw).
  exists (World h' (tr ++ linear_banner float_str weight_1)).
  split; [|split; [reflexivity|split]].
  - unfold MergeScanLinear.sweep.
    apply (for_each_first_raises
             (fun i x => MergeScanLinear.process_weight float_str exn_str (env i)
                           original_yaml output_dir x)). exact Hy.
  - cbn [heap]. unfold model_parameter.
    now rewrite (parameters_of_frame "weight" h h' _ _ _ ltac:(discriminate)
                   ltac:(discriminate) Hf Hp0).
  - apply (frame_keys_of (KStr "weight")); [now left|exact Hf].
Qed.

(** X10 at a recipe with one model and the weights 0.3 and 0.5. *)
Lemma one_model_recipe_stops_the_sweep_witness :
  parameters_of Example2.one_model_store (VRef 0) 0 = Some (VRef 3) /\
  exists w',
    MergeScanLinear.sweep PyFloat.repr exn_name (fun _ => Example.fine) (VRef 0)
      (Some "out") [0.3; 0.5]%float (World Example2.one_model_store [])
    = (Raise IndexError, w') /\
    saved_paths (trace w') = [] /\ commands (trace w') = [] /\
    model_parameter (heap w') (VRef 0) 0 "weight" = Some (VFloat 0.3).
Proof.
  split; [vm_compute; reflexivity|].
  destruct (one_model_recipe_stops_the_sweep PyFloat.repr exn_name
              (fun _ => Example.fine) (VRef 0) (Some "out") 0.3%float [0.5%float]
              Example2.one_model_store [] (VRef 3) (VRef 1))
    as (w' & Hrun & Htr & Hw & _); try (vm_compute; reflexivity).
  exists w'. split; [exact Hrun|]. rewrite Htr. now repeat split.
Defined.

(** X11. A recipe without the key that the update subscripts ends the
    sweep at its first combination with [KeyError]: [models] in the
    linear sweep, [parameters] in the TIES sweep. Only the heading
    lines are printed, and every object of the store reads as before. *)
Theorem missing_key_stops_the_sweep (float_str : float -> string)
    (exn_str : exn -> string) (env : nat -> outcome) (original_yaml : value)
    (h : gmap loc obj) (tr : list event) :
  is_dict h original_yaml = true ->
  (dget h original_yaml (KStr "models") = None ->
   forall (output_dir : option string) (weight_1 : float) (rest : list float),
   exists w',
     MergeScanLinear.sweep float_str exn_str env original_yaml output_dir
       (weight_1 :: rest) (World h tr) = (Raise KeyError, w') /\
     trace w' = tr ++ linear_banner float_str weight_1 /\
     frame_keys [] h (heap w'))
  /\
  (dget h original_yaml (KStr "parameters") = None ->
   forall (output_dir : string) (lambdas : list float)
          (pairs : list (option (float * float)))
          (c : combination) (rest : list combination),
   MergeScanTies.combinations lambdas pairs = c :: rest ->
   exists w',
     MergeScanTies.sweep float_str exn_str env original_yaml output_dir
       lambdas pairs (World h tr) = (Raise KeyError, w') /\
     trace w' = tr ++ ties_banner_events float_str c /\
     frame_keys [] h (heap w')).
Proof.
  intros Hd. split.
  - intros Hm output_dir weight_1 rest.
    destruct (process_weight_without_models float_str exn_str (env 0) original_yaml
                output_dir weight_1 h Hd Hm) as (h' & Hy & Hf).
    exists (World h' (tr ++ linear_banner float_str weight_1)).
    split; [|split; [reflexivity|]].
    + unfold MergeScanLinear.sweep.
      apply (for_each_first_raises
               (fun i x => MergeScanLinear.process_weight float_str exn_str (env i)
                             original_yaml output_dir x)). exact Hy.
    + intros v Hv. destruct (Hf (KInt 0) v Hv) as (A & _ & C & D).
      split; [exact A|]. split; [|now split].
      intros k' _. destruct (Hf (match k' with KInt i => KInt (S i) | _ => KInt 0 end)
                               v Hv) as (_ & B & _).
      apply B. destruct k'; [discriminate|]. intros [= E]. lia.
  - intros Hm output_dir lambdas pairs c rest Hc.
    destruct (process_without_parameters float_str exn_str (env 0) original_yaml
                output_dir c h Hd Hm) as (h' & Hy & Hf).
    exists (World h' (tr ++ ties_banner_events float_str c)).
    split; [|split; [reflexivity|]].
    + unfold MergeScanTies.sweep. rewrite Hc.
      apply (for_each_first_raises
               (fun i (c : combination) =>
                  MergeScanTies.process float_str exn_str (env i) original_yaml
                    output_dir (fst c) (snd c))). exact Hy.
    + intros v Hv. destruct (Hf (KInt 0) v Hv) as (A & _ & C & D).
      split; [exact A|]. split; [|now split].
      intros k' _. destruct (Hf (match k' with KInt i => KInt (S i) | _ => KInt 0 end)
                               v Hv) as (_ & B & _).
      apply B. destruct k'; [discriminate|]. intros [= E]. lia.
Qed.

(** X11 at a recipe with neither key. *)
Lemma missing_key_stops_the_sweep_witness :
  is_dict Example2.bare_store (VRef 0) = true /\
  dget Example2.bare_store (VRef 0) (KStr "models") = None /\
  dget Example2.bare_store (VRef 0) (KStr "parameters") = None /\
  (exists w',
     MergeScanLinear.sweep PyFloat.repr exn_name (fun _ => Example.fine) (VRef 0)
       (Some "out") [0.3; 0.5]%float (World Example2.bare_store [])
     = (Raise KeyError, w') /\
     saved_paths (trace w') = [] /\ commands (trace w') = []) /\
  (exists w',
     MergeScanTies.sweep PyFloat.repr exn_name (fun _ => Example.fine) (VRef 0)
       "out" [1; 1.1]%float [None] (World Example2.bare_store [])
     = (Raise KeyError, w') /\
     saved_paths (trace w') = [] /\ commands (trace w') = []).
Proof.
  split; [vm_compute; reflexivity|]. split; [vm_compute; reflexivity|].
  split; [vm_compute; reflexivity|].
  destruct (missing_key_stops_the_sweep PyFloat.repr exn_name (fun _ => Example.fine)
              (VRef 0) Example2.bare_store [] ltac:(vm_compute; reflexivity))
    as (Hlin & Hties).
  split.
  - destruct (Hlin ltac:(vm_compute; reflexivity) (Some "out") 0.3%float [0.5%float])
      as (w' & Hrun & Htr & _).
    exists w'. split; [exact Hrun|]. rewrite Htr. now split.
  - destruct (Hties ltac:(vm_compute; reflexivity) "out" [1; 1.1]%float [None]
                (1%float, None) [(1.1%float, None)] eq_refl)
      as (w' & Hrun & Htr & _).
    exists w'. split; [exact Hrun|]. rewrite Htr. now split.
Defined.

End FurtherStore.


(** ** The run of the model soup *)

Section SoupRun.
Import Py Recipe Trace Dumps ModelSoup.
Local Open Scope py_scope.

Variable exn_str : exn -> string.

Lemma new_obj_run (o : obj) (h : gmap loc obj) :
  exists v h',
    (forall tr, new_obj o (World h tr) = (Ok v, World h' tr)) /\
    forall k, frame k h h'.
Proof.
  exists (VRef (fresh (dom h))), (<[fresh (dom h) := o]> h).
  split; [reflexivity|]. intros k. apply frame_alloc, fresh_unallocated.
Qed.

(** Putting a literal into the store never raises and prints nothing;
    the objects that were there read as before. *)
Lemma alloc_run : forall (t : tree) (h : gmap loc obj),
  exists v h',
    (forall tr, alloc t (World h tr) = (Ok v, World h' tr)) /\
    forall k, frame k h h'.
Proof.
  fix IH 1. intros [f|s|items|items] h.
  - exists (VFloat f), h. split; [reflexivity|]. intros k. apply frame_refl.
  - exists (VStr s), h. split; [reflexivity|]. intros k. apply frame_refl.
  - assert (Hgo : exists vs h1,
              (forall tr,
                 (fix go (items : list (string * tree)) : M (list (key * value)) :=
                    match items with
                    | [] => ret []
                    | (k, t) :: rest =>
                        v <- alloc t ;; vs <- go rest ;; ret ((KStr k, v) :: vs)
                    end) items (World h tr) = (Ok vs, World h1 tr)) /\
              forall k, frame k h h1).
    { revert h. induction items as [|[k t] rest IHrest]; intros h.
      - exists [], h. split; [reflexivity|]. intros k. apply frame_refl.
      - destruct (IH t h) as (v & h1 & Hv & F1).
        destruct (IHrest h1) as (vs & h2 & Hvs & F2).
        exists ((KStr k, v) :: vs), h2. split.
        + intros tr. unfold bind at 1. rewrite Hv. unfold bind at 1. now rewrite Hvs.
        + intros k'. eapply frame_trans; [apply F1|apply F2]. }
    destruct Hgo as (vs & h1 & Hvs & F1).
    destruct (new_obj_run (ODict vs) h1) as (v & h2 & Hv & F2).
    exists v, h2. split.
    + intros tr. cbn [alloc]. unfold bind at 1. rewrite Hvs. apply Hv.
    + intros k. eapply frame_trans; [apply F1|apply F2].
  - assert (Hgo : exists vs h1,
              (forall tr,
                 (fix go (items : list tree) : M (list value) :=
                    match items with
                    | [] => ret []
                    | t :: rest => v <- alloc t ;; vs <- go rest ;; ret (v :: vs)
                    end) items (World h tr) = (Ok vs, World h1 tr)) /\
              forall k, frame k h h1).
    { revert h. induction items as [|t rest IHrest]; intros h.
      - exists [], h. split; [reflexivity|]. intros k. apply frame_refl.
      - destruct (IH t h) as (v & h1 & Hv & F1).
        destruct (IHrest h1) as (vs & h2 & Hvs & F2).
        exists (v :: vs), h2. split.
        + intros tr. unfold bind at 1. rewrite Hv. unfold bind at 1. now rewrite Hvs.
        + intros k'. eapply frame_trans; [apply F1|apply F2]. }
    destruct Hgo as (vs & h1 & Hvs & F1).
    destruct (new_obj_run (OList vs) h1) as (v & h2 & Hv & F2).
    exists v, h2. split.
    + intros tr. cbn [alloc]. unfold bind at 1. rewrite Hvs. apply Hv.
    + intros k. eapply frame_trans; [apply F1|apply F2].
Qed.

Lemma create_merge_recipe_run (model_id : string) (revisions : list string)
    (output_path dtype chat_template : string) (h : gmap loc obj) :
  revisions <> [] ->
  exists v h',
    yields (create_merge_recipe model_id revisions output_path dtype chat_template)
      h (Ok output_path) h' [ESave output_path v] /\
    forall k, frame k h h'.
Proof.
  intros Hne. unfold create_merge_recipe.
  rewrite (merge_recipe_entries model_id revisions dtype chat_template Hne).
  destruct (alloc_run
              (TDict
                 [("models",
                   TList (map (model_entry model_id
                                 (1 / PyFloat.of_Z (Z.of_nat (length revisions))))
                              revisions));
                  ("merge_method", TStr "linear");
                  ("dtype", TStr dtype);
                  ("chat_template", TStr chat_template)]) h) as (v & h' & Hv & F).
  exists v, h'. split; [|exact F].
  change [ESave output_path v] with ([] ++ [ESave output_path v] ++ []).
  eapply yields_bind; [apply yields_silent; exact Hv|].
  eapply yields_bind; [apply yields_emit|]. apply yields_ret.
Qed.

Lemma print_revisions_run (revisions : list string) (h : gmap loc obj) :
  forall start,
    yields (for_each start revisions (fun _ rev => emit (EPrint ("  - " +:+ rev))))
      h (Ok tt) h (map (fun rev => EPrint ("  - " +:+ rev)) revisions).
Proof.
  induction revisions as [|r rest IH]; intros start; [apply yields_ret|].
  cbn [for_each map].
  change (EPrint ("  - " +:+ r) :: map (fun rev => EPrint ("  - " +:+ rev)) rest)
    with ([EPrint ("  - " +:+ r)] ++ map (fun rev => EPrint ("  - " +:+ rev)) rest).
  eapply yields_bind; [apply yields_emit|]. apply IH.
Qed.

(** The events of [main] when revisions were found, but for the object
    that was dumped. *)
Definition soup_events (a : args) (revisions : list string) (o : outcome)
    : list event :=
  [EPrint (nl +:+ rule);
   EPrint ("MODEL SOUP CREATION: " +:+ model_id a +:+ " - " +:+ revision a);
   EPrint (rule +:+ nl);
   EPrint ("Finding revisions matching " +:+ revision a +:+ "-step-XX...");
   EPrint ("Found " +:+ pretty (length revisions) +:+ " matching revisions:")]
  ++ map (fun rev => EPrint ("  - " +:+ rev)) revisions
  ++ [EMakedirs "scratch/temp_yamls";
      ESave (recipe_path a) VNone;
      EPrint ("Created merge recipe at " +:+ recipe_path a)]
  ++ clean_events o (output_dir a)
  ++ (if rmtree_raises o then []
      else guarded_events o (merge_cmd (recipe_path a) (output_dir a))
             (push_cmd (output_dir a) (revision a))
             ("Successfully created model soup for " +:+ model_id a
              +:+ " - " +:+ revision a)
             ("Error creating model soup: " +:+ exn_str CalledProcessError)).

Lemma found_revisions_quiet (branches : res (list string))
    (pattern_search : string -> bool) (h : gmap loc obj) :
  found_revisions branches pattern_search <> [] ->
  yields (get_model_revisions exn_str branches pattern_search) h
    (Ok (found_revisions branches pattern_search)) h [].
Proof.
  unfold get_model_revisions, found_revisions.
  destruct branches as [names|e]; [|contradiction].
  destruct (sort_by_key step_number
              (filter (fun n => pattern_search n = true) names)) as [sorted|e];
    [|contradiction].
  intros _. apply yields_try_ok, yields_ret.
Qed.

Lemma main_with_revisions (a : args) (branches : res (list string))
    (pattern_search : string -> bool) (o : outcome) (h : gmap loc obj) :
  found_revisions branches pattern_search <> [] ->
  exists h' evs,
    yields (main exn_str a branches pattern_search o) h
      (if rmtree_raises o then Raise OSError else Ok tt) h' evs /\
    map erase evs = soup_events a (found_revisions branches pattern_search) o /\
    forall k, frame k h h'.
Proof.
  intros Hne.
  pose proof (found_revisions_quiet branches pattern_search h Hne) as Hrev.
  destruct (create_merge_recipe_run (model_id a)
              (found_revisions branches pattern_search) (recipe_path a)
              (dtype a) (chat_template a) h Hne) as (v & h' & Hrec & F).
  pose proof (yields_clean_dir o (output_dir a) h') as Hc.
  exists h'. unfold main, soup_events.
  destruct (found_revisions branches pattern_search) as [|r rs] eqn:Efound;
    [contradiction|].
  destruct (rmtree_raises o) eqn:Er.
  - eexists. split; [|split; [|exact F]].
    + eapply yields_bind; [apply yields_emit|].
      eapply yields_bind; [apply yields_emit|].
      eapply yields_bind; [apply yields_emit|].
      eapply yields_bind; [apply yields_emit|].
      eapply yields_bind; [exact Hrev|]. cbn iota.
      eapply yields_bind; [apply yields_emit|].
      eapply yields_bind; [apply print_revisions_run|].
      eapply yields_bind; [apply yields_emit|].
      eapply yields_bind; [exact Hrec|].
      eapply yields_bind; [apply yields_emit|].
      apply yields_bind_raise. exact Hc.
    + rewrite !map_app, erase_clean_events, map_map. cbn [map erase app].
      rewrite app_nil_r. reflexivity.
  - eexists. split; [|split; [|exact F]].
    + eapply yields_bind; [apply yields_emit|].
      eapply yields_bind; [apply yields_emit|].
      eapply yields_bind; [apply yields_emit|].
      eapply yields_bind; [apply yields_emit|].
      eapply yields_bind; [exact Hrev|]. cbn iota.
      eapply yields_bind; [apply yields_emit|].
      eapply yields_bind; [apply print_revisions_run|].
      eapply yields_bind; [apply yields_emit|].
      eapply yields_bind; [exact Hrec|].
      eapply yields_bind; [apply yields_emit|].
      eapply yields_bind; [exact Hc|].
      unfold run_merge, run_push_to_hub.
      apply (yields_guarded o _ _ _
               (fun e => "Error creating model soup: " +:+ exn_str e)).
    + rewrite !map_app, erase_clean_events, erase_guarded_events, map_map.
      cbn [map erase app]. reflexivity.
Qed.

End SoupRun.

Section SoupObservations.
Import Py Recipe Trace Dumps ModelSoup.

Lemma observe_printed_lines (f : string -> string) (l : list string) :
  saved_paths (map (fun x => EPrint (f x)) l) = [] /\
  commands (map (fun x => EPrint (f x)) l) = [] /\
  printed (map (fun x => EPrint (f x)) l) = map f l.
Proof.
  induction l as [|x l (H1 & H2 & H3)]; [now repeat split|].
  repeat split; cbn [map]; [exact H1|exact H2|].
  change (printed (EPrint (f x) :: map (fun x => EPrint (f x)) l))
    with (f x :: printed (map (fun x => EPrint (f x)) l)).
  now rewrite H3.
Qed.

End SoupObservations.

Section FurtherSoup.
Import Py Recipe Trace Dumps StepNames.
Local Open Scope py_scope.

(** X12. [main] of the model soup when revisions were found, among
    branch names of at most 4300 characters. It lists
    them, writes one recipe at the recipe path and removes the output
    directory if it is there; an exception of the removal ends [main]
    before any command is run. Otherwise [main] ends normally whatever
    the tools do: the merge is attempted on the recipe path and the
    output directory, the upload once the merge succeeded, and a
    failure of either is reported. The objects of the store read as
    before. *)
Theorem soup_main_runs_the_tools (exn_str : exn -> string) (a : ModelSoup.args)
    (names : list string) (pattern_search : string -> bool)
    (o : outcome) (h : gmap loc obj) (tr : list event) :
  short_names names = true ->
  found_revisions (Ok names) pattern_search <> [] ->
  exists w',
    ModelSoup.main exn_str a (Ok names) pattern_search o (World h tr)
    = (if rmtree_raises o then Raise OSError else Ok tt, w') /\
    saved_paths (trace w') = saved_paths tr ++ [ModelSoup.recipe_path a] /\
    commands (trace w')
    = commands tr
      ++ (if rmtree_raises o then []
          else attempts o
                 (ModelSoup.merge_cmd (ModelSoup.recipe_path a) (ModelSoup.output_dir a))
                 (ModelSoup.push_cmd (ModelSoup.output_dir a) (ModelSoup.revision a))) /\
    (forall rev, In rev (found_revisions (Ok names) pattern_search) ->
                 In ("  - " +:+ rev) (printed (trace w'))) /\
    (rmtree_raises o = false -> tool_fails o = true ->
     In ("Error creating model soup: " +:+ exn_str CalledProcessError)
        (printed (trace w'))) /\
    frame_keys [] h (heap w').
Proof.
  intros _ Hne.
  destruct (main_with_revisions exn_str a (Ok names) pattern_search o h Hne)
    as (h' & evs & Hy & Hev & F).
  exists (World h' (tr ++ evs)). split; [apply Hy|]. cbn [heap trace].
  destruct (observe_printed_lines (fun rev => "  - " +:+ rev)
              (found_revisions (Ok names) pattern_search)) as (Hs & Hc & Hp).
  split; [|split; [|split; [|split]]].
  - rewrite saved_paths_app, <- (saved_paths_erase evs), Hev. f_equal.
    unfold soup_events. rewrite !saved_paths_app, Hs.
    unfold rmtree_raises, clean_events, guarded_events.
    destruct o as [de ro mo po]. cbn [dir_exists rmtree_ok merge_ok push_ok].
    destruct de, ro, mo, po; reflexivity.
  - rewrite commands_app, <- (commands_erase evs), Hev. f_equal.
    unfold soup_events. rewrite !commands_app, Hc.
    unfold rmtree_raises, clean_events, guarded_events, attempts.
    destruct o as [de ro mo po]. cbn [dir_exists rmtree_ok merge_ok push_ok].
    destruct de, ro, mo, po; reflexivity.
  - intros rev Hrev. rewrite printed_app. apply in_or_app. right.
    rewrite <- (printed_erase evs), Hev. unfold soup_events.
    rewrite !printed_app, Hp. apply in_or_app. right. apply in_or_app. left.
    apply in_map_iff. now exists rev.
  - intros Hr Hfail. rewrite printed_app. apply in_or_app. right.
    rewrite <- (printed_erase evs), Hev. unfold soup_events.
    rewrite !printed_app. do 4 (apply in_or_app; right).
    revert Hr Hfail. unfold rmtree_raises, tool_fails, guarded_events.
    destruct o as [de ro mo po]. cbn [dir_exists rmtree_ok merge_ok push_ok].
    destruct de, ro, mo, po; cbn [andb negb]; try discriminate; intros _ _;
      cbn [app printed flat_map]; auto 8 using in_eq, in_cons.
  - intros v Hv. destruct (F (KInt 0) v Hv) as (A & _ & C & D).
    split; [exact A|]. split; [|now split].
    intros k' _. destruct (F (match k' with KInt i => KInt (S i) | _ => KInt 0 end)
                             v Hv) as (_ & B & _).
    apply B. destruct k'; [discriminate|]. intros [= E]. lia.
Qed.

(** X12 at the branches v1-step-30, main and v1-step-5 when the merge
    fails: the upload is not attempted, and [main] ends normally. *)
Lemma soup_main_runs_the_tools_witness :
  found_revisions (Ok ["v1-step-30"; "main"; "v1-step-5"])
    (ModelSoup.literal_search "v1") <> [] /\
  exists w',
    ModelSoup.main exn_name (ModelSoup.Args "org/m" "v1" "out" "bfloat16" "auto")
      (Ok ["v1-step-30"; "main"; "v1-step-5"]) (ModelSoup.literal_search "v1")
      (Outcome false true false true) (World ∅ [])
    = (Ok tt, w') /\
    saved_paths (trace w') = ["scratch/temp_yamls/m_v1_soup.yml"] /\
    commands (trace w')
    = [["mergekit-yaml"; "scratch/temp_yamls/m_v1_soup.yml"; "out"; "--cuda"]] /\
    In "Error creating model soup: CalledProcessError" (printed (trace w')).
Proof.
  assert (Hne : found_revisions (Ok ["v1-step-30"; "main"; "v1-step-5"])
                  (ModelSoup.literal_search "v1") <> [])
    by (vm_compute; discriminate).
  split; [exact Hne|].
  destruct (soup_main_runs_the_tools exn_name
              (ModelSoup.Args "org/m" "v1" "out" "bfloat16" "auto")
              ["v1-step-30"; "main"; "v1-step-5"] (ModelSoup.literal_search "v1")
              (Outcome false true false true) ∅ [] eq_refl Hne)
    as (w' & Hrun & Hsaved & Hcmd & _ & Herr & _).
  exists w'. split; [exact Hrun|]. split; [rewrite Hsaved; reflexivity|].
  split; [rewrite Hcmd; reflexivity|]. now apply Herr.
Defined.

End FurtherSoup.


(** ** The order of the combinations *)

Section Combinations.
Import Py MergeScanTies.

Lemma combinations_length (lambdas : list float)
    (pairs : list (option (float * float))) :
  length (combinations lambdas pairs) = length lambdas * length pairs.
Proof.
  unfold combinations. induction lambdas as [|l ls IH]; [reflexivity|].
  cbn [flat_map length]. rewrite length_app, length_map, IH. lia.
Qed.

Lemma combinations_lookup (lambdas : list float)
    (pairs : list (option (float * float))) (i j : nat) (l : float)
    (p : option (float * float)) :
  lambdas !! i = Some l -> pairs !! j = Some p ->
  combinations lambdas pairs !! (i * length pairs + j) = Some (l, p).
Proof.
  unfold combinations. revert i. induction lambdas as [|l0 ls IH]; intros i Hl Hp.
  - discriminate.
  - cbn [flat_map]. destruct i as [|i].
    + cbn in Hl. injection Hl as ->. cbn [Nat.mul Nat.add].
      rewrite lookup_app_l by (rewrite length_map; now apply lookup_lt_Some with p).
      rewrite list_lookup_fmap, Hp. reflexivity.
    + cbn in Hl. rewrite lookup_app_r by (rewrite length_map; lia).
      rewrite length_map.
      replace (S i * length pairs + j - length pairs) with (i * length pairs + j)
        by lia.
      now apply IH.
Qed.

Lemma lookup_map {A B : Type} (f : A -> B) (l : list A) (i : nat) :
  map f l !! i = option_map f (l !! i).
Proof.
  revert i. induction l as [|x l IH]; intros [|i]; try reflexivity. apply IH.
Qed.

End Combinations.

Section FurtherTies.
Import Py Recipe Trace Dumps.
Local Open Scope py_scope.

(** X13. The TIES sweep runs the density pairs within each lambda. On a
    recipe of the expected shape and when no removal of the output
    directory raises, the sweep writes one recipe per pair of a lambda
    and a density pair: as many as the product of the two lengths, and
    the recipe of the lambda [i] and the pair [j] is the one after
    [i * len(density_pairs) + j] others. *)
Theorem ties_sweep_runs_pairs_within_lambdas (float_str : float -> string)
    (exn_str : exn -> string) (env : nat -> outcome) (original_yaml : value)
    (output_dir : string) (lambdas : list float)
    (pairs : list (option (float * float)))
    (h : gmap loc obj) :
  shaped_ties h original_yaml = true ->
  (forall i, rmtree_raises (env i) = false) ->
  exists w',
    MergeScanTies.sweep float_str exn_str env original_yaml output_dir lambdas pairs
      (World h []) = (Ok tt, w') /\
    length (saved_paths (trace w')) = length lambdas * length pairs /\
    forall i j lmda density_pair,
      lambdas !! i = Some lmda -> pairs !! j = Some density_pair ->
      saved_paths (trace w') !! (i * length pairs + j)
      = Some (MergeScanTies.temp_yaml_path float_str lmda density_pair).
Proof.
  intros Hs Hfs.
  destruct (ties_sweep_ok float_str exn_str output_dir env original_yaml lambdas
              pairs h [] Hs (fun i c _ => Hfs i))
    as (w' & Hrun & Hsaved & _).
  exists w'. split; [exact Hrun|]. rewrite Hsaved. cbn [saved_paths flat_map app].
  split; [now rewrite length_map, combinations_length|].
  intros i j lmda density_pair Hl Hp.
  rewrite lookup_map.
  transitivity (option_map (ties_path float_str) (Some (lmda, density_pair)));
    [|reflexivity].
  f_equal. exact (combinations_lookup _ _ _ _ _ _ Hl Hp).
Qed.

(** X13 at the example recipe, the lambdas 1.0 and 1.1 and the density
    pairs (0.2, 0.2) and (0.2, 0.3): the third recipe is the one of the
    lambda 1.1 and the pair (0.2, 0.2). *)
Lemma ties_sweep_runs_pairs_within_lambdas_witness :
  shaped_ties Example.store Example.recipe = true /\
  exists w',
    MergeScanTies.sweep PyFloat.repr exn_name (fun _ => Example.fine) Example.recipe
      "out" [1; 1.1]%float [Some (0.2, 0.2); Some (0.2, 0.3)]%float
      (World Example.store []) = (Ok tt, w') /\
    length (saved_paths (trace w')) = 4 /\
    saved_paths (trace w') !! 2
    = Some "scratch/temp_yamls_ties/v00.00_v01.00_lambda_1.1_density_0.2_0.2.yml".
Proof.
  split; [vm_compute; reflexivity|].
  destruct (ties_sweep_runs_pairs_within_lambdas PyFloat.repr exn_name
              (fun _ => Example.fine) Example.recipe "out" [1; 1.1]%float
              [Some (0.2, 0.2); Some (0.2, 0.3)]%float Example.store
              ltac:(vm_compute; reflexivity) ltac:(reflexivity))
    as (w' & Hrun & Hlen & Hat).
  exists w'. split; [exact Hrun|]. split; [exact Hlen|].
  exact (Hat 1 0 1.1%float (Some (0.2, 0.2)%float) eq_refl eq_refl).
Defined.

(** X14. A step of zero ends the TIES [main] before its loop. With a
    lambda end and a lambda step of zero, or with both density bounds
    and a density step of zero, the range construction raises
    [ZeroDivisionError]: [main] has created the directory of the
    recipes and done nothing else. *)
Theorem zero_step_ends_ties_main (float_str : float -> string)
    (exn_str : exn -> string) (np_round2 : float -> float)
    (a : MergeScanTies.args) (env : nat -> outcome) (original_yaml : value)
    (h : gmap loc obj) (tr : list event) :
  (forall lambda_end,
     MergeScanTies.lambda_end a = Some lambda_end ->
     (MergeScanTies.lambda_step a =? 0)%float = true ->
     MergeScanTies.main float_str exn_str np_round2 a env original_yaml (World h tr)
     = (Raise ZeroDivisionError, World h (tr ++ [EMakedirs "scratch/temp_yamls_ties"])))
  /\
  (forall lambdas density_start density_end,
     MergeScanTies.lambda_values np_round2 a = Ok lambdas ->
     MergeScanTies.density_start a = Some density_start ->
     MergeScanTies.density_end a = Some density_end ->
     (MergeScanTies.density_step a =? 0)%float = true ->
     MergeScanTies.main float_str exn_str np_round2 a env original_yaml (World h tr)
     = (Raise ZeroDivisionError, World h (tr ++ [EMakedirs "scratch/temp_yamls_ties"]))).
Proof.
  split.
  - intros e He Hz. unfold MergeScanTies.main, bind, emit. cbn [heap trace].
    unfold MergeScanTies.lambda_values, Numpy.arange, Numpy.arange_length.
    now rewrite He, Hz.
  - intros ls s e Hls Hs He Hz. unfold MergeScanTies.main, bind, emit. cbn [heap trace].
    rewrite Hls. unfold MergeScanTies.density_pairs, MergeScanTies.density_grid,
      Numpy.arange, Numpy.arange_length.
    now rewrite Hs, He, Hz.
Qed.

(** X14 at the lambdas from 1.0 to 1.5 with the step 0, and at the
    densities from 0.2 to 0.3 with the step 0. *)
Lemma zero_step_ends_ties_main_witness :
  MergeScanTies.main PyFloat.repr exn_name (fun x => PyFloat.round x 2)
    (MergeScanTies.Args 1 (Some 1.5%float) 0 (Some 0.2%float) None 0.1 "out")
    (fun _ => Example.fine) Example.recipe (World Example.store [])
  = (Raise ZeroDivisionError, World Example.store [EMakedirs "scratch/temp_yamls_ties"])
  /\
  MergeScanTies.main PyFloat.repr exn_name (fun x => PyFloat.round x 2)
    (MergeScanTies.Args 1 None 0.1 (Some 0.2%float) (Some 0.3%float) 0 "out")
    (fun _ => Example.fine) Example.recipe (World Example.store [])
  = (Raise ZeroDivisionError, World Example.store [EMakedirs "scratch/temp_yamls_ties"]).
Proof.
  destruct (zero_step_ends_ties_main PyFloat.repr exn_name (fun x => PyFloat.round x 2)
              (MergeScanTies.Args 1 (Some 1.5%float) 0 (Some 0.2%float) None 0.1 "out")
              (fun _ => Example.fine) Example.recipe Example.store []) as (H1 & _).
  destruct (zero_step_ends_ties_main PyFloat.repr exn_name (fun x => PyFloat.round x 2)
              (MergeScanTies.Args 1 None 0.1 (Some 0.2%float) (Some 0.3%float) 0 "out")
              (fun _ => Example.fine) Example.recipe Example.store []) as (_ & H2).
  split.
  - apply (H1 1.5%float); reflexivity.
  - apply (H2 [1%float] 0.2%float 0.3%float); reflexivity.
Defined.

End FurtherTies.


(** ** The order of floats *)

Section FloatOrderTransitive.

Lemma SFcompare_refl (x : spec_float) : x <> S754_nan -> SFcompare x x = Some Eq.
Proof.
  destruct x as [s|s| |s m e]; cbn; intros H; try reflexivity;
    try (now destruct s); [contradiction|].
  destruct s; rewrite Z.compare_refl, Pos.compare_cont_refl; reflexivity.
Qed.

(** The comparison of two steps that do not go down. *)
Definition chain (c1 c2 : comparison) : comparison :=
  match c1, c2 with
  | Eq, Eq => Eq
  | _, _ => Lt
  end.

(** The comparison of two finite floats of one sign: by exponent, then
    by mantissa. *)
Definition lex (e1 : Z) (m1 : positive) (e2 : Z) (m2 : positive) : comparison :=
  match (e1 ?= e2)%Z with
  | Lt => Lt
  | Gt => Gt
  | Eq => Pos.compare_cont Eq m1 m2
  end.

Lemma lex_opp (e1 : Z) (m1 : positive) (e2 : Z) (m2 : positive) :
  match (e1 ?= e2)%Z with
  | Lt => Gt
  | Gt => Lt
  | Eq => CompOpp (Pos.compare_cont Eq m1 m2)
  end = lex e2 m2 e1 m1.
Proof.
  unfold lex. rewrite (Z.compare_antisym e1 e2).
  destruct (e1 ?= e2)%Z; cbn; try reflexivity.
  now rewrite Pos.compare_cont_antisym.
Qed.

Lemma lex_trans (e1 e2 e3 : Z) (m1 m2 m3 : positive) :
  lex e1 m1 e2 m2 <> Gt -> lex e2 m2 e3 m3 <> Gt ->
  lex e1 m1 e3 m3 = chain (lex e1 m1 e2 m2) (lex e2 m2 e3 m3).
Proof.
  unfold lex.
  change (Pos.compare_cont Eq m1 m2) with (m1 ?= m2)%positive.
  change (Pos.compare_cont Eq m2 m3) with (m2 ?= m3)%positive.
  change (Pos.compare_cont Eq m1 m3) with (m1 ?= m3)%positive.
  destruct (Z.compare_spec e1 e2) as [E12|E12|E12];
    destruct (Z.compare_spec e2 e3) as [E23|E23|E23];
    intros H1 H2; try congruence.
  - subst. rewrite Z.compare_refl.
    destruct (Pos.compare_spec m1 m2) as [M12|M12|M12];
      destruct (Pos.compare_spec m2 m3) as [M23|M23|M23]; try congruence; subst;
      cbn [chain].
    + apply Pos.compare_refl.
    + now apply Pos.compare_lt_iff.
    + now apply Pos.compare_lt_iff.
    + apply Pos.compare_lt_iff. lia.
  - subst. rewrite (proj2 (Z.compare_lt_iff e2 e3) E23).
    now destruct (m1 ?= m2)%positive.
  - subst. rewrite (proj2 (Z.compare_lt_iff e1 e3) E12). reflexivity.
  - rewrite (proj2 (Z.compare_lt_iff e1 e3)) by lia. reflexivity.
Qed.

Lemma chain_comm (c1 c2 : comparison) : chain c1 c2 = chain c2 c1.
Proof. now destruct c1, c2. Qed.

(** Two comparisons that do not go down compose. *)
Lemma SFcompare_trans (x y z : spec_float) (c1 c2 : comparison) :
  SFcompare x y = Some c1 -> SFcompare y z = Some c2 ->
  c1 <> Gt -> c2 <> Gt ->
  SFcompare x z = Some (chain c1 c2).
Proof.
  destruct x as [sx|sx| |sx mx ex], y as [sy|sy| |sy my ey], z as [sz|sz| |sz mz ez];
    cbn [SFcompare]; try discriminate;
    try (destruct sx); try (destruct sy); try (destruct sz);
    intros [= <-] [= <-] H1 H2; try reflexivity; try congruence;
    rewrite ?lex_opp in *;
    repeat match goal with
    | H : context [match (?e1 ?= ?e2)%Z with
                   | Lt => Lt | Gt => Gt | Eq => Pos.compare_cont Eq ?m1 ?m2 end] |- _ =>
        change (match (e1 ?= e2)%Z with
                | Lt => Lt | Gt => Gt | Eq => Pos.compare_cont Eq m1 m2 end)
          with (lex e1 m1 e2 m2) in *
    end;
    f_equal;
    first [ now apply lex_trans
          | rewrite chain_comm; now apply lex_trans
          | match goal with
            | |- context [lex ?a ?b ?c ?d] => now destruct (lex a b c d)
            end ].
Qed.

End FloatOrderTransitive.

Section FloatOrderChains.

Lemma order_chain (x y z : float) :
  (x <=? y)%float = true -> (y <=? z)%float = true ->
  (x <=? z)%float = true /\
  ((x <? y)%float = true \/ (y <? z)%float = true -> (x <? z)%float = true).
Proof.
  rewrite !FloatAxioms.leb_spec, !FloatAxioms.ltb_spec. unfold SFleb, SFltb.
  destruct (SFcompare (Prim2SF x) (Prim2SF y)) as [c1|] eqn:E1; [|discriminate].
  destruct (SFcompare (Prim2SF y) (Prim2SF z)) as [c2|] eqn:E2;
    [|now destruct c1].
  intros H1 H2.
  rewrite (SFcompare_trans _ _ _ c1 c2 E1 E2) by (now destruct c1 + now destruct c2).
  destruct c1, c2; try discriminate; cbn [chain]; split; auto; intros [H|H];
    discriminate.
Qed.

Lemma leb_trans (x y z : float) :
  (x <=? y)%float = true -> (y <=? z)%float = true -> (x <=? z)%float = true.
Proof. intros H1 H2. now apply (order_chain x y z). Qed.

Lemma ltb_leb_trans (x y z : float) :
  (x <? y)%float = true -> (y <=? z)%float = true -> (x <? z)%float = true.
Proof.
  intros H1 H2. apply (order_chain x y z); [now apply ltb_leb|exact H2|now left].
Qed.

Lemma leb_ltb_trans (x y z : float) :
  (x <=? y)%float = true -> (y <? z)%float = true -> (x <? z)%float = true.
Proof.
  intros H1 H2. apply (order_chain x y z); [exact H1|now apply ltb_leb|now right].
Qed.

Lemma ltb_trans (x y z : float) :
  (x <? y)%float = true -> (y <? z)%float = true -> (x <? z)%float = true.
Proof. intros H1 H2. apply (ltb_leb_trans x y z H1). now apply ltb_leb. Qed.

(** A float that compares with another is equal to itself. *)
Lemma leb_eqb_refl (x y : float) :
  (x <=? y)%float = true -> (x =? x)%float = true /\ (y =? y)%float = true.
Proof.
  rewrite FloatAxioms.leb_spec, !FloatAxioms.eqb_spec. unfold SFleb, SFeqb.
  destruct (Prim2SF x) as [sx|sx| |sx mx ex] eqn:Ex,
           (Prim2SF y) as [sy|sy| |sy my ey] eqn:Ey;
    try discriminate; intros _;
    rewrite !SFcompare_refl by discriminate; now split.
Qed.

(** A NaN compares with nothing, and stays one in a difference. *)
Lemma nan_spec (x : float) : is_nan x = true -> Prim2SF x = S754_nan.
Proof.
  unfold is_nan. rewrite negb_true_iff, FloatAxioms.eqb_spec. unfold SFeqb.
  destruct (Prim2SF x) as [s|s| |s m e] eqn:E; [| |reflexivity|];
    rewrite SFcompare_refl by discriminate; discriminate.
Qed.

Lemma nan_leb (x y : float) :
  is_nan x = true -> (x <=? y)%float = false /\ (y <=? x)%float = false.
Proof.
  intros H. apply nan_spec in H. rewrite !FloatAxioms.leb_spec, H. unfold SFleb.
  split; [reflexivity|]. now destruct (Prim2SF y).
Qed.

Lemma nan_sub (x y : float) : is_nan x = true -> is_nan (x - y) = true.
Proof.
  intros H. apply nan_spec in H. unfold is_nan.
  rewrite negb_true_iff, FloatAxioms.eqb_spec, FloatAxioms.sub_spec, H.
  reflexivity.
Qed.

End FloatOrderChains.

(** ** Weights with three decimals

    The float of a decimal with three places, the steps of a sweep, and
    tables of the float operations of the weight loop on them, checked
    by evaluation. *)

Module Thousandths.

(** The float that [float("c/1000")] gives: the nearest to [c / 1000]. *)
Definition dec (c : Z) : float := PyFloat.of_decimal (c <? 0)%Z (Z.abs c) 3.

(** The steps 0.001, 0.005, 0.01, 0.02, 0.025, 0.05, 0.1, 0.2, 0.25 and
    0.5, in thousandths. *)
Definition steps : list Z := [1; 5; 10; 20; 25; 50; 100; 200; 250; 500]%Z.

(** [n] integers from [lo] on. *)
Definition range (lo n : Z) : list Z :=
  map (fun k => (lo + Z.of_nat k)%Z) (seq 0 (Z.to_nat n)).

(** [round(x, 3)] is [dec n]: the digits of [x] with three places are
    those of [n], with its sign. *)
Definition rounds_to (x : float) (n : Z) : bool :=
  match Prim2SF x with
  | S754_zero s => (n =? 0)%Z && negb s
  | S754_finite s m e =>
      let d := PyFloat.scaled_digits m e 3 in
      (d =? Z.abs n)%Z && (if (d =? 0)%Z then negb s else Bool.eqb s (n <? 0)%Z)
  | _ => false
  end.

(** The steps with their floats. *)
Definition step_floats : list (Z * float) := map (fun s => (s, dec s)) steps.

(** A weight plus and minus each of the steps [sfs]. *)
Definition advance_ok (sfs : list (Z * float)) (c : Z) : bool :=
  let x := dec c in
  forallb (fun sf => rounds_to (x + snd sf) (c + fst sf) &&
                     rounds_to (x - snd sf) (c - fst sf))
          sfs.

(** A weight, and what is left of 1.0. *)
Definition round_ok (c : Z) : bool :=
  let x := dec c in rounds_to x c && rounds_to (1 - x) (1000 - c).

Fixpoint increasing (l : list float) : bool :=
  match l with
  | x :: (y :: _) as rest => (x <? y)%float && increasing rest
  | _ => true
  end.

(** The tolerance of the loop condition around a weight. *)
Definition guard_ok (b : Z) : bool :=
  let x := dec b in
  (x <=? x + 1e-6)%float && (x + 1e-6 <? dec (b + 1))%float &&
  (x - 1e-6 <=? x)%float && (dec (b - 1) <? x - 1e-6)%float.

End Thousandths.

Section ThousandthsTables.
Import Thousandths.

(** The tables, by evaluation: the weights from 0.0 to 1.0, and the
    decimals from -1.0 to 2.0 in their order. *)
Lemma advance_table : forallb (advance_ok step_floats) (range 0 1001) = true.
Proof. vm_cast_no_check (eq_refl true). Qed.

Lemma round_table : forallb round_ok (range 0 1001) = true.
Proof. vm_cast_no_check (eq_refl true). Qed.

Lemma order_table : increasing (map dec (range (-1000) 3001)) = true.
Proof. vm_cast_no_check (eq_refl true). Qed.

Lemma guard_table : forallb guard_ok (range 0 1001) = true.
Proof. vm_cast_no_check (eq_refl true). Qed.

End ThousandthsTables.


Section ThousandthsFacts.
Import Thousandths.

Lemma in_range (lo n c : Z) : (lo <= c < lo + n)%Z -> In c (range lo n).
Proof.
  intros Hc. unfold range. apply in_map_iff. exists (Z.to_nat (c - lo)).
  split; [lia|]. apply in_seq. lia.
Qed.

Lemma range_lookup (lo n : Z) (i : nat) :
  (i < Z.to_nat n)%nat -> range lo n !! i = Some (lo + Z.of_nat i)%Z.
Proof.
  intros Hi. unfold range. rewrite lookup_map, lookup_seq_lt by exact Hi.
  reflexivity.
Qed.

Lemma steps_positive (s : Z) : In s steps -> (0 < s <= 500)%Z.
Proof. unfold steps. cbn. intros H. repeat (destruct H as [<-|H]; [lia|]). contradiction. Qed.

Lemma rounds_to_spec (x : float) (n : Z) :
  rounds_to x n = true -> PyFloat.round x 3 = dec n.
Proof.
  unfold rounds_to, PyFloat.round, dec.
  destruct (Prim2SF x) as [s|s| |s m e] eqn:E; try discriminate.
  - intros H. apply andb_true_iff in H. destruct H as (Hn & Hs).
    apply Z.eqb_eq in Hn. subst n. destruct s; [discriminate|].
    rewrite <- (SF2Prim_Prim2SF x), E. reflexivity.
  - intros H. apply andb_true_iff in H. destruct H as (Hd & Hs).
    apply Z.eqb_eq in Hd. rewrite Hd in *.
    destruct (Z.abs n =? 0)%Z eqn:E0.
    + apply Z.eqb_eq in E0. assert (n = 0%Z) by lia. subst n.
      now destruct s.
    + apply Bool.eqb_prop in Hs. now subst s.
Qed.

Lemma advance_spec (c s : Z) :
  (0 <= c <= 1000)%Z -> In s steps ->
  PyFloat.round (dec c + dec s) 3 = dec (c + s) /\
  PyFloat.round (dec c - dec s) 3 = dec (c - s).
Proof.
  intros Hc Hs.
  pose proof (proj1 (forallb_forall (advance_ok step_floats) (range 0 1001))
                advance_table c
                (in_range 0 1001 c ltac:(lia))) as H.
  unfold advance_ok in H.
  pose proof (proj1 (forallb_forall _ step_floats) H (s, dec s)
                (proj2 (in_map_iff (fun s => (s, dec s)) steps (s, dec s))
                       (ex_intro _ s (conj eq_refl Hs)))) as H'.
  clear H. rename H' into H. cbn [fst snd] in H. apply andb_true_iff in H. destruct H as (H1 & H2).
  split; now apply rounds_to_spec.
Qed.

Lemma round_spec (c : Z) :
  (0 <= c <= 1000)%Z ->
  PyFloat.round (dec c) 3 = dec c /\
  MergeScanLinear.second_weight (dec c) = dec (1000 - c).
Proof.
  intros Hc.
  pose proof (proj1 (forallb_forall round_ok (range 0 1001)) round_table c
                (in_range 0 1001 c ltac:(lia))) as H.
  unfold round_ok in H. apply andb_true_iff in H. destruct H as (H1 & H2).
  split; [now apply rounds_to_spec|].
  unfold MergeScanLinear.second_weight. now apply rounds_to_spec.
Qed.

Lemma increasing_lookup (l : list float) :
  increasing l = true ->
  forall i x y, l !! i = Some x -> l !! S i = Some y -> (x <? y)%float = true.
Proof.
  induction l as [|x0 l IH]; intros H i x y Hx Hy; [discriminate|].
  destruct l as [|y0 l]; [discriminate|].
  cbn [increasing] in H. apply andb_true_iff in H. destruct H as (H0 & H).
  destruct i as [|i].
  - cbn in Hx, Hy. now injection Hx as <-; injection Hy as <-.
  - apply (IH H i); assumption.
Qed.

Lemma dec_step (c : Z) : (-1000 <= c < 2000)%Z -> (dec c <? dec (c + 1))%float = true.
Proof.
  intros Hc.
  apply (increasing_lookup _ order_table (Z.to_nat (c + 1000))).
  - rewrite lookup_map, range_lookup by lia. cbn [option_map]. f_equal. f_equal. lia.
  - rewrite lookup_map, range_lookup by lia. cbn [option_map]. f_equal. f_equal. lia.
Qed.

Lemma dec_lt (c c' : Z) :
  (-1000 <= c)%Z -> (c < c')%Z -> (c' <= 2000)%Z -> (dec c <? dec c')%float = true.
Proof.
  intros Hlo Hlt Hhi.
  assert (H : forall n : nat, (c + 1 + Z.of_nat n <= 2000)%Z ->
                              (dec c <? dec (c + 1 + Z.of_nat n))%float = true).
  { induction n as [|n IH]; intros Hn.
    - replace (c + 1 + Z.of_nat 0)%Z with (c + 1)%Z by lia. apply dec_step. lia.
    - apply (ltb_trans _ (dec (c + 1 + Z.of_nat n))); [apply IH; lia|].
      replace (c + 1 + Z.of_nat (S n))%Z with (c + 1 + Z.of_nat n + 1)%Z by lia.
      apply dec_step. lia. }
  specialize (H (Z.to_nat (c' - c - 1))).
  replace (c + 1 + Z.of_nat (Z.to_nat (c' - c - 1)))%Z with c' in H by lia.
  apply H. lia.
Qed.

Lemma dec_refl (c : Z) : (-1000 <= c <= 2000)%Z -> (dec c =? dec c)%float = true.
Proof.
  intros Hc. destruct (Z.eq_dec c 2000%Z) as [->|Hne].
  - apply (leb_eqb_refl (dec 1999) (dec 2000)). apply ltb_leb, dec_lt; lia.
  - apply (leb_eqb_refl (dec c) (dec (c + 1))). apply ltb_leb, dec_step. lia.
Qed.

Lemma dec_leb (c c' : Z) :
  (-1000 <= c <= 2000)%Z -> (-1000 <= c' <= 2000)%Z ->
  (dec c <=? dec c')%float = (c <=? c')%Z.
Proof.
  intros Hc Hc'. destruct (Z.leb_spec c c') as [Hle|Hgt].
  - destruct (Z.eq_dec c c') as [->|Hne].
    + apply eqb_leb, dec_refl. lia.
    + apply ltb_leb, dec_lt; lia.
  - apply gtb_not_leb, dec_lt; lia.
Qed.

Lemma dec_ltb (c c' : Z) :
  (-1000 <= c <= 2000)%Z -> (-1000 <= c' <= 2000)%Z ->
  (dec c <? dec c')%float = (c <? c')%Z.
Proof.
  intros Hc Hc'. destruct (Z.ltb_spec c c') as [Hlt|Hge].
  - apply dec_lt; lia.
  - destruct (Z.eq_dec c c') as [->|Hne].
    + apply eqb_not_ltb, dec_refl. lia.
    + apply gtb_not_ltb, dec_lt; lia.
Qed.

Lemma dec_eqb (c c' : Z) :
  (-1000 <= c <= 2000)%Z -> (-1000 <= c' <= 2000)%Z ->
  (dec c =? dec c')%float = (c =? c')%Z.
Proof.
  intros Hc Hc'. destruct (Z.eqb_spec c c') as [->|Hne].
  - apply dec_refl. lia.
  - destruct (Z_lt_le_dec c c') as [Hlt|Hge].
    + apply ltb_not_eqb, dec_lt; lia.
    + apply gtb_not_eqb, dec_lt; lia.
Qed.

Lemma guard_spec (b : Z) :
  (0 <= b <= 1000)%Z ->
  (dec b <=? dec b + 1e-6)%float = true /\
  (dec b + 1e-6 <? dec (b + 1))%float = true /\
  (dec b - 1e-6 <=? dec b)%float = true /\
  (dec (b - 1) <? dec b - 1e-6)%float = true.
Proof.
  intros Hb.
  pose proof (proj1 (forallb_forall guard_ok (range 0 1001)) guard_table b
                (in_range 0 1001 b ltac:(lia))) as H.
  unfold guard_ok in H. apply andb_true_iff in H. destruct H as (H & H4).
  apply andb_true_iff in H. destruct H as (H & H3).
  apply andb_true_iff in H. destruct H as (H1 & H2). now repeat split.
Qed.

(** The condition of the ascending loop on decimals. *)
Lemma guard_up (b c : Z) :
  (0 <= b <= 1000)%Z -> (-1000 <= c <= 2000)%Z ->
  (dec c <=? dec b + 1e-6)%float = (c <=? b)%Z.
Proof.
  intros Hb Hc. destruct (guard_spec b Hb) as (G1 & G2 & _).
  destruct (Z.leb_spec c b) as [Hle|Hgt].
  - apply (leb_trans _ (dec b)); [|exact G1]. rewrite dec_leb by lia.
    now apply Z.leb_le.
  - apply gtb_not_leb. apply (ltb_leb_trans _ (dec (b + 1))); [exact G2|].
    rewrite dec_leb by lia. apply Z.leb_le. lia.
Qed.

(** The condition of the descending loop on decimals. *)
Lemma guard_down (b c : Z) :
  (0 <= b <= 1000)%Z -> (-1000 <= c <= 2000)%Z ->
  (dec b - 1e-6 <=? dec c)%float = (b <=? c)%Z.
Proof.
  intros Hb Hc. destruct (guard_spec b Hb) as (_ & _ & G3 & G4).
  destruct (Z.leb_spec b c) as [Hle|Hgt].
  - apply (leb_trans _ (dec b)); [exact G3|]. rewrite dec_leb by lia.
    now apply Z.leb_le.
  - apply gtb_not_leb. apply (leb_ltb_trans _ (dec (b - 1))); [|exact G4].
    rewrite dec_leb by lia. apply Z.leb_le. lia.
Qed.

End ThousandthsFacts.

(** ** The weight loop on decimals *)

Section DecimalLoop.
Import Thousandths MergeScanLinear Weights.

Variables a b s : Z.
Hypothesis a_range : (0 <= a <= 1000)%Z.
Hypothesis b_range : (0 <= b <= 1000)%Z.
Hypothesis s_step : In s steps.

Let s_pos : (0 < s <= 500)%Z := steps_positive s s_step.

(** The number of steps between the bounds. *)
Definition step_count : nat := Z.to_nat (Z.abs (b - a) / s).

Lemma step_count_spec :
  (Z.of_nat step_count * s <= Z.abs (b - a) < (Z.of_nat step_count + 1) * s)%Z.
Proof.
  unfold step_count. rewrite Z2Nat.id by (apply Z.div_pos; lia).
  pose proof (Z.mul_div_le (Z.abs (b - a)) s ltac:(lia)).
  pose proof (Z.mul_succ_div_gt (Z.abs (b - a)) s ltac:(lia)). lia.
Qed.

Lemma current_at_up (k : nat) :
  (a < b)%Z -> (k <= S step_count)%nat ->
  current_at (dec a) (dec b) (dec s) k = dec (a + Z.of_nat k * s).
Proof.
  intros Hab. pose proof step_count_spec as Hn.
  induction k as [|k IH]; intros Hk.
  - cbn [current_at]. f_equal. lia.
  - cbn [current_at]. rewrite IH by lia. unfold advance.
    rewrite dec_ltb by lia. rewrite (proj2 (Z.ltb_lt a b) Hab).
    rewrite (proj1 (advance_spec (a + Z.of_nat k * s) s ltac:(nia) s_step)).
    f_equal. lia.
Qed.

Lemma current_at_down (k : nat) :
  (b < a)%Z -> (k <= S step_count)%nat ->
  current_at (dec a) (dec b) (dec s) k = dec (a - Z.of_nat k * s).
Proof.
  intros Hab. pose proof step_count_spec as Hn.
  induction k as [|k IH]; intros Hk.
  - cbn [current_at]. f_equal. lia.
  - cbn [current_at]. rewrite IH by lia. unfold advance.
    rewrite dec_ltb by lia. rewrite (proj2 (Z.ltb_ge a b)) by lia.
    rewrite (proj2 (advance_spec (a - Z.of_nat k * s) s ltac:(nia) s_step)).
    f_equal. lia.
Qed.

Lemma gen_weights_up (fuel : nat) :
  (a <= b)%Z -> (step_count + 1 < fuel)%nat ->
  gen_weights fuel (dec a) (dec b) (dec s)
  = Some (map (fun k => dec (a + Z.of_nat k * s)) (seq 0 (S step_count))).
Proof.
  intros Hab Hfuel. pose proof step_count_spec as Hn.
  destruct (Z.eq_dec a b) as [Heq|Hne].
  - destruct fuel as [|fuel]; [lia|].
    rewrite gen_weights_equal by (rewrite dec_eqb by lia; now apply Z.eqb_eq).
    rewrite guard_up by lia. rewrite (proj2 (Z.leb_le a b)) by lia.
    rewrite (proj1 (round_spec a a_range)).
    assert (E : step_count = 0%nat) by nia.
    rewrite E. cbn [seq map]. do 2 f_equal. f_equal. lia.
  - assert (Hlt : (a < b)%Z) by lia.
    apply gen_weights_distinct; [rewrite dec_eqb by lia; now apply Z.eqb_neq|].
    exists (S step_count). split; [lia|]. split; [split|].
    + rewrite current_at_up by lia. unfold guard.
      rewrite dec_leb by lia. rewrite (proj2 (Z.leb_le a b)) by lia.
      rewrite guard_up by nia. apply Z.leb_gt. nia.
    + intros k Hk. rewrite current_at_up by lia. unfold guard.
      rewrite dec_leb by lia. rewrite (proj2 (Z.leb_le a b)) by lia.
      rewrite guard_up by nia. apply Z.leb_le. nia.
    + unfold first_weights. apply map_ext_in. intros k Hk. apply in_seq in Hk.
      rewrite current_at_up by lia.
      symmetry. apply round_spec. nia.
Qed.

Lemma gen_weights_down (fuel : nat) :
  (b < a)%Z -> (step_count + 1 < fuel)%nat ->
  gen_weights fuel (dec a) (dec b) (dec s)
  = Some (map (fun k => dec (a - Z.of_nat k * s)) (seq 0 (S step_count))).
Proof.
  intros Hab Hfuel. pose proof step_count_spec as Hn.
  apply gen_weights_distinct; [rewrite dec_eqb by lia; apply Z.eqb_neq; lia|].
  exists (S step_count). split; [lia|]. split; [split|].
  - rewrite current_at_down by lia. unfold guard.
    rewrite dec_leb by lia. rewrite (proj2 (Z.leb_gt a b)) by lia.
    rewrite guard_down by nia. apply Z.leb_gt. nia.
  - intros k Hk. rewrite current_at_down by lia. unfold guard.
    rewrite dec_leb by lia. rewrite (proj2 (Z.leb_gt a b)) by lia.
    rewrite guard_down by nia. apply Z.leb_le. nia.
  - unfold first_weights. apply map_ext_in. intros k Hk. apply in_seq in Hk.
    rewrite current_at_down by lia.
    symmetry. apply round_spec. nia.
Qed.

End DecimalLoop.

Section FurtherWeights.
Import Py Trace Thousandths.
Local Open Scope py_scope.

(** X15. The ascending weights on decimals. For bounds with three
    decimals, [0 <= weight_start <= weight_end <= 1], and a step among
    0.001, 0.005, 0.01, 0.02, 0.025, 0.05, 0.1, 0.2, 0.25 and 0.5, the
    loop ends, and its list holds the start, the start plus each
    multiple of the step up to the last that does not exceed the end,
    and nothing else: the floats of these decimals themselves, in
    order. *)
Theorem ascending_decimal_weights (a b s : Z) (fuel : nat) :
  (0 <= a)%Z -> (a <= b)%Z -> (b <= 1000)%Z -> In s steps ->
  (Z.to_nat ((b - a) / s) + 1 < fuel)%nat ->
  MergeScanLinear.gen_weights fuel (dec a) (dec b) (dec s)
  = Some (map (fun k => dec (a + Z.of_nat k * s))
              (seq 0 (S (Z.to_nat ((b - a) / s))))).
Proof.
  intros Ha Hab Hb Hs Hfuel.
  assert (E : step_count a b s = Z.to_nat ((b - a) / s)).
  { unfold step_count. now rewrite Z.abs_eq by lia. }
  rewrite <- E in *. apply gen_weights_up; try assumption; lia.
Qed.

(** X15 at the sweep from 0.3 to 0.7 by 0.2, and at the sweep from 0.0
    to 0.25 by 0.1, which ends at 0.2. *)
Lemma ascending_decimal_weights_witness :
  MergeScanLinear.gen_weights 10 0.3 0.7 0.2 = Some [0.3; 0.5; 0.7]%float /\
  MergeScanLinear.gen_weights 10 0 0.25 0.1 = Some [0; 0.1; 0.2]%float.
Proof.
  split.
  - exact (ascending_decimal_weights 300 700 200 10 ltac:(lia) ltac:(lia) ltac:(lia)
             ltac:(cbn; tauto) ltac:(vm_compute; lia)).
  - exact (ascending_decimal_weights 0 250 100 10 ltac:(lia) ltac:(lia) ltac:(lia)
             ltac:(cbn; tauto) ltac:(vm_compute; lia)).
Defined.

(** X16. The descending weights on decimals. For bounds with three
    decimals, [1 >= weight_start > weight_end >= 0], and a step among
    those of X15, the loop ends, and its list holds the start, the
    start minus each multiple of the step down to the last that is not
    below the end, and nothing else. *)
Theorem descending_decimal_weights (a b s : Z) (fuel : nat) :
  (0 <= b)%Z -> (b < a)%Z -> (a <= 1000)%Z -> In s steps ->
  (Z.to_nat ((a - b) / s) + 1 < fuel)%nat ->
  MergeScanLinear.gen_weights fuel (dec a) (dec b) (dec s)
  = Some (map (fun k => dec (a - Z.of_nat k * s))
              (seq 0 (S (Z.to_nat ((a - b) / s))))).
Proof.
  intros Hb Hab Ha Hs Hfuel.
  assert (E : step_count a b s = Z.to_nat ((a - b) / s)).
  { unfold step_count. rewrite Z.abs_neq by lia. f_equal. f_equal. lia. }
  rewrite <- E in *. apply gen_weights_down; try assumption; lia.
Qed.

(** X16 at the sweep from 0.7 down to 0.3 by 0.2, and at the sweep from
    1.0 down to 0.85 by 0.1, which ends at 0.9. *)
Lemma descending_decimal_weights_witness :
  MergeScanLinear.gen_weights 10 0.7 0.3 0.2 = Some [0.7; 0.5; 0.3]%float /\
  MergeScanLinear.gen_weights 10 1 0.85 0.1 = Some [1; 0.9]%float.
Proof.
  split.
  - exact (descending_decimal_weights 700 300 200 10 ltac:(lia) ltac:(lia) ltac:(lia)
             ltac:(cbn; tauto) ltac:(vm_compute; lia)).
  - exact (descending_decimal_weights 1000 850 100 10 ltac:(lia) ltac:(lia) ltac:(lia)
             ltac:(cbn; tauto) ltac:(vm_compute; lia)).
Defined.

(** X17. The second weight of a decimal weight. For a weight [c / 1000]
    with [0 <= c <= 1000], rounding to three places leaves the weight
    as it is, and the second weight is the float of the decimal
    [(1000 - c) / 1000]: the recipe and the output directory of the
    weight 0.3 are named after 0.3 and 0.7. *)
Theorem second_weight_of_decimal (c : Z) :
  (0 <= c <= 1000)%Z ->
  PyFloat.round (dec c) 3 = dec c /\
  MergeScanLinear.second_weight (dec c) = dec (1000 - c) /\
  forall (float_str : float -> string) (output_dir : option string),
    linear_path float_str (dec c)
    = "scratch/tmp_yamls/linear/weights_" +:+ float_str (dec c) +:+ "_"
      +:+ float_str (dec (1000 - c)) +:+ ".yml" /\
    linear_out float_str output_dir (dec c)
    = none_str output_dir +:+ "_" +:+ float_str (dec c) +:+ "_"
      +:+ float_str (dec (1000 - c)).
Proof.
  intros Hc. destruct (round_spec c Hc) as (H1 & H2).
  split; [exact H1|]. split; [exact H2|].
  intros float_str output_dir.
  unfold linear_path, linear_out, MergeScanLinear.temp_yaml_path,
    MergeScanLinear.current_output_dir. rewrite H2. split; reflexivity.
Qed.

(** X17 at the weight 0.3. *)
Lemma second_weight_of_decimal_witness :
  MergeScanLinear.second_weight 0.3 = 0.7%float /\
  linear_path PyFloat.repr 0.3 = "scratch/tmp_yamls/linear/weights_0.3_0.7.yml" /\
  linear_out PyFloat.repr (Some "out") 0.3 = "out_0.3_0.7".
Proof.
  destruct (second_weight_of_decimal 300 ltac:(lia)) as (_ & H2 & H3).
  split; [exact H2|].
  destruct (H3 PyFloat.repr (Some "out")) as (Hp & Ho). split.
  - etransitivity; [exact Hp|]. vm_compute. reflexivity.
  - etransitivity; [exact Ho|]. vm_compute. reflexivity.
Defined.

(** X18. A bound that is not a number gives no weights. With a NaN as
    [weight_start] or as [weight_end] the loop condition fails at once,
    whatever the step: the list of weights is empty, and [main] creates
    the directory of the recipes and does nothing else. *)
Theorem nan_bound_gives_no_weights (weight_start weight_end step_size : float)
    (fuel : nat) :
  is_nan weight_start = true \/ is_nan weight_end = true ->
  MergeScanLinear.gen_weights (S fuel) weight_start weight_end step_size = Some [] /\
  forall (float_str : float -> string) (exn_str : exn -> string)
         (output_dir : option string) (env : nat -> outcome) (original_yaml : value),
  exists run,
    MergeScanLinear.main float_str exn_str (S fuel)
      (MergeScanLinear.Args weight_start weight_end step_size output_dir)
      env original_yaml = Some run /\
    forall h tr,
      run (World h tr) = (Ok tt, World h (tr ++ [EMakedirs MergeScanLinear.YAML_DIR])).
Proof.
  intros Hnan.
  assert (E : MergeScanLinear.gen_weights (S fuel) weight_start weight_end step_size
              = Some []).
  { unfold MergeScanLinear.gen_weights. cbn [MergeScanLinear.weights_loop].
    unfold MergeScanLinear.guard. destruct Hnan as [H|H].
    - rewrite (proj1 (nan_leb weight_start weight_end H)).
      now rewrite (proj2 (nan_leb weight_start (weight_end - 1e-6) H)).
    - rewrite (proj2 (nan_leb weight_end weight_start H)).
      now rewrite (proj1 (nan_leb (weight_end - 1e-6) weight_start (nan_sub _ _ H))). }
  split; [exact E|].
  intros float_str exn_str output_dir env original_yaml.
  unfold MergeScanLinear.main.
  cbn [MergeScanLinear.weight_start MergeScanLinear.weight_end
       MergeScanLinear.step_size MergeScanLinear.output_dir].
  rewrite E. eexists. split; [reflexivity|]. intros h tr. reflexivity.
Qed.

(** X18 at the bounds NaN and 0.5. *)
Lemma nan_bound_gives_no_weights_witness :
  is_nan nan = true /\
  MergeScanLinear.gen_weights 1 nan 0.5 0.1 = Some [] /\
  MergeScanLinear.gen_weights 1 0.5 nan 0.1 = Some [].
Proof.
  split; [reflexivity|]. split.
  - exact (proj1 (nan_bound_gives_no_weights nan 0.5 0.1 0 (or_introl eq_refl))).
  - exact (proj1 (nan_bound_gives_no_weights 0.5 nan 0.1 0 (or_intror eq_refl))).
Defined.

End FurtherWeights.


(** ** Densities with decimals *)

Module DensityGrid.
Import Py Thousandths.

(** The steps 0.05, 0.1, 0.2 and 0.25, in thousandths. *)
Definition units : list Z := [50; 100; 200; 250]%Z.

Fixpoint floats_eqb (a b : list float) : bool :=
  match a, b with
  | [], [] => true
  | x :: a', y :: b' => PrimFloat.Leibniz.eqb x y && floats_eqb a' b'
  | _, _ => false
  end.

(** The decimals from [u * i] to [u * j] by [u]. *)
Definition decimals (u i j : Z) : list float :=
  map (fun k => dec (u * (i + Z.of_nat k))) (seq 0 (Z.to_nat (j + 1 - i))).

(** The density axis from [u * i] to [u * j] by [u] holds these
    decimals. *)
Definition axis_ok (u : Z) (ij : Z * Z) : bool :=
  match MergeScanTies.density_axis (dec (u * fst ij)) (dec (u * snd ij)) (dec u) with
  | Ok l => floats_eqb l (decimals u (fst ij) (snd ij))
  | Raise _ => false
  end.

Definition pairs (n : Z) : list (Z * Z) :=
  flat_map (fun i => map (fun j => (i, j)) (range 0 n)) (range 0 n).

Definition unit_ok (u : Z) : bool := forallb (axis_ok u) (pairs (1000 / u + 1)).

End DensityGrid.

(** ** The names of the files of decimal weights *)

Module WeightNames.
Import Thousandths.

Definition digit_value (c : ascii) : option Z :=
  let n := Z.of_N (Ascii.N_of_ascii c) in
  if ((48 <=? n) && (n <=? 57))%Z then Some (n - 48)%Z else None.

(** The thousandths that a decimal notation with a point and at most
    three places after it denotes. *)
Fixpoint read_places (places : nat) (cs : list ascii) (acc : Z) : option Z :=
  match places, cs with
  | O, [] => Some acc
  | O, _ :: _ => None
  | S p, [] => read_places p [] (acc * 10)
  | S p, c :: rest =>
      match digit_value c with
      | Some d => read_places p rest (acc * 10 + d)
      | None => None
      end
  end.

Fixpoint read_decimal (cs : list ascii) (acc : Z) : option Z :=
  match cs with
  | [] => None
  | c :: rest =>
      if Ascii.eqb c "." then read_places 3 rest acc
      else match digit_value c with
           | Some d => read_decimal rest (acc * 10 + d)
           | None => None
           end
  end.

Definition thousandths_of (s : string) : option Z :=
  read_decimal (String.list_ascii_of_string s) 0.

(** The printed weight [c / 1000] has no underscore and reads back as
    [c]. *)
Definition name_ok (c : Z) : bool :=
  let s := PyFloat.repr (dec c) in
  Paths.plain s &&
  match thousandths_of s with
  | Some n => (n =? c)%Z
  | None => false
  end.

End WeightNames.

Section GridTables.
Import Thousandths DensityGrid WeightNames.

Lemma axis_table : forallb unit_ok units = true.
Proof. vm_cast_no_check (eq_refl true). Qed.

Lemma name_table : forallb name_ok (range 0 1001) = true.
Proof. vm_cast_no_check (eq_refl true). Qed.

Lemma floats_eqb_eq (a b : list float) : floats_eqb a b = true -> a = b.
Proof.
  revert b. induction a as [|x a IH]; intros [|y b]; cbn; try discriminate;
    [reflexivity|].
  intros H. apply andb_true_iff in H. destruct H as (Hxy & Hab).
  apply FloatAxioms.Leibniz.eqb_spec in Hxy. subst y. f_equal. now apply IH.
Qed.

Lemma in_pairs (n i j : Z) :
  (0 <= i < n)%Z -> (0 <= j < n)%Z -> In (i, j) (pairs n).
Proof.
  intros Hi Hj. unfold pairs. apply in_flat_map. exists i.
  split; [apply in_range; lia|]. apply in_map_iff. exists j.
  split; [reflexivity|apply in_range; lia].
Qed.

Lemma units_positive (u : Z) : In u units -> (50 <= u <= 250)%Z.
Proof.
  unfold units. cbn. intros H. repeat (destruct H as [<-|H]; [lia|]). contradiction.
Qed.

Lemma axis_spec (u i j : Z) :
  In u units -> (0 <= i)%Z -> (0 <= j)%Z -> (u * i <= 1000)%Z -> (u * j <= 1000)%Z ->
  MergeScanTies.density_axis (dec (u * i)) (dec (u * j)) (dec u)
  = Py.Ok (decimals u i j).
Proof.
  intros Hu Hi Hj Hui Huj. pose proof (units_positive u Hu) as Hpos.
  pose proof (proj1 (forallb_forall unit_ok units) axis_table u Hu) as H.
  unfold unit_ok in H.
  assert (Hin : In (i, j) (pairs (1000 / u + 1))).
  { apply in_pairs.
    - pose proof (Z.div_le_lower_bound 1000 u i ltac:(lia) Hui). lia.
    - pose proof (Z.div_le_lower_bound 1000 u j ltac:(lia) Huj). lia. }
  pose proof (proj1 (forallb_forall (axis_ok u) _) H (i, j) Hin) as Hij.
  unfold axis_ok in Hij. cbn [fst snd] in Hij.
  destruct (MergeScanTies.density_axis (dec (u * i)) (dec (u * j)) (dec u))
    as [l|e]; [|discriminate].
  f_equal. now apply floats_eqb_eq.
Qed.

Lemma dec_inj (c c' : Z) :
  (-1000 <= c <= 2000)%Z -> (-1000 <= c' <= 2000)%Z -> dec c = dec c' -> c = c'.
Proof.
  intros Hc Hc' E. pose proof (dec_eqb c c' Hc Hc') as H.
  rewrite E, dec_refl in H by exact Hc'. symmetry in H. now apply Z.eqb_eq in H.
Qed.

Lemma decimals_NoDup (u i j : Z) :
  (0 < u)%Z -> (0 <= i)%Z -> (u * j <= 1000)%Z -> NoDup (decimals u i j).
Proof.
  intros Hu Hi Huj. unfold decimals.
  apply (NoDup_fmap_2_strong (fun k => dec (u * (i + Z.of_nat k)))); [|apply NoDup_seq].
  intros k k' Hk Hk' E. apply list_elem_of_In, in_seq in Hk, Hk'.
  apply dec_inj in E; nia.
Qed.

Lemma name_spec (c : Z) :
  (0 <= c <= 1000)%Z ->
  Paths.plain (PyFloat.repr (dec c)) = true /\
  thousandths_of (PyFloat.repr (dec c)) = Some c.
Proof.
  intros Hc.
  pose proof (proj1 (forallb_forall name_ok (range 0 1001)) name_table c
                (in_range 0 1001 c ltac:(lia))) as H.
  unfold name_ok in H. apply andb_true_iff in H. destruct H as (H1 & H2).
  split; [exact H1|].
  destruct (thousandths_of (PyFloat.repr (dec c))) as [n|]; [|discriminate].
  apply Z.eqb_eq in H2. now subst n.
Qed.

End GridTables.

Section FurtherGrids.
Import Py Thousandths DensityGrid WeightNames.

(** X19. The density pairs on decimals. For a step among 0.05, 0.1, 0.2
    and 0.25 and density bounds between 0 and 1 that are multiples of
    the step, the values of the density axis are the start, the start
    plus each multiple of the step, and the end itself as the last;
    none when the end is below the start. The density pairs are all
    pairs of these values, each once. *)
Theorem density_pairs_on_decimals (a : MergeScanTies.args) (u i j : Z) :
  In u units -> (0 <= i)%Z -> (0 <= j)%Z -> (u * i <= 1000)%Z -> (u * j <= 1000)%Z ->
  MergeScanTies.density_start a = Some (dec (u * i)) ->
  MergeScanTies.density_end a = Some (dec (u * j)) ->
  MergeScanTies.density_step a = dec u ->
  MergeScanTies.density_axis (dec (u * i)) (dec (u * j)) (dec u)
  = Ok (decimals u i j) /\
  MergeScanTies.density_pairs a
  = Ok (map Some (list_prod (decimals u i j) (decimals u i j))) /\
  NoDup (list_prod (decimals u i j) (decimals u i j)) /\
  length (decimals u i j) = Z.to_nat (j + 1 - i).
Proof.
  intros Hu Hi Hj Hui Huj Hs He Hst.
  pose proof (axis_spec u i j Hu Hi Hj Hui Huj) as Haxis.
  pose proof (units_positive u Hu) as Hpos.
  split; [exact Haxis|]. split; [|split].
  - unfold MergeScanTies.density_pairs.
    now rewrite Hs, He, Hst, density_grid_product, Haxis.
  - apply NoDup_list_prod, decimals_NoDup; lia.
  - unfold decimals. now rewrite length_map, length_seq.
Qed.

(** X19 at the densities from 0.2 to 0.4 by 0.1: the axis is 0.2, 0.3,
    0.4, and from 0.4 to 0.2 it is empty. *)
Lemma density_pairs_on_decimals_witness :
  MergeScanTies.density_axis 0.2 0.4 0.1 = Ok [0.2; 0.3; 0.4]%float /\
  MergeScanTies.density_axis 0.4 0.2 0.1 = Ok [].
Proof.
  split.
  - exact (proj1 (density_pairs_on_decimals
                    (MergeScanTies.Args 1 None 0.1 (Some 0.2%float) (Some 0.4%float)
                       0.1 "out")
                    100 2 4 ltac:(cbn; tauto) ltac:(lia) ltac:(lia) ltac:(lia) ltac:(lia)
                    eq_refl eq_refl eq_refl)).
  - exact (proj1 (density_pairs_on_decimals
                    (MergeScanTies.Args 1 None 0.1 (Some 0.4%float) (Some 0.2%float)
                       0.1 "out")
                    100 4 2 ltac:(cbn; tauto) ltac:(lia) ltac:(lia) ltac:(lia) ltac:(lia)
                    eq_refl eq_refl eq_refl)).
Defined.

(** X20. Decimal weights have files of their own. Two different weights
    with three decimals between 0 and 1 are printed differently, so
    that their recipes have different paths and their merges different
    output directories. *)
Theorem decimal_weights_have_their_own_files (c c' : Z)
    (output_dir : option string) :
  (0 <= c <= 1000)%Z -> (0 <= c' <= 1000)%Z -> c <> c' ->
  PyFloat.repr (dec c) <> PyFloat.repr (dec c') /\
  linear_path PyFloat.repr (dec c) <> linear_path PyFloat.repr (dec c') /\
  linear_out PyFloat.repr output_dir (dec c)
  <> linear_out PyFloat.repr output_dir (dec c').
Proof.
  intros Hc Hc' Hne.
  destruct (name_spec c Hc) as (Hp & Hn). destruct (name_spec c' Hc') as (Hp' & Hn').
  assert (Hrepr : PyFloat.repr (dec c) <> PyFloat.repr (dec c')).
  { intros E. rewrite E, Hn' in Hn. injection Hn as ->. now apply Hne. }
  split; [exact Hrepr|]. split; intros E; apply Hrepr.
  - exact (linear_path_inj PyFloat.repr (dec c) (dec c') Hp Hp' E).
  - exact (linear_out_inj PyFloat.repr output_dir (dec c) (dec c') Hp Hp' E).
Qed.

(** X20 at the weights 0.3 and 0.31. *)
Lemma decimal_weights_have_their_own_files_witness :
  linear_path PyFloat.repr 0.3 <> linear_path PyFloat.repr 0.31 /\
  linear_out PyFloat.repr (Some "out") 0.3 <> linear_out PyFloat.repr (Some "out") 0.31.
Proof.
  exact (proj2 (decimal_weights_have_their_own_files 300 310 (Some "out")
                  ltac:(lia) ltac:(lia) ltac:(lia))).
Defined.

End FurtherGrids.
